(** * Storefront identity and wishlist merge: a shallow embedding

    The development follows the repository file by file:
    - [Js]            the few JavaScript primitives the code leans on;
    - [ProxyAuth]     web/auth/proxy-auth.js;
    - [SessionManager] web/auth/session-manager.js (validate and refresh);
    - [Prisma]        the tables of the SQL migration and the client calls
                      the route handlers make;
    - [WishlistProxy] web/routes/wishlist-proxy.js (add, remove, migrate).

    External libraries are not re-implemented.  A signed token is a symbolic
    value (the payload together with the key it was signed under); the HMAC
    digest, the base64 decoder, JSON.stringify and the engine's StringToBigInt
    are section variables about which nothing is assumed.  The clock is read
    once per request. *)

From Stdlib Require Import String Ascii ZArith List Bool Lia Arith Permutation.
From Stdlib Require Import DecimalString.
From Stdlib.Strings Require Byte.
Import ListNotations.
Local Open Scope string_scope.

(* ------------------------------------------------------------------ *)
(** ** JavaScript primitives *)

Module Js.

(** JSON values as they reach a handler in [req.body]; numbers are the
    integral ones. *)
Inductive jsval : Type :=
| JUndefined
| JNull
| JBool (b : bool)
| JNum (z : Z)
| JStr (s : string).

(** ToBoolean. *)
Definition truthy (v : jsval) : bool :=
  match v with
  | JUndefined | JNull => false
  | JBool b => b
  | JNum z => negb (z =? 0)%Z
  | JStr s => negb (s =? "")
  end.

(** [a || b]. *)
Definition or_else (a b : jsval) : jsval := if truthy a then a else b.

(** An optional header or query value seen as a JavaScript value. *)
Definition of_option (o : option string) : jsval :=
  match o with Some s => JStr s | None => JUndefined end.

(** Errors a call can throw. *)
Inductive exn : Type :=
| RangeError (msg : string)
| ReferenceError (msg : string)
| SyntaxError (msg : string)
| TypeError (msg : string)
| JsonWebTokenError (msg : string)
| TokenExpiredError
| PrismaKnownRequestError (code : string)
| PrismaValidationError.

(** The outcome of an expression that may throw. *)
Inductive Res (A : Type) : Type :=
| Val (a : A)
| Exn (e : exn).
Arguments Val {A} a.
Arguments Exn {A} e.

(** [s.startsWith(p)]. *)
Definition startsWith (s p : string) : bool := String.prefix p s.

(** [s.substring(n)]. *)
Fixpoint substring_from (n : nat) (s : string) : string :=
  match n, s with
  | O, _ => s
  | S n', String _ s' => substring_from n' s'
  | S _, EmptyString => EmptyString
  end.

(** [s.replace(pat, '')] with a string pattern: the first occurrence of
    [pat], wherever it is, is removed. *)
Fixpoint remove_first (pat s : string) : string :=
  if String.prefix pat s then substring_from (String.length pat) s
  else match s with
       | EmptyString => EmptyString
       | String c s' => String c (remove_first pat s')
       end.

(** Decimal rendering of a counter or a clock value in a template string. *)
Definition dec (n : nat) : string := NilZero.string_of_uint (Nat.to_uint n).
Definition decZ (z : Z) : string := NilZero.string_of_int (Z.to_int z).

(** [Math.floor(Date.now() / 1000)] for a clock in milliseconds. *)
Definition seconds (now : Z) : Z := (now / 1000)%Z.

End Js.

(* ------------------------------------------------------------------ *)
(** ** web/auth/proxy-auth.js *)

Module ProxyAuth.
Import Js.

(** The claims of a storefront token. *)
Record Payload : Type := mkPayload {
  tok_shop : string;
  tok_customerId : option string;
  tok_type : string;
  tok_iat : Z;
  tok_exp : Z
}.

(** What a client can present as a token: something signed under some key,
    or a string that does not parse. *)
Inductive Token : Type :=
| Signed (p : Payload) (key : string)
| Malformed (s : string).

(** [jwt.sign(payload, secret)]. *)
Definition jwt_sign (p : Payload) (secret : string) : Token := Signed p secret.

(** [jwt.verify(token, secret)] read at clock [now]: the signature is checked,
    then the library rejects a token once the clock has reached [exp]. *)
Definition jwt_verify (now : Z) (t : Token) (secret : string) : Res Payload :=
  match t with
  | Malformed _ => Exn (JsonWebTokenError "jwt malformed")
  | Signed p key =>
      if negb (key =? secret) then Exn (JsonWebTokenError "invalid signature")
      else if (tok_exp p <=? seconds now)%Z then Exn TokenExpiredError
      else Val p
  end.

(** The parts of an inbound request the proxy middleware reads. *)
Record Request : Type := mkRequest {
  hdr_hmac : option string;
  hdr_shop_domain : option string;
  query_shop : option string;
  rawBody : option (list Byte.byte);
  body : list (string * jsval)
}.

(** [req.body.name]. *)
Fixpoint field (name : string) (b : list (string * jsval)) : jsval :=
  match b with
  | [] => JUndefined
  | (k, v) :: b' => if k =? name then v else field name b'
  end.

(** What a middleware does with a request. *)
Inductive MwOutcome : Type :=
| Respond (status : nat) (error : string)
| Next (shop : jsval).

(** The result of [parseCustomerId]. *)
Record Identity : Type := mkIdentity {
  isGuest : bool;
  customerId : option string
}.

(** [crypto.timingSafeEqual]: buffers of different lengths are an error. *)
Definition timingSafeEqual (a b : list Byte.byte) : Res bool :=
  if Nat.eqb (List.length a) (List.length b)
  then Val (if list_eq_dec Byte.byte_eq_dec a b then true else false)
  else Exn (RangeError "Input buffers must have the same byte length").

Section WithEnvironment.

(** [process.env]. *)
Variable env : string -> option string.

(** [createHmac('sha256', key).update(data).digest('base64')]. *)
Variable hmac_sha256_base64 : string -> list Byte.byte -> string.
(** [Buffer.from(s, 'base64')]. *)
Variable Buffer_from_base64 : string -> list Byte.byte.
(** [JSON.stringify(req.body)]. *)
Variable JSON_stringify : list (string * jsval) -> string.

(** [process.env.NAME || fallback]. *)
Definition env_or (name fallback : string) : string :=
  match env name with
  | Some s => if s =? "" then fallback else s
  | None => fallback
  end.

Definition JWT_SECRET : string :=
  env_or "JWT_SECRET" "your-jwt-secret-change-in-production".

Definition generateStorefrontToken
    (now : Z) (shop : string) (customerId : option string) (expiresIn : Z)
  : Token :=
  let payload :=
    {| tok_shop := shop;
       tok_customerId := customerId;
       tok_type := "storefront";
       tok_iat := seconds now;
       tok_exp := (seconds now + expiresIn)%Z |} in
  jwt_sign payload JWT_SECRET.

(** The default of the [expiresIn] parameter. *)
Definition default_expiresIn : Z := 3600.

Definition verifyStorefrontToken (now : Z) (token : Token) : option Payload :=
  match jwt_verify now token JWT_SECRET with
  | Val p => Some p
  | Exn _ => None
  end.

Definition verifyAppProxyHMAC (req : Request) (shopifyApiSecret : string)
  : Res bool :=
  match hdr_hmac req with
  | None => Val false
  | Some hmac =>
      if hmac =? "" then Val false
      else
        let raw :=
          match rawBody req with
          | Some buf => buf
          | None => list_byte_of_string (JSON_stringify (body req))
          end in
        let expectedHmac := hmac_sha256_base64 shopifyApiSecret raw in
        timingSafeEqual (Buffer_from_base64 hmac)
                        (Buffer_from_base64 expectedHmac)
  end.

(** The middleware has no handler of its own: what [verifyAppProxyHMAC]
    throws leaves it as an exception. *)
Definition verifyAppProxyRequest (req : Request) : Res MwOutcome :=
  match env "SHOPIFY_API_SECRET" with
  | None => Val (Respond 500 "Server configuration error")
  | Some shopifyApiSecret =>
      if shopifyApiSecret =? ""
      then Val (Respond 500 "Server configuration error")
      else
        match verifyAppProxyHMAC req shopifyApiSecret with
        | Exn e => Exn e
        | Val false => Val (Respond 401 "Unauthorized")
        | Val true =>
            let shop :=
              or_else (or_else (of_option (hdr_shop_domain req))
                               (of_option (query_shop req)))
                      (field "shop" (body req)) in
            if negb (truthy shop)
            then Val (Respond 400 "Shop domain required")
            else Val (Next shop)
        end
  end.

Definition generateGuestToken (now : Z) (shop guestId : string) : Token :=
  generateStorefrontToken now shop (Some ("guest_" ++ guestId)) 86400.

Definition parseCustomerId (cid : option string) : Identity :=
  match cid with
  | None => {| isGuest := true; customerId := None |}
  | Some s =>
      if s =? "" then {| isGuest := true; customerId := None |}
      else if startsWith s "guest_"
      then {| isGuest := true; customerId := Some (substring_from 6 s) |}
      else {| isGuest := false; customerId := Some s |}
  end.

End WithEnvironment.

End ProxyAuth.

(* ------------------------------------------------------------------ *)
(** ** web/auth/session-manager.js *)

Module SessionManager.
Import Js ProxyAuth.

(** What [validateSession] returns; [ses_expiresAt] is [new Date(exp * 1000)]
    in milliseconds. *)
Record Session : Type := mkSession {
  ses_shop : string;
  ses_customerId : option string;
  ses_type : string;
  ses_expiresAt : Z
}.

(** What [refreshSession] returns. *)
Record Refreshed : Type := mkRefreshed {
  ref_success : bool;
  ref_token : Token;
  ref_expiresIn : Z;
  ref_customerId : option string
}.

Section WithEnvironment.

Variable env : string -> option string.

Definition validateSession (now : Z) (token : Token) (shop : string)
  : option Session :=
  match verifyStorefrontToken env now token with
  | None => None
  | Some decoded =>
      if negb (tok_shop decoded =? shop) then None
      else if (tok_exp decoded <? seconds now)%Z then None
      else Some {| ses_shop := tok_shop decoded;
                   ses_customerId := tok_customerId decoded;
                   ses_type := tok_type decoded;
                   ses_expiresAt := (tok_exp decoded * 1000)%Z |}
  end.

Definition refreshSession (now : Z) (token : Token) (shop : string)
  : option Refreshed :=
  match validateSession now token shop with
  | None => None
  | Some session =>
      let newToken :=
        generateStorefrontToken env now shop (ses_customerId session)
                                default_expiresIn in
      Some {| ref_success := true;
              ref_token := newToken;
              ref_expiresIn := 3600;
              ref_customerId := ses_customerId session |}
  end.

End WithEnvironment.

End SessionManager.

(* ------------------------------------------------------------------ *)
(** ** The tables and the client calls *)

Module Prisma.
Import Js.

(** Row identifiers are opaque strings minted by the client; here they are
    drawn from a counter kept with the tables.  The [createdAt] columns are
    filled by the database and decide nothing, so they are left out.  A
    BIGINT column is read as an integer; what the client lets into one is
    bounded, see [fits_int64]. *)
Abbreviation rowid := nat (only parsing).

Record Shop : Type := mkShop {
  shop_id : rowid;
  shop_domain : string;
  shop_accessToken : string
}.

Record Customer : Type := mkCustomer {
  cust_id : rowid;
  cust_shopId : rowid;
  cust_shopCustomerId : Z;
  cust_email : option string
}.

Record Wishlist : Type := mkWishlist {
  wl_id : rowid;
  wl_shopId : rowid;
  wl_customerId : option rowid;
  wl_shareUUID : string
}.

Record WishlistItem : Type := mkItem {
  it_id : rowid;
  it_wishlistId : rowid;
  it_productId : Z;
  it_variantId : Z;
  it_handle : string
}.

Inductive EventPayload : Type :=
| AddPayload (productId variantId handle : jsval) (isGuest : bool)
| RemovePayload (productId variantId handle : string) (isGuest : bool)
| MigratePayload (migratedCount : nat) (guestId : string).

Record Event : Type := mkEvent {
  ev_id : rowid;
  ev_shopId : rowid;
  ev_customerId : option rowid;
  ev_type : string;
  ev_payload : EventPayload
}.

Record DB : Type := mkDB {
  shops : list Shop;
  customers : list Customer;
  wishlists : list Wishlist;
  items : list WishlistItem;
  events : list Event;
  nextId : rowid
}.

(** A handler body: it reads and writes the tables and may throw; what was
    written before a throw stays written (no transaction is opened). *)
Definition M (A : Type) : Type := DB -> Res A * DB.

Definition ret {A} (a : A) : M A := fun db => (Val a, db).
Definition throw {A} (e : exn) : M A := fun db => (Exn e, db).
Definition bind {A B} (m : M A) (k : A -> M B) : M B :=
  fun db =>
    match m db with
    | (Val a, db') => k a db'
    | (Exn e, db') => (Exn e, db')
    end.
Definition query {A} (f : DB -> A) : M A := fun db => (Val (f db), db).
Definition lift {A} (r : Res A) : M A := fun db => (r, db).

Declare Scope prisma_scope.
Delimit Scope prisma_scope with prisma.
Notation "x <- m ;; k" := (bind m (fun x => k))
  (at level 61, m at next level, right associativity) : prisma_scope.
Notation "m ;;; k" := (bind m (fun _ => k))
  (at level 61, right associativity) : prisma_scope.

Definition opt_rowid_eqb (a b : option rowid) : bool :=
  match a, b with
  | None, None => true
  | Some x, Some y => Nat.eqb x y
  | _, _ => false
  end.

(** *** Reads

    A table is the list of its rows in insertion order; [findFirst], which
    the code calls without an ordering, returns the first row that matches. *)

(** [prisma.shop.findUnique({ where: { domain } })]. *)
Definition shop_findUnique (domain : string) (db : DB) : option Shop :=
  find (fun s => shop_domain s =? domain) (shops db).

(** A BIGINT column holds a signed 64-bit integer, a JavaScript BigInt any
    integer: the client refuses one outside the range, in a filter as in a
    row to store, before anything is read or written. *)
Definition fits_int64 (n : Z) : bool :=
  (- 2 ^ 63 <=? n)%Z && (n <? 2 ^ 63)%Z.

Definition out_of_range : exn := PrismaKnownRequestError "P2033".

(** [prisma.customer.findFirst({ where: { shopId, shopCustomerId } })]. *)
Definition customer_findFirst (shopId : rowid) (shopCustomerId : Z)
  : M (option Customer) :=
  fun db =>
    if fits_int64 shopCustomerId
    then (Val (find (fun c => Nat.eqb (cust_shopId c) shopId
                              && (cust_shopCustomerId c =? shopCustomerId)%Z)
                    (customers db)), db)
    else (Exn out_of_range, db).

(** [prisma.wishlist.findFirst({ where: { shopId, customerId: null,
    shareUUID } })]. *)
Definition wishlist_findFirst_guest (shopId : rowid) (shareUUID : string)
    (db : DB) : option Wishlist :=
  find (fun w => Nat.eqb (wl_shopId w) shopId
                 && opt_rowid_eqb (wl_customerId w) None
                 && (wl_shareUUID w =? shareUUID))
       (wishlists db).

(** [prisma.wishlist.findUnique({ where: { shopId_customerId } })]. *)
Definition wishlist_findUnique (shopId customerId : rowid) (db : DB)
  : option Wishlist :=
  find (fun w => Nat.eqb (wl_shopId w) shopId
                 && opt_rowid_eqb (wl_customerId w) (Some customerId))
       (wishlists db).

(** The [items] relation of a wishlist ([include: { items: true }]). *)
Definition items_of (wishlistId : rowid) (db : DB) : list WishlistItem :=
  filter (fun it => Nat.eqb (it_wishlistId it) wishlistId) (items db).

Definition same_key (productId variantId : Z) (it : WishlistItem) : bool :=
  (it_productId it =? productId)%Z && (it_variantId it =? variantId)%Z.

(** [prisma.wishlistItem.findFirst({ where: { wishlistId, productId,
    variantId } })]. *)
Definition wishlistItem_findFirst (wishlistId : rowid) (productId variantId : Z)
  : M (option WishlistItem) :=
  fun db =>
    if fits_int64 productId && fits_int64 variantId
    then (Val (find (fun it => Nat.eqb (it_wishlistId it) wishlistId
                               && same_key productId variantId it)
                    (items db)), db)
    else (Exn out_of_range, db).

(** [prisma.wishlistItem.findUnique({ where: { id }, include: { wishlist } })]. *)
Definition wishlistItem_findUnique (id : rowid) (db : DB)
  : option (WishlistItem * option Wishlist) :=
  match find (fun it => Nat.eqb (it_id it) id) (items db) with
  | None => None
  | Some it =>
      Some (it, find (fun w => Nat.eqb (wl_id w) (it_wishlistId it))
                     (wishlists db))
  end.

(** *** Constraints of the migration file *)

Definition shop_exists (id : rowid) (db : DB) : bool :=
  existsb (fun s => Nat.eqb (shop_id s) id) (shops db).
Definition customer_exists (id : rowid) (db : DB) : bool :=
  existsb (fun c => Nat.eqb (cust_id c) id) (customers db).
Definition wishlist_exists (id : rowid) (db : DB) : bool :=
  existsb (fun w => Nat.eqb (wl_id w) id) (wishlists db).
Definition optional_customer_exists (c : option rowid) (db : DB) : bool :=
  match c with None => true | Some id => customer_exists id db end.

(** "Wishlist_shareUUID_key". *)
Definition shareUUID_taken (u : string) (db : DB) : bool :=
  existsb (fun w => wl_shareUUID w =? u) (wishlists db).
(** "Wishlist_shopId_customerId_key"; rows with a null customer never clash. *)
Definition shop_customer_taken (shopId : rowid) (c : option rowid) (db : DB)
  : bool :=
  match c with
  | None => false
  | Some _ =>
      existsb (fun w => Nat.eqb (wl_shopId w) shopId
                        && opt_rowid_eqb (wl_customerId w) c)
              (wishlists db)
  end.

(** *** Writes *)

(** [prisma.wishlist.create]. *)
Definition wishlist_create (shopId : rowid) (customerId : option rowid)
    (shareUUID : string) : M Wishlist :=
  fun db =>
    if shareUUID_taken shareUUID db || shop_customer_taken shopId customerId db
    then (Exn (PrismaKnownRequestError "P2002"), db)
    else if negb (shop_exists shopId db
                  && optional_customer_exists customerId db)
    then (Exn (PrismaKnownRequestError "P2003"), db)
    else
      let w := {| wl_id := nextId db; wl_shopId := shopId;
                  wl_customerId := customerId; wl_shareUUID := shareUUID |} in
      (Val w, {| shops := shops db; customers := customers db;
                 wishlists := wishlists db ++ [w]; items := items db;
                 events := events db; nextId := S (nextId db) |}).

(** [prisma.wishlistItem.create]. *)
Definition wishlistItem_create (wishlistId : rowid) (productId variantId : Z)
    (handle : string) : M WishlistItem :=
  fun db =>
    if negb (fits_int64 productId && fits_int64 variantId)
    then (Exn out_of_range, db)
    else if negb (wishlist_exists wishlistId db)
    then (Exn (PrismaKnownRequestError "P2003"), db)
    else
      let it := {| it_id := nextId db; it_wishlistId := wishlistId;
                   it_productId := productId; it_variantId := variantId;
                   it_handle := handle |} in
      (Val it, {| shops := shops db; customers := customers db;
                  wishlists := wishlists db; items := items db ++ [it];
                  events := events db; nextId := S (nextId db) |}).

(** [prisma.wishlistItem.delete({ where: { id } })]. *)
Definition wishlistItem_delete (id : rowid) : M unit :=
  fun db =>
    if negb (existsb (fun it => Nat.eqb (it_id it) id) (items db))
    then (Exn (PrismaKnownRequestError "P2025"), db)
    else
      (Val tt, {| shops := shops db; customers := customers db;
                  wishlists := wishlists db;
                  items := filter (fun it => negb (Nat.eqb (it_id it) id))
                                  (items db);
                  events := events db; nextId := nextId db |}).

(** [prisma.wishlist.delete({ where: { id } })]; the item rows go with it
    (ON DELETE CASCADE). *)
Definition wishlist_delete (id : rowid) : M unit :=
  fun db =>
    if negb (wishlist_exists id db)
    then (Exn (PrismaKnownRequestError "P2025"), db)
    else
      (Val tt, {| shops := shops db; customers := customers db;
                  wishlists := filter (fun w => negb (Nat.eqb (wl_id w) id))
                                      (wishlists db);
                  items := filter
                             (fun it => negb (Nat.eqb (it_wishlistId it) id))
                             (items db);
                  events := events db; nextId := nextId db |}).

(** [prisma.event.create]. *)
Definition event_create (shopId : rowid) (customerId : option rowid)
    (type : string) (payload : EventPayload) : M Event :=
  fun db =>
    if negb (shop_exists shopId db && optional_customer_exists customerId db)
    then (Exn (PrismaKnownRequestError "P2003"), db)
    else
      let e := {| ev_id := nextId db; ev_shopId := shopId;
                  ev_customerId := customerId; ev_type := type;
                  ev_payload := payload |} in
      (Val e, {| shops := shops db; customers := customers db;
                 wishlists := wishlists db; items := items db;
                 events := events db ++ [e]; nextId := S (nextId db) |}).

(** *** Shops and customers *)

(** "Shop_domain_key". *)
Definition domain_taken (domain : string) (db : DB) : bool :=
  existsb (fun s => shop_domain s =? domain) (shops db).

(** [prisma.shop.create]; [installedAt] is left out like the other dates. *)
Definition shop_create (domain accessToken : string) : M Shop :=
  fun db =>
    if domain_taken domain db
    then (Exn (PrismaKnownRequestError "P2002"), db)
    else
      let s := {| shop_id := nextId db; shop_domain := domain;
                  shop_accessToken := accessToken |} in
      (Val s, {| shops := shops db ++ [s]; customers := customers db;
                 wishlists := wishlists db; items := items db;
                 events := events db; nextId := S (nextId db) |}).

(** A value given for the nullable [email] column: a string, [null], or
    nothing at all ([undefined]); anything else is refused by the client.
    The outer [None] is "nothing given". *)
Definition optional_text (v : jsval) : Res (option (option string)) :=
  match v with
  | JStr s => Val (Some (Some s))
  | JNull => Val (Some None)
  | JUndefined => Val None
  | JBool _ | JNum _ => Exn PrismaValidationError
  end.

(** [prisma.customer.create]. *)
Definition customer_create (shopId : rowid) (shopCustomerId : Z)
    (email : jsval) : M Customer :=
  fun db =>
    match optional_text email with
    | Exn e => (Exn e, db)
    | Val given =>
        if negb (fits_int64 shopCustomerId)
        then (Exn out_of_range, db)
        else if negb (shop_exists shopId db)
        then (Exn (PrismaKnownRequestError "P2003"), db)
        else
          let c := {| cust_id := nextId db; cust_shopId := shopId;
                      cust_shopCustomerId := shopCustomerId;
                      cust_email := match given with
                                    | Some e => e
                                    | None => None
                                    end |} in
          (Val c, {| shops := shops db; customers := customers db ++ [c];
                     wishlists := wishlists db; items := items db;
                     events := events db; nextId := S (nextId db) |})
    end.

(** The row [customer.update] leaves behind: a field given as [undefined]
    is not touched. *)
Definition with_email (given : option (option string)) (c : Customer)
  : Customer :=
  match given with
  | None => c
  | Some e => {| cust_id := cust_id c; cust_shopId := cust_shopId c;
                 cust_shopCustomerId := cust_shopCustomerId c;
                 cust_email := e |}
  end.

(** [prisma.customer.update({ where: { id }, data: { email } })]. *)
Definition customer_update (id : rowid) (email : jsval) : M Customer :=
  fun db =>
    match optional_text email with
    | Exn e => (Exn e, db)
    | Val given =>
        match find (fun c => Nat.eqb (cust_id c) id) (customers db) with
        | None => (Exn (PrismaKnownRequestError "P2025"), db)
        | Some c =>
            (Val (with_email given c),
             {| shops := shops db;
                customers := map (fun c => if Nat.eqb (cust_id c) id
                                           then with_email given c else c)
                                 (customers db);
                wishlists := wishlists db; items := items db;
                events := events db; nextId := nextId db |})
        end
    end.

End Prisma.

(* ------------------------------------------------------------------ *)
(** ** web/routes/wishlist-proxy.js *)

Module WishlistProxy.
Import Js ProxyAuth Prisma.
Local Open Scope prisma_scope.

(** An item as a response shows it: the two BIGINT columns through
    [toString()]. *)
Record ItemView : Type := mkItemView {
  iv_id : rowid;
  iv_productId : string;
  iv_variantId : string;
  iv_handle : string
}.

Definition view (it : WishlistItem) : ItemView :=
  {| iv_id := it_id it;
     iv_productId := decZ (it_productId it);
     iv_variantId := decZ (it_variantId it);
     iv_handle := it_handle it |}.

(** The JSON bodies the handlers send. *)
Inductive Body : Type :=
| ErrorBody (error : string)
| ConflictBody (error : string) (item : ItemView)
| ItemBody (item : ItemView) (token : Token)
| RemovedBody (message : string) (token : Token)
| NothingToMigrateBody (message : string)
| MigratedBody (message : string) (migratedCount : nat) (token : Token).

Record Response : Type := mkResponse {
  status : nat;
  json : Body
}.

(** The [success], [migrated], [migratedCount] and [token] fields of a
    body, absent where the handler does not set them. *)
Definition body_success (b : Body) : option bool :=
  match b with
  | ErrorBody _ | ConflictBody _ _ => None
  | _ => Some true
  end.
Definition body_migrated (b : Body) : option bool :=
  match b with
  | NothingToMigrateBody _ => Some false
  | MigratedBody _ _ _ => Some true
  | _ => None
  end.
Definition body_migratedCount (b : Body) : option nat :=
  match b with
  | MigratedBody _ n _ => Some n
  | _ => None
  end.
Definition body_token (b : Body) : option Token :=
  match b with
  | ItemBody _ t | RemovedBody _ t | MigratedBody _ _ t => Some t
  | _ => None
  end.

(** [a || b] on an optional string. *)
Definition str_or (a : option string) (b : string) : string :=
  match a with
  | Some s => if s =? "" then b else s
  | None => b
  end.

(** The [try { ... } catch (error) { res.status(500) ... }] around every
    handler. *)
Definition try_catch (m : M Response) : DB -> Response * DB :=
  fun db =>
    match m db with
    | (Val r, db') => (r, db')
    | (Exn _, db') =>
        ({| status := 500; json := ErrorBody "Internal server error" |}, db')
    end.

Definition send (st : nat) (b : Body) : M Response :=
  ret {| status := st; json := b |}.

Section WithEngine.

(** The engine's StringToBigInt; [None] is its SyntaxError. *)
Variable StringToBigInt : string -> option Z.
Variable env : string -> option string.

(** [BigInt(v)]. *)
Definition BigInt (v : jsval) : Res Z :=
  match v with
  | JStr s =>
      match StringToBigInt s with
      | Some z => Val z
      | None => Exn (SyntaxError "Cannot convert to a BigInt")
      end
  | JNum z => Val z
  | JBool b => Val (if b then 1 else 0)%Z
  | JUndefined | JNull => Exn (TypeError "Cannot convert to a BigInt")
  end.

(** [BigInt(parsedCustomerId)]. *)
Definition BigInt_of_key (k : option string) : Res Z :=
  BigInt (match k with Some s => JStr s | None => JNull end).

(** The identifier [customer] read where no declaration of it is in scope:
    the [const customer] of the add and remove handlers lives inside the
    branch for registered callers, the event is built after that branch has
    closed. *)
Definition customer_out_of_scope : M (option rowid) :=
  throw (ReferenceError "customer is not defined").

(** POST /items *)
Definition post_items_body (now : Z) (shop : string)
    (customerId : option string) (reqBody : list (string * jsval))
  : M Response :=
  let productId := field "productId" reqBody in
  let variantId := field "variantId" reqBody in
  let handle := field "handle" reqBody in
  if negb (truthy productId) || negb (truthy variantId) || negb (truthy handle)
  then send 400 (ErrorBody
                   "Missing required fields: productId, variantId, handle")
  else
    let ident := parseCustomerId customerId in
    let parsedCustomerId := ProxyAuth.customerId ident in
    shopRecord <- query (shop_findUnique shop) ;;
    match shopRecord with
    | None => send 404 (ErrorBody "Shop not found")
    | Some shopRecord =>
        resolved <-
          (if isGuest ident then
             found <- query (wishlist_findFirst_guest
                               (shop_id shopRecord)
                               (str_or parsedCustomerId "default-guest")) ;;
             match found with
             | Some w => ret (inr w)
             | None =>
                 w <- wishlist_create (shop_id shopRecord) None
                        (str_or parsedCustomerId ("guest_" ++ decZ now)) ;;
                 ret (inr w)
             end
           else
             n <- lift (BigInt_of_key parsedCustomerId) ;;
             customer <- customer_findFirst (shop_id shopRecord) n ;;
             match customer with
             | None => ret (inl (mkResponse 404 (ErrorBody "Customer not found")))
             | Some customer =>
                 found <- query (wishlist_findUnique (shop_id shopRecord)
                                                     (cust_id customer)) ;;
                 match found with
                 | Some w => ret (inr w)
                 | None =>
                     w <- wishlist_create (shop_id shopRecord)
                            (Some (cust_id customer))
                            ("customer_" ++ dec (cust_id customer) ++ "_"
                               ++ decZ now) ;;
                     ret (inr w)
                 end
             end) ;;
        match resolved with
        | inl early => ret early
        | inr wishlist =>
            p <- lift (BigInt productId) ;;
            v <- lift (BigInt variantId) ;;
            existingItem <- wishlistItem_findFirst (wl_id wishlist) p v ;;
            match existingItem with
            | Some existingItem =>
                send 409 (ConflictBody "Item already in wishlist"
                                       (view existingItem))
            | None =>
                h <- match handle with
                     | JStr h => ret h
                     | _ => throw PrismaValidationError
                     end ;;
                wishlistItem <- wishlistItem_create (wl_id wishlist) p v h ;;
                evCustomer <- (if isGuest ident then ret None
                               else customer_out_of_scope) ;;
                event_create (shop_id shopRecord) evCustomer "add"
                  (AddPayload productId variantId handle (isGuest ident)) ;;;
                let token :=
                  generateStorefrontToken env now shop customerId
                                          default_expiresIn in
                send 201 (ItemBody (view wishlistItem) token)
            end
        end
    end.

Definition post_items now shop customerId reqBody : DB -> Response * DB :=
  try_catch (post_items_body now shop customerId reqBody).

(** DELETE /items/:id *)
Definition delete_item_body (now : Z) (shop : string)
    (customerId : option string) (id : rowid) : M Response :=
  let ident := parseCustomerId customerId in
  let parsedCustomerId := ProxyAuth.customerId ident in
  shopRecord <- query (shop_findUnique shop) ;;
  match shopRecord with
  | None => send 404 (ErrorBody "Shop not found")
  | Some shopRecord =>
      wishlistItem <- query (wishlistItem_findUnique id) ;;
      match wishlistItem with
      | None => send 404 (ErrorBody "Item not found")
      | Some (wishlistItem, None) =>
          throw (TypeError "Cannot read properties of null")
      | Some (wishlistItem, Some wishlist) =>
          if negb (Nat.eqb (wl_shopId wishlist) (shop_id shopRecord))
          then send 403 (ErrorBody "Access denied")
          else
            denied <-
              (if negb (isGuest ident) then
                 n <- lift (BigInt_of_key parsedCustomerId) ;;
                 customer <- customer_findFirst (shop_id shopRecord) n ;;
                 match customer with
                 | None => ret true
                 | Some customer =>
                     ret (negb (opt_rowid_eqb (wl_customerId wishlist)
                                              (Some (cust_id customer))))
                 end
               else
                 ret (negb (opt_rowid_eqb (wl_customerId wishlist) None))) ;;
            if (denied : bool) then send 403 (ErrorBody "Access denied")
            else
              wishlistItem_delete id ;;;
              evCustomer <- (if isGuest ident then ret None
                             else customer_out_of_scope) ;;
              event_create (shop_id shopRecord) evCustomer "remove"
                (RemovePayload (decZ (it_productId wishlistItem))
                               (decZ (it_variantId wishlistItem))
                               (it_handle wishlistItem) (isGuest ident)) ;;;
              let token :=
                generateStorefrontToken env now shop customerId
                                        default_expiresIn in
              send 200 (RemovedBody "Item removed from wishlist" token)
      end
  end.

Definition delete_item now shop customerId id : DB -> Response * DB :=
  try_catch (delete_item_body now shop customerId id).

(** The loop of the migrate handler over the guest items read before it
    starts. *)
Fixpoint migrate_items (target : rowid) (guestItems : list WishlistItem)
    (migratedCount : nat) : M nat :=
  match guestItems with
  | [] => ret migratedCount
  | item :: rest =>
      existingItem <- wishlistItem_findFirst target (it_productId item)
                                             (it_variantId item) ;;
      match existingItem with
      | Some _ => migrate_items target rest migratedCount
      | None =>
          wishlistItem_create target (it_productId item) (it_variantId item)
                              (it_handle item) ;;;
          migrate_items target rest (S migratedCount)
      end
  end.

(** POST /migrate *)
Definition migrate_body (now : Z) (shop : string)
    (customerId : option string) (reqBody : list (string * jsval))
  : M Response :=
  let guestToken := field "guestToken" reqBody in
  if negb (truthy guestToken) then send 400 (ErrorBody "Guest token required")
  else
    let ident := parseCustomerId customerId in
    let parsedCustomerId := ProxyAuth.customerId ident in
    if isGuest ident
    then send 400 (ErrorBody "Must be logged in to migrate wishlist")
    else
      shopRecord <- query (shop_findUnique shop) ;;
      match shopRecord with
      | None => send 404 (ErrorBody "Shop not found")
      | Some shopRecord =>
          n <- lift (BigInt_of_key parsedCustomerId) ;;
          customer <- customer_findFirst (shop_id shopRecord) n ;;
          match customer with
          | None => send 404 (ErrorBody "Customer not found")
          | Some customer =>
              guestId <- match guestToken with
                         | JStr s => ret (remove_first "guest_" s)
                         | _ => throw (TypeError
                                         "guestToken.replace is not a function")
                         end ;;
              guestWishlist <- query (wishlist_findFirst_guest
                                        (shop_id shopRecord) guestId) ;;
              guestItems <- query (fun db =>
                                     match guestWishlist with
                                     | Some g => items_of (wl_id g) db
                                     | None => []
                                     end) ;;
              match guestWishlist, guestItems with
              | None, _ | Some _, [] =>
                  send 200 (NothingToMigrateBody "No guest wishlist to migrate")
              | Some guestWishlist, _ :: _ =>
                  found <- query (wishlist_findUnique (shop_id shopRecord)
                                                      (cust_id customer)) ;;
                  customerWishlist <-
                    match found with
                    | Some w => ret w
                    | None =>
                        wishlist_create (shop_id shopRecord)
                          (Some (cust_id customer))
                          ("customer_" ++ dec (cust_id customer) ++ "_"
                             ++ decZ now)
                    end ;;
                  migratedCount <- migrate_items (wl_id customerWishlist)
                                                 guestItems 0 ;;
                  wishlist_delete (wl_id guestWishlist) ;;;
                  event_create (shop_id shopRecord) (Some (cust_id customer))
                    "migrate" (MigratePayload migratedCount guestId) ;;;
                  let token :=
                    generateStorefrontToken env now shop customerId
                                            default_expiresIn in
                  send 200 (MigratedBody
                              ("Migrated " ++ dec migratedCount
                                 ++ " items to your account")
                              migratedCount token)
              end
          end
      end.

Definition migrate now shop customerId reqBody : DB -> Response * DB :=
  try_catch (migrate_body now shop customerId reqBody).

End WithEngine.

End WishlistProxy.

(* ------------------------------------------------------------------ *)
(** ** web/auth/proxy-auth.js, the customer middleware *)

Module CustomerAuth.
Import Js ProxyAuth.

(** The [Authorization] header: "Bearer " followed by what the client
    presents as a token, or any other string. *)
Inductive Authorization : Type :=
| Bearer (token : Token)
| OtherScheme (s : string).

(** The parts of a request [authenticateCustomer] reads; [ar_shop] is the
    [req.shop] the proxy middleware has set. *)
Record AuthRequest : Type := mkAuthRequest {
  ar_shop : jsval;
  ar_authorization : option Authorization;
  ar_hdr_customer_id : option string;
  ar_query_customer_id : option string;
  ar_body : list (string * jsval)
}.

(** A nullable string as a JavaScript value. *)
Definition of_nullable (o : option string) : jsval :=
  match o with Some s => JStr s | None => JNull end.

(** [decoded.shop === req.shop]. *)
Definition same_shop (claimed : string) (shop : jsval) : bool :=
  match shop with
  | JStr s => claimed =? s
  | _ => false
  end.

Section WithEnvironment.

Variable env : string -> option string.

(** The value [authenticateCustomer] stores in [req.customerId]. *)
Definition authenticateCustomer (now : Z) (req : AuthRequest) : jsval :=
  let fromToken :=
    match ar_authorization req with
    | Some (Bearer token) =>
        match verifyStorefrontToken env now token with
        | Some decoded =>
            if same_shop (tok_shop decoded) (ar_shop req)
            then of_nullable (tok_customerId decoded)
            else JNull
        | None => JNull
        end
    | Some (OtherScheme _) | None => JNull
    end in
  if negb (truthy fromToken)
  then or_else (or_else (of_option (ar_hdr_customer_id req))
                        (of_option (ar_query_customer_id req)))
               (field "customer_id" (ar_body req))
  else fromToken.

End WithEnvironment.

End CustomerAuth.

(* ------------------------------------------------------------------ *)
(** ** web/auth/session-manager.js, the calls that touch the store *)

Module Sessions.
Import Js ProxyAuth Prisma.
Local Open Scope prisma_scope.

(** The customer object the platform hands over. *)
Record CustomerData : Type := mkCustomerData {
  cd_id : jsval;
  cd_email : jsval
}.

Record CustomerView : Type := mkCustomerView {
  cv_id : rowid;
  cv_shopCustomerId : string;
  cv_email : option string
}.

Record CustomerSession : Type := mkCustomerSession {
  cs_success : bool;
  cs_customer : CustomerView;
  cs_token : Token;
  cs_expiresIn : Z
}.

Record GuestSession : Type := mkGuestSession {
  gs_success : bool;
  gs_id : string;
  gs_isGuest : bool;
  gs_token : Token;
  gs_expiresIn : Z
}.

Section WithEngine.

Variable StringToBigInt : string -> option Z.
(** [Number.prototype.toString] on an integral number. *)
Variable NumberToString : Z -> string.
Variable env : string -> option string.

(** [v.toString()]. *)
Definition toString (v : jsval) : Res string :=
  match v with
  | JStr s => Val s
  | JNum z => Val (NumberToString z)
  | JBool b => Val (if b then "true" else "false")
  | JUndefined | JNull => Exn (TypeError "Cannot read properties of undefined")
  end.

(** The shop upsert both session calls start with. *)
Definition find_or_create_shop (shop : string) : M Shop :=
  found <- query (shop_findUnique shop) ;;
  match found with
  | Some shopRecord => ret shopRecord
  | None => shop_create shop "placeholder"
  end.

(** What is caught is thrown again, so an error leaves the call as it
    arose. *)
Definition createCustomerSession (now : Z) (shop : string)
    (customerData : CustomerData) : M CustomerSession :=
  shopRecord <- find_or_create_shop shop ;;
  n <- lift (WishlistProxy.BigInt StringToBigInt (cd_id customerData)) ;;
  found <- customer_findFirst (shop_id shopRecord) n ;;
  customer <-
    match found with
    | None => customer_create (shop_id shopRecord) n (cd_email customerData)
    | Some customer => customer_update (cust_id customer)
                                       (cd_email customerData)
    end ;;
  subject <- lift (toString (cd_id customerData)) ;;
  let token := generateStorefrontToken env now shop (Some subject)
                                       default_expiresIn in
  ret {| cs_success := true;
         cs_customer := {| cv_id := cust_id customer;
                           cv_shopCustomerId :=
                             decZ (cust_shopCustomerId customer);
                           cv_email := cust_email customer |};
         cs_token := token;
         cs_expiresIn := 3600 |}.

(** [random] is [Math.random().toString(36).substr(2, 9)]. *)
Definition createGuestSession (now : Z) (random : string) (shop : string)
    (guestId : option string) : M GuestSession :=
  find_or_create_shop shop ;;;
  let sessionGuestId :=
    WishlistProxy.str_or guestId ("guest_" ++ decZ now ++ "_" ++ random) in
  let token := generateGuestToken env now shop sessionGuestId in
  ret {| gs_success := true;
         gs_id := sessionGuestId;
         gs_isGuest := true;
         gs_token := token;
         gs_expiresIn := 86400 |}.

(** Errors are caught and answered with [null]. *)
Definition getCustomer (shop customerId : string) (db : DB) : option Customer :=
  match shop_findUnique shop db with
  | None => None
  | Some shopRecord =>
      match WishlistProxy.BigInt StringToBigInt (JStr customerId) with
      | Exn _ => None
      | Val n =>
          match customer_findFirst (shop_id shopRecord) n db with
          | (Val customer, _) => customer
          | (Exn _, _) => None
          end
      end
  end.

(** Errors are caught and logged; nothing is returned either way. *)
Definition logActivity (shop : string) (customerId : option string)
    (type : string) (payload : EventPayload) : DB -> DB :=
  fun db =>
    match shop_findUnique shop db with
    | None => db
    | Some shopRecord =>
        let registered :=
          match customerId with
          | Some s => negb (s =? "") && negb (startsWith s "guest_")
          | None => false
          end in
        let looked_up : Res (option Customer) :=
          if registered
          then match WishlistProxy.BigInt_of_key StringToBigInt customerId with
               | Exn e => Exn e
               | Val n => fst (customer_findFirst (shop_id shopRecord) n db)
               end
          else Val None in
        match looked_up with
        | Exn _ => db
        | Val customerRecord =>
            snd (event_create (shop_id shopRecord)
                              (match customerRecord with
                               | Some c => Some (cust_id c)
                               | None => None
                               end)
                              type payload db)
        end
    end.

End WithEngine.

End Sessions.

(* ------------------------------------------------------------------ *)
(** ** web/routes/wishlist-proxy.js, the fetch handler *)

Module WishlistFetch.
Import Js ProxyAuth Prisma WishlistProxy.
Local Open Scope prisma_scope.

(** The bodies GET / sends. *)
Inductive GetBody : Type :=
| GetErrorBody (error : string)
| WishlistBody (id : rowid) (shareUUID : string) (items : list ItemView)
               (token : Token).

Record GetResponse : Type := mkGetResponse {
  get_status : nat;
  get_json : GetBody
}.

Definition get_try_catch (m : M GetResponse) : DB -> GetResponse * DB :=
  fun db =>
    match m db with
    | (Val r, db') => (r, db')
    | (Exn _, db') =>
        ({| get_status := 500; get_json := GetErrorBody "Internal server error" |},
         db')
    end.

Section WithEngine.

Variable StringToBigInt : string -> option Z.
Variable env : string -> option string.

(** GET /.  A wishlist comes with its [items] where the query asks for them
    ([include: { items: true }]): the guest lookup does not, so a guest
    wishlist that is found has none to map over. *)
Definition get_wishlist_body (now : Z) (shop : string)
    (customerId : option string) : M GetResponse :=
  let ident := parseCustomerId customerId in
  let parsedCustomerId := ProxyAuth.customerId ident in
  shopRecord <- query (shop_findUnique shop) ;;
  match shopRecord with
  | None => ret (mkGetResponse 404 (GetErrorBody "Shop not found"))
  | Some shopRecord =>
      resolved <-
        (if isGuest ident then
           found <- query (wishlist_findFirst_guest
                             (shop_id shopRecord)
                             (str_or parsedCustomerId "default-guest")) ;;
           match found with
           | Some w => ret (inr (w, None))
           | None =>
               w <- wishlist_create (shop_id shopRecord) None
                      (str_or parsedCustomerId ("guest_" ++ decZ now)) ;;
               its <- query (items_of (wl_id w)) ;;
               ret (inr (w, Some its))
           end
         else
           n <- lift (BigInt_of_key StringToBigInt parsedCustomerId) ;;
           customer <- customer_findFirst (shop_id shopRecord) n ;;
           match customer with
           | None =>
               ret (inl (mkGetResponse 404 (GetErrorBody "Customer not found")))
           | Some customer =>
               found <- query (wishlist_findUnique (shop_id shopRecord)
                                                   (cust_id customer)) ;;
               match found with
               | Some w =>
                   its <- query (items_of (wl_id w)) ;;
                   ret (inr (w, Some its))
               | None =>
                   w <- wishlist_create (shop_id shopRecord)
                          (Some (cust_id customer))
                          ("customer_" ++ dec (cust_id customer) ++ "_"
                             ++ decZ now) ;;
                   its <- query (items_of (wl_id w)) ;;
                   ret (inr (w, Some its))
               end
           end) ;;
      match resolved with
      | inl early => ret early
      | inr (wishlist, its) =>
          let token :=
            generateStorefrontToken env now shop customerId
                                    default_expiresIn in
          match its with
          | None => throw (TypeError "Cannot read properties of undefined")
          | Some its =>
              ret (mkGetResponse 200
                     (WishlistBody (wl_id wishlist) (wl_shareUUID wishlist)
                                   (map view its) token))
          end
      end
  end.

Definition get_wishlist now shop customerId : DB -> GetResponse * DB :=
  get_try_catch (get_wishlist_body now shop customerId).

End WithEngine.

End WishlistFetch.

(* ------------------------------------------------------------------ *)
(** ** Concrete data to run the model on *)

Module Examples.
Import Js ProxyAuth SessionManager Prisma WishlistProxy.

(** StringToBigInt on the strings the examples use: decimal digits, and the
    empty string for zero. *)
Fixpoint digits_value (s : string) (acc : Z) : option Z :=
  match s with
  | EmptyString => Some acc
  | String c s' =>
      let n := nat_of_ascii c in
      if Nat.leb 48 n && Nat.leb n 57
      then digits_value s' (10 * acc + Z.of_nat (n - 48))%Z
      else None
  end.
Definition decimal_StringToBigInt (s : string) : option Z := digits_value s 0.

(** A base64 decoder for the examples: characters outside the alphabet are
    skipped and the first [=] ends the input. *)
Definition sextet (c : ascii) : option N :=
  let n := N_of_ascii c in
  if (N.leb 65 n && N.leb n 90)%bool then Some (n - 65)%N
  else if (N.leb 97 n && N.leb n 122)%bool then Some (n - 71)%N
  else if (N.leb 48 n && N.leb n 57)%bool then Some (n + 4)%N
  else if (N.eqb n 43 || N.eqb n 45)%bool then Some 62%N
  else if (N.eqb n 47 || N.eqb n 95)%bool then Some 63%N
  else None.

Fixpoint sextets (s : string) : list N :=
  match s with
  | EmptyString => []
  | String c s' =>
      if Ascii.eqb c "="%char then []
      else match sextet c with
           | Some v => v :: sextets s'
           | None => sextets s'
           end
  end.

Definition octet (n : N) : Byte.byte :=
  match Byte.of_N (n mod 256) with Some b => b | None => Byte.x00 end.

Fixpoint octets (l : list N) : list Byte.byte :=
  match l with
  | a :: b :: c :: d :: rest =>
      octet (a * 4 + b / 16) :: octet (b * 16 + c / 4) :: octet (c * 64 + d)
        :: octets rest
  | [a; b; c] => [octet (a * 4 + b / 16); octet (b * 16 + c / 4)]
  | [a; b] => [octet (a * 4 + b / 16)]
  | _ => []
  end.

Definition base64_decode (s : string) : list Byte.byte := octets (sextets s).

(** A stand-in for the digest: always the same 32 bytes, in base64. *)
Definition fixed_digest (_ : string) (_ : list Byte.byte) : string :=
  "AAECAwQFBgcICQoLDA0ODxAREhMUFRYXGBkaGxwdHh8=".

Definition no_stringify (_ : list (string * jsval)) : string := "{}".

(** Environments: nothing configured, and both secrets configured. *)
Definition empty_env (_ : string) : option string := None.
Definition full_env (name : string) : option string :=
  if name =? "JWT_SECRET" then Some "jwt-secret"
  else if name =? "SHOPIFY_API_SECRET" then Some "api-secret"
  else None.

Definition shopX : string := "x.myshopify.com".
Definition shopY : string := "y.myshopify.com".

(** One shop, two customers; customer 12345 owns wishlist 5 holding item A;
    guest wishlist "g1" holds A and B; guest wishlist "g2" is empty. *)
Definition shop1 : Shop :=
  {| shop_id := 1; shop_domain := shopX; shop_accessToken := "placeholder" |}.
Definition customerC : Customer :=
  {| cust_id := 2; cust_shopId := 1; cust_shopCustomerId := 12345;
     cust_email := None |}.
Definition customerD : Customer :=
  {| cust_id := 3; cust_shopId := 1; cust_shopCustomerId := 777;
     cust_email := None |}.
Definition guestWishlist : Wishlist :=
  {| wl_id := 4; wl_shopId := 1; wl_customerId := None;
     wl_shareUUID := "g1" |}.
Definition customerWishlist : Wishlist :=
  {| wl_id := 5; wl_shopId := 1; wl_customerId := Some 2;
     wl_shareUUID := "customer_2_1000" |}.
Definition emptyGuestWishlist : Wishlist :=
  {| wl_id := 9; wl_shopId := 1; wl_customerId := None;
     wl_shareUUID := "g2" |}.
Definition ownA : WishlistItem :=
  {| it_id := 6; it_wishlistId := 5; it_productId := 100;
     it_variantId := 200; it_handle := "shoe" |}.
Definition guestA : WishlistItem :=
  {| it_id := 7; it_wishlistId := 4; it_productId := 100;
     it_variantId := 200; it_handle := "shoe" |}.
Definition guestB : WishlistItem :=
  {| it_id := 8; it_wishlistId := 4; it_productId := 101;
     it_variantId := 201; it_handle := "hat" |}.

Definition db0 : DB :=
  {| shops := [shop1];
     customers := [customerC; customerD];
     wishlists := [guestWishlist; customerWishlist; emptyGuestWishlist];
     items := [ownA; guestA; guestB];
     events := [];
     nextId := 10 |}.

(** Request bodies: adding the hat, and migrating under a guest key. *)
Definition add_hat : list (string * jsval) :=
  [ ("productId", JStr "101"); ("variantId", JStr "201");
    ("handle", JStr "hat") ].
Definition migrate_g1 : list (string * jsval) :=
  [ ("guestToken", JStr "guest_g1") ].
Definition migrate_g2 : list (string * jsval) :=
  [ ("guestToken", JStr "guest_g2") ].

(** A request whose signature header decodes to three bytes. *)
Definition short_signature : Request :=
  {| hdr_hmac := Some "AAAA"; hdr_shop_domain := Some shopX;
     query_shop := None; rawBody := Some []; body := [] |}.

End Examples.

(* ------------------------------------------------------------------ *)
(** * Properties *)

Import Js ProxyAuth SessionManager Prisma WishlistProxy.
Local Open Scope Z_scope.

(** ** Strings *)

Lemma prefix_split (p s : string) :
  String.prefix p s = true -> s = (p ++ substring_from (String.length p) s)%string.
Proof.
  revert s; induction p as [|c p IH]; intros s H; simpl in *.
  - reflexivity.
  - destruct s as [|d s]; [discriminate|].
    change (String.prefix (String c p) (String d s))
      with (if Ascii.ascii_dec c d then String.prefix p s else false) in H.
    destruct (Ascii.ascii_dec c d) as [->|]; [|discriminate].
    simpl. f_equal. apply IH, H.
Qed.

Lemma prefix_app (p s : string) : String.prefix p (p ++ s) = true.
Proof.
  induction p as [|c p IH]; simpl.
  - destruct s; reflexivity.
  - destruct (Ascii.ascii_dec c c); [exact IH|congruence].
Qed.

Lemma seconds_before (now e : Z) : now < e * 1000 -> seconds now < e.
Proof. intros H. apply Z.div_lt_upper_bound; lia. Qed.

Lemma seconds_after (now e : Z) : e * 1000 <= now -> e <= seconds now.
Proof. intros H. apply Z.div_le_lower_bound; lia. Qed.

(** ** The identity resolver *)

Definition guest (key : option string) : Identity :=
  {| isGuest := true; customerId := key |}.
Definition registered (key : string) : Identity :=
  {| isGuest := false; customerId := Some key |}.

(** The classification the resolver computes, case by case. *)
Inductive classifies : option string -> Identity -> Prop :=
| classifies_absent : classifies None (guest None)
| classifies_empty : classifies (Some "") (guest None)
| classifies_guest (suffix : string) :
    classifies (Some ("guest_" ++ suffix)%string) (guest (Some suffix))
| classifies_registered (s : string) :
    s <> ""%string -> startsWith s "guest_" = false ->
    classifies (Some s) (registered s).

(** C8, as the code has it: the resolver is a total function, an absent
    identifier and the empty string are the anonymous guest, a string
    "guest_<suffix>" is the guest <suffix>, and every other string, which is
    then not empty, is the registered customer of that key. *)
Theorem parseCustomerId_classifies (cid : option string) :
  classifies cid (parseCustomerId cid).
Proof.
  destruct cid as [s|]; [|constructor].
  unfold parseCustomerId.
  destruct (String.eqb_spec s "") as [->|Hne]; [constructor|].
  destruct (startsWith s "guest_") eqn:Hp.
  - unfold startsWith in Hp. apply prefix_split in Hp.
    rewrite Hp at 1. apply classifies_guest.
  - now apply classifies_registered.
Qed.

(** C8, as the claim words it, fails at the empty string: it has no
    "guest_" prefix, yet it resolves to the anonymous guest and not to a
    registered customer with the empty key. *)
Lemma parseCustomerId_empty_string_is_guest :
  ~ (forall s : string,
        startsWith s "guest_" = false ->
        parseCustomerId (Some s) = registered s).
Proof.
  intros H. specialize (H ""%string eq_refl). discriminate H.
Qed.

(** Each identifier has one classification only. *)
Lemma classifies_functional (cid : option string) (i : Identity) :
  classifies cid i -> i = parseCustomerId cid.
Proof.
  intros H; destruct H; try reflexivity.
  - unfold parseCustomerId, startsWith. rewrite prefix_app. reflexivity.
  - unfold parseCustomerId.
    destruct (String.eqb_spec s ""); [contradiction|].
    rewrite H0. reflexivity.
Qed.

(** ** The token service *)

Section TokenProperties.

Variable env : string -> option string.

Lemma jwt_verify_sign (now : Z) (p : Payload) (secret : string) :
  jwt_verify now (jwt_sign p secret) secret =
  if tok_exp p <=? seconds now then Exn TokenExpiredError else Val p.
Proof. unfold jwt_verify, jwt_sign. rewrite String.eqb_refl. reflexivity. Qed.

Lemma verify_generated (now : Z) (shop : string) (cid : option string)
    (expiresIn now' : Z) :
  verifyStorefrontToken env now'
    (generateStorefrontToken env now shop cid expiresIn) =
  if seconds now + expiresIn <=? seconds now' then None
  else Some {| tok_shop := shop; tok_customerId := cid;
               tok_type := "storefront"; tok_iat := seconds now;
               tok_exp := seconds now + expiresIn |}.
Proof.
  unfold verifyStorefrontToken, generateStorefrontToken.
  rewrite jwt_verify_sign. cbn [tok_exp].
  destruct (seconds now + expiresIn <=? seconds now'); reflexivity.
Qed.

(** C7: a token made by [generateStorefrontToken] verifies to the claims it
    was made from at every instant before [exp] (in milliseconds,
    [exp * 1000]), and is refused from that instant on. *)
Theorem verify_sign_roundtrip (now : Z) (shop : string) (cid : option string)
    (expiresIn now' : Z) :
  let claims := {| tok_shop := shop; tok_customerId := cid;
                   tok_type := "storefront"; tok_iat := seconds now;
                   tok_exp := seconds now + expiresIn |} in
  let token := generateStorefrontToken env now shop cid expiresIn in
  (now' < tok_exp claims * 1000 ->
   verifyStorefrontToken env now' token = Some claims) /\
  (tok_exp claims * 1000 <= now' ->
   verifyStorefrontToken env now' token = None).
Proof.
  cbv zeta. rewrite verify_generated. cbn [tok_exp]. split; intros H.
  - apply seconds_before in H.
    destruct (Z.leb_spec (seconds now + expiresIn) (seconds now')); [lia|].
    reflexivity.
  - apply seconds_after in H.
    destruct (Z.leb_spec (seconds now + expiresIn) (seconds now')); [|lia].
    reflexivity.
Qed.

(** ** Sessions *)


Lemma validate_generated (now0 : Z) (X : string) (cid : option string)
    (expiresIn now : Z) (Y : string) :
  validateSession env now (generateStorefrontToken env now0 X cid expiresIn) Y =
  if seconds now0 + expiresIn <=? seconds now then None
  else if negb (X =? Y)%string then None
  else Some {| ses_shop := X; ses_customerId := cid; ses_type := "storefront";
               ses_expiresAt := (seconds now0 + expiresIn) * 1000 |}.
Proof.
  unfold validateSession. rewrite verify_generated.
  destruct (Z.leb_spec (seconds now0 + expiresIn) (seconds now)); [reflexivity|].
  cbn [tok_shop tok_exp tok_customerId tok_type].
  destruct (negb (X =? Y)%string); [reflexivity|].
  destruct (Z.ltb_spec (seconds now0 + expiresIn) (seconds now)); [lia|].
  reflexivity.
Qed.

(** C4: a token issued for shop [X] gives no session against another shop
    [Y]; it gives none once its expiry has been reached; presented against
    [X] before that, it gives the decoded session. *)
Theorem validateSession_isolation (now0 : Z) (X : string) (cid : option string)
    (expiresIn now : Z) (Y : string) :
  let token := generateStorefrontToken env now0 X cid expiresIn in
  let exp := seconds now0 + expiresIn in
  (X <> Y -> validateSession env now token Y = None) /\
  (exp <= seconds now -> validateSession env now token Y = None) /\
  (X = Y -> seconds now < exp ->
   validateSession env now token Y =
   Some {| ses_shop := X; ses_customerId := cid; ses_type := "storefront";
           ses_expiresAt := exp * 1000 |}).
Proof.
  cbv zeta. rewrite validate_generated. repeat split.
  - intros Hne.
    destruct (seconds now0 + expiresIn <=? seconds now); [reflexivity|].
    destruct (String.eqb_spec X Y); [contradiction|reflexivity].
  - intros Hexp.
    destruct (Z.leb_spec (seconds now0 + expiresIn) (seconds now)); [|lia].
    reflexivity.
  - intros <- Hlt.
    destruct (Z.leb_spec (seconds now0 + expiresIn) (seconds now)); [lia|].
    rewrite String.eqb_refl. reflexivity.
Qed.

(** The seconds between [iat] and [exp] of a signed token. *)
Definition lifetime (t : Token) : option Z :=
  match t with
  | Signed p _ => Some (tok_exp p - tok_iat p)
  | Malformed _ => None
  end.

(** The subject a signed token carries. *)
Definition subject (t : Token) : option string :=
  match t with
  | Signed p _ => tok_customerId p
  | Malformed _ => None
  end.

(** C9, as the code has it: a token that validates is reissued for the same
    shop and subject with a window of 3600 seconds from the current clock,
    whatever the kind of subject, and the new token verifies; a token that
    does not validate gives [null]. *)
Theorem refreshSession_reissues (now : Z) (token : Token) (shop : string) :
  (forall session,
      validateSession env now token shop = Some session ->
      exists r,
        refreshSession env now token shop = Some r /\
        ref_success r = true /\
        ref_expiresIn r = 3600 /\
        ref_customerId r = ses_customerId session /\
        subject (ref_token r) = ses_customerId session /\
        lifetime (ref_token r) = Some 3600 /\
        validateSession env now (ref_token r) shop =
        Some {| ses_shop := shop; ses_customerId := ses_customerId session;
                ses_type := "storefront";
                ses_expiresAt := (seconds now + 3600) * 1000 |}) /\
  (validateSession env now token shop = None ->
   refreshSession env now token shop = None).
Proof.
  split.
  - intros session Hv. unfold refreshSession. rewrite Hv.
    eexists; split; [reflexivity|]. cbn [ref_success ref_expiresIn
      ref_customerId ref_token]. repeat split.
    + unfold generateStorefrontToken, jwt_sign, lifetime, default_expiresIn.
      cbn [tok_exp tok_iat]. f_equal. lia.
    + unfold default_expiresIn. rewrite validate_generated.
      destruct (Z.leb_spec (seconds now + 3600) (seconds now)); [lia|].
      rewrite String.eqb_refl. reflexivity.
  - intros Hv. unfold refreshSession. rewrite Hv. reflexivity.
Qed.

(** ** Configuration *)

(** A variable that is not set, or set to the empty string. *)
Definition unset (name : string) : Prop :=
  env name = None \/ env name = Some ""%string.

Variable hmac_sha256_base64 : string -> list Byte.byte -> string.
Variable Buffer_from_base64 : string -> list Byte.byte.
Variable JSON_stringify : list (string * jsval) -> string.

(** C10, as the code has it: without a configured signing secret the
    service signs and verifies under its built-in secret; without the
    upstream shared secret every request is answered 500 "Server
    configuration error", whatever it carries. *)
Theorem missing_secrets (req : Request) (now : Z) (shop : string)
    (cid : option string) (now' : Z) :
  (unset "JWT_SECRET" ->
   JWT_SECRET env = "your-jwt-secret-change-in-production"%string /\
   generateStorefrontToken env now shop cid 3600 =
   Signed {| tok_shop := shop; tok_customerId := cid;
             tok_type := "storefront"; tok_iat := seconds now;
             tok_exp := seconds now + 3600 |}
          "your-jwt-secret-change-in-production" /\
   (seconds now' < seconds now + 3600 ->
    verifyStorefrontToken env now'
      (generateStorefrontToken env now shop cid 3600) =
    Some {| tok_shop := shop; tok_customerId := cid;
            tok_type := "storefront"; tok_iat := seconds now;
            tok_exp := seconds now + 3600 |})) /\
  (unset "SHOPIFY_API_SECRET" ->
   verifyAppProxyRequest env hmac_sha256_base64 Buffer_from_base64
                         JSON_stringify req =
   Val (Respond 500 "Server configuration error")).
Proof.
  split.
  - intros Hu.
    assert (Hs : JWT_SECRET env = "your-jwt-secret-change-in-production"%string).
    { unfold JWT_SECRET, env_or. destruct Hu as [-> | ->]; reflexivity. }
    split; [exact Hs|]. split.
    + unfold generateStorefrontToken, jwt_sign. rewrite Hs. reflexivity.
    + intros Hlt. rewrite verify_generated.
      destruct (Z.leb_spec (seconds now + 3600) (seconds now')); [lia|].
      reflexivity.
  - intros Hu. unfold verifyAppProxyRequest.
    destruct Hu as [-> | ->]; reflexivity.
Qed.

(** ** The request authenticator *)

(** The body the signature is computed over. *)
Definition signed_bytes (req : Request) : list Byte.byte :=
  match rawBody req with
  | Some buf => buf
  | None => list_byte_of_string (JSON_stringify (body req))
  end.

(** C6 at a header of the wrong length: when the header decodes to a
    number of bytes other than the digest's, the comparison throws and the
    middleware answers nothing, neither 401 nor anything else. *)
Theorem verifyAppProxyRequest_throws_on_length (req : Request)
    (secret hmac : string) :
  env "SHOPIFY_API_SECRET" = Some secret -> secret <> ""%string ->
  hdr_hmac req = Some hmac -> hmac <> ""%string ->
  List.length (Buffer_from_base64 hmac) <>
  List.length (Buffer_from_base64
                 (hmac_sha256_base64 secret (signed_bytes req))) ->
  verifyAppProxyRequest env hmac_sha256_base64 Buffer_from_base64
                        JSON_stringify req =
  Exn (RangeError "Input buffers must have the same byte length").
Proof.
  intros Hs Hne Hh Hhne Hlen.
  unfold verifyAppProxyRequest, verifyAppProxyHMAC. rewrite Hs, Hh.
  destruct (String.eqb_spec secret ""); [contradiction|].
  destruct (String.eqb_spec hmac ""); [contradiction|].
  unfold timingSafeEqual. fold (signed_bytes req).
  destruct (Nat.eqb_spec (List.length (Buffer_from_base64 hmac))
              (List.length (Buffer_from_base64
                 (hmac_sha256_base64 secret (signed_bytes req)))));
    [contradiction|reflexivity].
Qed.

(** What the middleware does once the signature has been accepted. *)
Definition after_signature (req : Request) : MwOutcome :=
  let shop :=
    or_else (or_else (of_option (hdr_shop_domain req))
                     (of_option (query_shop req)))
            (field "shop" (body req)) in
  if negb (truthy shop) then Respond 400 "Shop domain required" else Next shop.

(** Where the comparison does return, the middleware keeps to the contract:
    an absent or empty header and a mismatch of equal length are answered
    401, and a header that decodes to the expected signature, the expected
    string itself in particular, passes on to the shop check. *)
Theorem verifyAppProxyRequest_contract (req : Request) (secret : string) :
  env "SHOPIFY_API_SECRET" = Some secret -> secret <> ""%string ->
  let expected := hmac_sha256_base64 secret (signed_bytes req) in
  let answer := verifyAppProxyRequest env hmac_sha256_base64
                  Buffer_from_base64 JSON_stringify req in
  (hdr_hmac req = None \/ hdr_hmac req = Some ""%string ->
   answer = Val (Respond 401 "Unauthorized")) /\
  (forall hmac,
      hdr_hmac req = Some hmac -> hmac <> ""%string ->
      List.length (Buffer_from_base64 hmac) =
      List.length (Buffer_from_base64 expected) ->
      Buffer_from_base64 hmac <> Buffer_from_base64 expected ->
      answer = Val (Respond 401 "Unauthorized")) /\
  (forall hmac,
      hdr_hmac req = Some hmac -> hmac <> ""%string ->
      Buffer_from_base64 hmac = Buffer_from_base64 expected ->
      answer = Val (after_signature req)).
Proof.
  intros Hs Hne expected answer. unfold answer, verifyAppProxyRequest.
  rewrite Hs. destruct (String.eqb_spec secret ""); [contradiction|].
  unfold verifyAppProxyHMAC. fold (signed_bytes req). fold expected.
  split; [|split].
  - intros [-> | ->]; reflexivity.
  - intros hmac -> Hh Hlen Hdiff.
    destruct (String.eqb_spec hmac ""); [contradiction|].
    unfold timingSafeEqual. rewrite Hlen, Nat.eqb_refl.
    destruct (list_eq_dec _ _ _); [contradiction|reflexivity].
  - intros hmac -> Hh Hsame.
    destruct (String.eqb_spec hmac ""); [contradiction|].
    unfold timingSafeEqual. rewrite Hsame, Nat.eqb_refl.
    destruct (list_eq_dec _ _ _); [|congruence].
    unfold after_signature. destruct (negb _); reflexivity.
Qed.

End TokenProperties.

(* ------------------------------------------------------------------ *)
(** ** Lists and tables *)

Lemma find_app_none {A} (f : A -> bool) (l l' : list A) :
  find f l = None -> find f (l ++ l') = find f l'.
Proof.
  induction l as [|x l IH]; simpl; [reflexivity|].
  destruct (f x); [discriminate|exact IH].
Qed.

Lemma find_none_intro {A} (f : A -> bool) (l : list A) :
  (forall x, In x l -> f x = false) -> find f l = None.
Proof.
  induction l as [|x l IH]; simpl; intros H; [reflexivity|].
  rewrite (H x (or_introl eq_refl)). apply IH. intros y Hy. apply H. now right.
Qed.

Lemma find_filter_and {A} (f g : A -> bool) (l : list A) :
  find (fun x => f x && g x) l = find g (filter f l).
Proof.
  induction l as [|x l IH]; simpl; [reflexivity|].
  destruct (f x); simpl; [destruct (g x); auto|exact IH].
Qed.

Lemma filter_none {A} (f : A -> bool) (l : list A) :
  find f l = None -> filter f l = [].
Proof.
  induction l as [|x l IH]; simpl; [reflexivity|].
  destruct (f x); [discriminate|exact IH].
Qed.

Lemma find_existsb {A} (f : A -> bool) (l : list A) (x : A) :
  find f l = Some x -> existsb f l = true.
Proof.
  intros H. apply find_some in H. apply existsb_exists. exists x. exact H.
Qed.

Lemma NoDup_map_inj_in {A B} (f : A -> B) (l : list A) (x y : A) :
  NoDup (map f l) -> In x l -> In y l -> f x = f y -> x = y.
Proof.
  induction l as [|z l IH]; simpl; intros Hnd Hx Hy Hf; [contradiction|].
  inversion Hnd as [|? ? Hnotin Hnd']; subst.
  destruct Hx as [->|Hx], Hy as [->|Hy]; auto.
  - exfalso. apply Hnotin. rewrite Hf. now apply in_map.
  - exfalso. apply Hnotin. rewrite <- Hf. now apply in_map.
Qed.

(** The table of items with [new] rows appended by [wishlistItem_create]. *)
Definition with_items (db : DB) (new : list WishlistItem) : DB :=
  {| shops := shops db; customers := customers db; wishlists := wishlists db;
     items := items db ++ new; events := events db;
     nextId := (nextId db + List.length new)%nat |}.

(** The row [wishlistItem_create] builds. *)
Definition new_item (db : DB) (wishlistId : rowid) (p v : Z) (h : string)
  : WishlistItem :=
  {| it_id := nextId db; it_wishlistId := wishlistId; it_productId := p;
     it_variantId := v; it_handle := h |}.

Lemma with_items_nil (db : DB) : with_items db [] = db.
Proof.
  destruct db; unfold with_items; simpl. rewrite app_nil_r, Nat.add_0_r.
  reflexivity.
Qed.

Lemma with_items_cons (db : DB) (it : WishlistItem) (new : list WishlistItem) :
  with_items (with_items db [it]) new = with_items db (it :: new).
Proof.
  unfold with_items; simpl. rewrite <- app_assoc. simpl.
  f_equal. lia.
Qed.

(** A pair the client lets into the two BIGINT columns, and a row that
    holds such a pair (as every row that was stored does). *)
Definition pair_fits (p v : Z) : bool := fits_int64 p && fits_int64 v.
Definition item_fits (it : WishlistItem) : bool :=
  pair_fits (it_productId it) (it_variantId it).

Lemma wishlistItem_create_ok (wishlistId : rowid) (p v : Z) (h : string)
    (db : DB) :
  pair_fits p v = true ->
  wishlist_exists wishlistId db = true ->
  wishlistItem_create wishlistId p v h db =
  (Val (new_item db wishlistId p v h),
   with_items db [new_item db wishlistId p v h]).
Proof.
  intros Hf H. unfold wishlistItem_create. unfold pair_fits in Hf.
  rewrite Hf, H. simpl.
  unfold with_items, new_item. simpl. rewrite Nat.add_1_r. reflexivity.
Qed.

Lemma wishlistItem_findFirst_items_of (wishlistId : rowid) (p v : Z) (db : DB) :
  pair_fits p v = true ->
  wishlistItem_findFirst wishlistId p v db =
  (Val (find (same_key p v) (items_of wishlistId db)), db).
Proof.
  intros Hf. unfold wishlistItem_findFirst, items_of. unfold pair_fits in Hf.
  rewrite Hf. now rewrite find_filter_and.
Qed.

(** A lookup that answers has looked at the rows and written nothing. *)
Lemma wishlistItem_findFirst_answers (wishlistId : rowid) (p v : Z) (db : DB)
    (found : option WishlistItem) (d : DB) :
  wishlistItem_findFirst wishlistId p v db = (Val found, d) ->
  pair_fits p v = true /\ d = db /\
  found = find (fun it => Nat.eqb (it_wishlistId it) wishlistId
                          && same_key p v it) (items db).
Proof.
  unfold wishlistItem_findFirst, pair_fits.
  destruct (fits_int64 p && fits_int64 v); [|discriminate].
  intros [= <- <-]. auto.
Qed.

Lemma customer_findFirst_answers (shopId : rowid) (n : Z) (db : DB)
    (found : option Customer) (d : DB) :
  customer_findFirst shopId n db = (Val found, d) ->
  fits_int64 n = true /\ d = db /\
  found = find (fun c => Nat.eqb (cust_shopId c) shopId
                         && (cust_shopCustomerId c =? n)%Z) (customers db).
Proof.
  unfold customer_findFirst.
  destruct (fits_int64 n); [|discriminate].
  intros [= <- <-]. auto.
Qed.

(** The row the customer lookup answers with when it answers. *)
Definition customer_row (shopId : rowid) (n : Z) (db : DB) : option Customer :=
  find (fun c => Nat.eqb (cust_shopId c) shopId
                 && (cust_shopCustomerId c =? n)%Z) (customers db).

Lemma customer_findFirst_fits (shopId : rowid) (n : Z) (db : DB) :
  fits_int64 n = true ->
  customer_findFirst shopId n db = (Val (customer_row shopId n db), db).
Proof. intros H. unfold customer_findFirst. now rewrite H. Qed.

Lemma customer_findFirst_reads (shopId : rowid) (n : Z) (db : DB) :
  snd (customer_findFirst shopId n db) = db.
Proof. unfold customer_findFirst. destruct (fits_int64 n); reflexivity. Qed.

Lemma wishlistItem_findFirst_reads (wishlistId : rowid) (p v : Z) (db : DB) :
  snd (wishlistItem_findFirst wishlistId p v db) = db.
Proof.
  unfold wishlistItem_findFirst.
  destruct (fits_int64 p && fits_int64 v); reflexivity.
Qed.

(** The customer lookup sees the customer table and nothing else. *)
Lemma customer_findFirst_frame (shopId : rowid) (n : Z) (db db' : DB)
    (found : option Customer) :
  customers db' = customers db ->
  customer_findFirst shopId n db = (Val found, db) ->
  customer_findFirst shopId n db' = (Val found, db').
Proof.
  intros Hc H. apply customer_findFirst_answers in H.
  destruct H as (Hf & _ & ->). unfold customer_findFirst.
  now rewrite Hf, Hc.
Qed.

Lemma items_of_with_items (wishlistId : rowid) (db : DB)
    (new : list WishlistItem) :
  items_of wishlistId (with_items db new) =
  (items_of wishlistId db
     ++ filter (fun it => Nat.eqb (it_wishlistId it) wishlistId) new)%list.
Proof. unfold items_of, with_items; simpl. apply filter_app. Qed.

Lemma found_wishlist_exists (f : Wishlist -> bool) (db : DB) (w : Wishlist) :
  find f (wishlists db) = Some w -> wishlist_exists (wl_id w) db = true.
Proof.
  intros H. apply find_some in H. apply existsb_exists.
  exists w. split; [tauto|apply Nat.eqb_refl].
Qed.

Lemma found_shop_exists (domain : string) (db : DB) (s : Shop) :
  shop_findUnique domain db = Some s -> shop_exists (shop_id s) db = true.
Proof.
  intros H. apply find_some in H. apply existsb_exists.
  exists s. split; [tauto|apply Nat.eqb_refl].
Qed.

Lemma found_customer_exists (shopId : rowid) (n : Z) (db : DB) (c : Customer) :
  customer_findFirst shopId n db = (Val (Some c), db) ->
  customer_exists (cust_id c) db = true.
Proof.
  intros H. apply customer_findFirst_answers in H.
  destruct H as (_ & _ & H). symmetry in H.
  apply find_some in H. apply existsb_exists.
  exists c. split; [tauto|apply Nat.eqb_refl].
Qed.

Section HandlerProperties.

Variable StringToBigInt : string -> option Z.
Variable env : string -> option string.

Ltac run := unfold bind, query, ret, lift, send, throw, customer_out_of_scope.

(** ** Removing an item *)

(** The tables after [wishlistItem_delete]. *)
Definition without_item (id : rowid) (db : DB) : DB :=
  snd (wishlistItem_delete id db).

(** C3 for the owner: when customer C removes an item of their own
    wishlist, the row is deleted and the handler then reads [customer]
    out of scope, so the answer is 500 "Internal server error" and no
    [remove] event is written. *)
Theorem delete_item_by_owner (now : Z) (shop : string)
    (customerId : option string) (key : string) (n : Z) (id : rowid) (db : DB)
    (shopRecord : Shop) (customer : Customer) (item : WishlistItem)
    (wishlist : Wishlist) :
  parseCustomerId customerId = registered key ->
  StringToBigInt key = Some n ->
  shop_findUnique shop db = Some shopRecord ->
  customer_findFirst (shop_id shopRecord) n db = (Val (Some customer), db) ->
  wishlistItem_findUnique id db = Some (item, Some wishlist) ->
  wl_shopId wishlist = shop_id shopRecord ->
  wl_customerId wishlist = Some (cust_id customer) ->
  delete_item StringToBigInt env now shop customerId id db =
  ({| status := 500; json := ErrorBody "Internal server error" |},
   without_item id db) /\
  wishlistItem_findUnique id (without_item id db) = None /\
  events (without_item id db) = events db.
Proof.
  intros Hp Hn Hs Hc Hi Hshop Hown.
  assert (Hex : existsb (fun it => Nat.eqb (it_id it) id) (items db) = true).
  { unfold wishlistItem_findUnique in Hi.
    destruct (find _ (items db)) eqn:E; [|discriminate].
    eapply find_existsb; eauto. }
  unfold without_item, wishlistItem_delete. rewrite Hex. cbn [negb snd].
  split; [|split].
  - unfold delete_item, try_catch, delete_item_body. rewrite Hp.
    cbn [isGuest registered ProxyAuth.customerId negb]. run.
    rewrite Hs, Hi, Hshop, Nat.eqb_refl. cbn [negb].
    unfold BigInt_of_key, BigInt. rewrite Hn, Hc, Hown.
    cbn [opt_rowid_eqb]. rewrite Nat.eqb_refl. cbn [negb].
    unfold wishlistItem_delete. rewrite Hex. reflexivity.
  - unfold wishlistItem_findUnique. cbn [items].
    rewrite find_none_intro; [reflexivity|].
    intros x Hx. apply filter_In in Hx. destruct Hx as [_ Hx].
    now apply negb_true_iff in Hx.
  - reflexivity.
Qed.

(** C3 for everyone else.  An item of a customer's wishlist is never
    removed by a guest, nor by a registered caller whom the customer lookup
    does not resolve to the owner (another customer's row, or no row in the
    shop): the tables are left as they were.  The answer is 403 when the
    caller is a guest, when the identifier converts to an integer of the
    BIGINT range, and when the item is of another shop; a registered caller
    whose identifier does not convert is answered 500. *)
Theorem delete_item_by_stranger (now : Z) (shop : string)
    (customerId : option string) (id : rowid) (db : DB)
    (shopRecord : Shop) (item : WishlistItem) (wishlist : Wishlist)
    (owner : rowid) :
  shop_findUnique shop db = Some shopRecord ->
  wishlistItem_findUnique id db = Some (item, Some wishlist) ->
  wl_customerId wishlist = Some owner ->
  (isGuest (parseCustomerId customerId) = true \/
   forall n c,
     BigInt_of_key StringToBigInt
                   (ProxyAuth.customerId (parseCustomerId customerId)) = Val n ->
     customer_findFirst (shop_id shopRecord) n db = (Val (Some c), db) ->
     cust_id c <> owner) ->
  let denied := {| status := 403; json := ErrorBody "Access denied" |} in
  let failed :=
    {| status := 500; json := ErrorBody "Internal server error" |} in
  let converts :=
    match BigInt_of_key StringToBigInt
                        (ProxyAuth.customerId (parseCustomerId customerId)) with
    | Val n => fits_int64 n
    | Exn _ => false
    end in
  delete_item StringToBigInt env now shop customerId id db =
  (if negb (Nat.eqb (wl_shopId wishlist) (shop_id shopRecord))
      || isGuest (parseCustomerId customerId) || converts
   then denied else failed,
   db).
Proof.
  intros Hs Hi Hown Hwho. cbv zeta.
  unfold delete_item, try_catch, delete_item_body. run. rewrite Hs, Hi.
  destruct (Nat.eqb (wl_shopId wishlist) (shop_id shopRecord));
    cbn [negb orb]; [|reflexivity].
  destruct (isGuest (parseCustomerId customerId)) eqn:Hg; cbn [negb orb].
  - rewrite Hown. reflexivity.
  - destruct Hwho as [Hg'|Hwho]; [discriminate Hg'|].
    destruct (BigInt_of_key StringToBigInt _) as [n|e] eqn:Hn; [|reflexivity].
    specialize (Hwho n). unfold customer_findFirst in *.
    destruct (fits_int64 n); [|reflexivity].
    destruct (find _ (customers db)) as [c|]; [|reflexivity].
    rewrite Hown. cbn [opt_rowid_eqb].
    specialize (Hwho c eq_refl eq_refl).
    destruct (Nat.eqb_spec owner (cust_id c)); [congruence|reflexivity].
Qed.

(** ** Adding an item *)

(** The wishlist the caller's identity resolves to when it already exists:
    the lookups of the add handler, without the creation that follows a
    miss. *)
Definition resolved_wishlist (shop : string) (customerId : option string)
    (db : DB) : option Wishlist :=
  let ident := parseCustomerId customerId in
  match shop_findUnique shop db with
  | None => None
  | Some shopRecord =>
      if isGuest ident
      then wishlist_findFirst_guest
             (shop_id shopRecord)
             (str_or (ProxyAuth.customerId ident) "default-guest") db
      else
        match BigInt_of_key StringToBigInt (ProxyAuth.customerId ident) with
        | Exn _ => None
        | Val n =>
            match customer_findFirst (shop_id shopRecord) n db with
            | (Val (Some customer), _) =>
                wishlist_findUnique (shop_id shopRecord) (cust_id customer) db
            | _ => None
            end
        end
  end.

(** The rows of a wishlist that carry a given (productId, variantId). *)
Definition matching (wishlistId : rowid) (p v : Z) (db : DB)
  : list WishlistItem :=
  filter (fun it => Nat.eqb (it_wishlistId it) wishlistId && same_key p v it)
         (items db).

Lemma resolved_wishlist_frame (shop : string) (customerId : option string)
    (db db' : DB) :
  shops db' = shops db -> customers db' = customers db ->
  wishlists db' = wishlists db ->
  resolved_wishlist shop customerId db' = resolved_wishlist shop customerId db.
Proof.
  intros Hs Hc Hw.
  unfold resolved_wishlist, shop_findUnique, wishlist_findFirst_guest,
    customer_findFirst, wishlist_findUnique.
  rewrite Hs, Hc, Hw.
  destruct (find _ (shops db)); [|reflexivity].
  destruct (isGuest _); [reflexivity|].
  destruct (BigInt_of_key _ _) as [n|]; [|reflexivity].
  destruct (fits_int64 n); reflexivity.
Qed.

(** The wishlist the add handler works on, when the caller's wishlist is
    there: the lookups all answer, and nothing is written. *)
Lemma resolved_wishlist_found (shop : string) (customerId : option string)
    (db : DB) (w : Wishlist) :
  resolved_wishlist shop customerId db = Some w ->
  wishlist_exists (wl_id w) db = true /\
  exists s,
    shop_findUnique shop db = Some s /\
    if isGuest (parseCustomerId customerId)
    then wishlist_findFirst_guest
           (shop_id s)
           (str_or (ProxyAuth.customerId (parseCustomerId customerId))
                   "default-guest") db = Some w
    else exists n c,
        BigInt_of_key StringToBigInt
                      (ProxyAuth.customerId (parseCustomerId customerId))
        = Val n /\
        customer_findFirst (shop_id s) n db = (Val (Some c), db) /\
        wishlist_findUnique (shop_id s) (cust_id c) db = Some w.
Proof.
  unfold resolved_wishlist.
  destruct (shop_findUnique shop db) as [s|]; [|discriminate].
  destruct (isGuest (parseCustomerId customerId)).
  - intros Hw. split; [eapply found_wishlist_exists; exact Hw|].
    exists s. auto.
  - destruct (BigInt_of_key StringToBigInt _) as [n|]; [|discriminate].
    destruct (customer_findFirst (shop_id s) n db) as [[[c|]|e] d] eqn:Hc;
      try discriminate.
    intros Hw. split; [eapply found_wishlist_exists; exact Hw|].
    exists s. split; [reflexivity|]. exists n, c.
    destruct (customer_findFirst_answers _ _ _ _ _ Hc) as (_ & -> & _).
    auto.
Qed.

(** What the add handler does once the caller's wishlist is found and the
    fields convert: a 409 carrying the first matching row when there is one,
    with nothing written. *)
Lemma post_items_conflict (now : Z) (shop : string)
    (customerId : option string) (reqBody : list (string * jsval)) (db : DB)
    (w : Wishlist) (p v : Z) (existing : WishlistItem) :
  truthy (field "productId" reqBody) = true ->
  truthy (field "variantId" reqBody) = true ->
  truthy (field "handle" reqBody) = true ->
  BigInt StringToBigInt (field "productId" reqBody) = Val p ->
  BigInt StringToBigInt (field "variantId" reqBody) = Val v ->
  resolved_wishlist shop customerId db = Some w ->
  wishlistItem_findFirst (wl_id w) p v db = (Val (Some existing), db) ->
  post_items StringToBigInt env now shop customerId reqBody db =
  ({| status := 409;
      json := ConflictBody "Item already in wishlist" (view existing) |}, db).
Proof.
  intros Tp Tv Th Bp Bv Hw Hf.
  destruct (resolved_wishlist_found _ _ _ _ Hw) as (_ & s & Hs & Hres).
  unfold post_items, try_catch, post_items_body. rewrite Tp, Tv, Th.
  cbn [negb orb]. run. rewrite Hs.
  destruct (isGuest (parseCustomerId customerId)).
  - rewrite Hres, Bp, Bv, Hf. reflexivity.
  - destruct Hres as (n & c & Hn & Hc & Hres).
    rewrite Hn, Hc, Hres, Bp, Bv, Hf. reflexivity.
Qed.

(** C5: on a wishlist the caller resolves to and that does not hold the
    pair yet, the first add of a pair of the BIGINT range stores one row and
    is not a conflict (201 for a guest, 500 for a registered caller, whose
    event cannot be built); the second add of the same pair is answered 409
    with that row as the response shows it (its id, the pair in decimal, the
    handle), writes nothing, and the wishlist holds exactly that one row for
    the pair. *)
Theorem add_same_item_twice (now1 now2 : Z) (shop : string)
    (customerId : option string) (reqBody : list (string * jsval)) (db : DB)
    (w : Wishlist) (p v : Z) (h : string) :
  truthy (field "productId" reqBody) = true ->
  truthy (field "variantId" reqBody) = true ->
  field "handle" reqBody = JStr h -> h <> ""%string ->
  BigInt StringToBigInt (field "productId" reqBody) = Val p ->
  BigInt StringToBigInt (field "variantId" reqBody) = Val v ->
  fits_int64 p = true -> fits_int64 v = true ->
  resolved_wishlist shop customerId db = Some w ->
  (forall x, In x (items db) -> it_wishlistId x = wl_id w ->
             it_productId x = p -> it_variantId x <> v) ->
  let it := {| it_id := nextId db; it_wishlistId := wl_id w;
               it_productId := p; it_variantId := v; it_handle := h |} in
  exists r1 db1,
    post_items StringToBigInt env now1 shop customerId reqBody db = (r1, db1) /\
    status r1 =
      (if isGuest (parseCustomerId customerId) then 201 else 500)%nat /\
    items db1 = (items db ++ [it])%list /\
    post_items StringToBigInt env now2 shop customerId reqBody db1 =
    ({| status := 409;
        json := ConflictBody "Item already in wishlist"
                  {| iv_id := nextId db; iv_productId := decZ p;
                     iv_variantId := decZ v; iv_handle := h |} |}, db1) /\
    filter (fun x => Nat.eqb (it_wishlistId x) (wl_id w)
                     && (it_productId x =? p)%Z && (it_variantId x =? v)%Z)
           (items db1) = [it].
Proof.
  intros Tp Tv Hh Hne Bp Bv Fp Fv Hw Hnone it.
  assert (Th : truthy (field "handle" reqBody) = true).
  { rewrite Hh. simpl. destruct (String.eqb_spec h ""); [contradiction|auto]. }
  assert (Hpv : pair_fits p v = true).
  { unfold pair_fits. now rewrite Fp, Fv. }
  destruct (resolved_wishlist_found _ _ _ _ Hw) as (Hex & s & Hs & Hres).
  assert (Hf : find (fun x => Nat.eqb (it_wishlistId x) (wl_id w)
                              && same_key p v x) (items db) = None).
  { apply find_none_intro. intros x Hx. unfold same_key.
    destruct (Nat.eqb_spec (it_wishlistId x) (wl_id w)); [|reflexivity].
    destruct (Z.eqb_spec (it_productId x) p); [|reflexivity].
    destruct (Z.eqb_spec (it_variantId x) v); [|reflexivity].
    exfalso. eapply Hnone; eauto. }
  assert (Hlook : wishlistItem_findFirst (wl_id w) p v db = (Val None, db)).
  { unfold wishlistItem_findFirst. rewrite Fp, Fv, Hf. reflexivity. }
  assert (Hfit : (Nat.eqb (it_wishlistId it) (wl_id w) && same_key p v it)%bool
                 = true).
  { unfold it, same_key; simpl. now rewrite Nat.eqb_refl, !Z.eqb_refl. }
  change it with (new_item db (wl_id w) p v h) in *.
  (* the first add, up to the event *)
  assert (H1 : exists r1 db1,
             post_items StringToBigInt env now1 shop customerId reqBody db
             = (r1, db1) /\
             status r1 =
               (if isGuest (parseCustomerId customerId) then 201 else 500)%nat /\
             shops db1 = shops db /\ customers db1 = customers db /\
             wishlists db1 = wishlists db /\
             items db1 = (items db ++ [new_item db (wl_id w) p v h])%list).
  { unfold post_items, try_catch, post_items_body. rewrite Tp, Tv, Th.
    cbn [negb orb]. run. rewrite Hs.
    pose proof (found_shop_exists _ _ _ Hs) as Hsx.
    destruct (isGuest (parseCustomerId customerId)).
    - rewrite Hres, Bp, Bv, Hlook, Hh.
      rewrite (wishlistItem_create_ok _ _ _ _ _ Hpv Hex).
      unfold event_create.
      replace (shop_exists (shop_id s)
                 (with_items db [new_item db (wl_id w) p v h])) with true
        by (symmetry; exact Hsx).
      cbn. eexists _, _. repeat split; reflexivity.
    - destruct Hres as (n & c & Hn & Hc & Hres).
      rewrite Hn, Hc, Hres, Bp, Bv, Hlook, Hh.
      rewrite (wishlistItem_create_ok _ _ _ _ _ Hpv Hex).
      eexists _, _. repeat split; reflexivity. }
  destruct H1 as (r1 & db1 & E1 & St & Hs1 & Hc1 & Hw1 & Hi1).
  exists r1, db1. split; [exact E1|]. split; [exact St|].
  split; [exact Hi1|]. split.
  - change {| iv_id := nextId db; iv_productId := decZ p;
              iv_variantId := decZ v; iv_handle := h |}
      with (view (new_item db (wl_id w) p v h)).
    apply post_items_conflict with (w := w) (p := p) (v := v); auto.
    + rewrite (resolved_wishlist_frame _ _ db db1); auto.
    + unfold wishlistItem_findFirst. rewrite Fp, Fv, Hi1.
      rewrite find_app_none by exact Hf. cbn [find]. rewrite Hfit. reflexivity.
  - rewrite Hi1, filter_app.
    assert (Hsame : forall l,
               filter (fun x => Nat.eqb (it_wishlistId x) (wl_id w)
                                && (it_productId x =? p)%Z
                                && (it_variantId x =? v)%Z) l =
               filter (fun x => Nat.eqb (it_wishlistId x) (wl_id w)
                                && same_key p v x) l).
    { intros l. apply filter_ext. intros x. unfold same_key.
      now rewrite andb_assoc. }
    rewrite !Hsame, (filter_none _ _ Hf).
    cbn [filter app]. rewrite Hfit. reflexivity.
Qed.

(** ** Migration *)

(** The dedup key of an item. *)
Definition key_of (it : WishlistItem) : Z * Z :=
  (it_productId it, it_variantId it).

(** The rows the loop creates in wishlist [target], whose rows are
    [present] when it starts and whose next row identifier is [next]. *)
Fixpoint folded (target : rowid) (present : list WishlistItem) (next : rowid)
    (guestItems : list WishlistItem) : list WishlistItem :=
  match guestItems with
  | [] => []
  | g :: rest =>
      if existsb (same_key (it_productId g) (it_variantId g)) present
      then folded target present next rest
      else
        let it := {| it_id := next; it_wishlistId := target;
                     it_productId := it_productId g;
                     it_variantId := it_variantId g;
                     it_handle := it_handle g |} in
        it :: folded target (present ++ [it]) (S next) rest
  end.

(** The tables after [wishlist_delete] and after [event_create]. *)
Definition without_wishlist (id : rowid) (db : DB) : DB :=
  {| shops := shops db; customers := customers db;
     wishlists := filter (fun w => negb (Nat.eqb (wl_id w) id)) (wishlists db);
     items := filter (fun it => negb (Nat.eqb (it_wishlistId it) id)) (items db);
     events := events db; nextId := nextId db |}.

Definition with_event (db : DB) (shopId : rowid) (c : option rowid)
    (type : string) (payload : EventPayload) : DB :=
  {| shops := shops db; customers := customers db; wishlists := wishlists db;
     items := items db;
     events := events db ++ [ {| ev_id := nextId db; ev_shopId := shopId;
                                 ev_customerId := c; ev_type := type;
                                 ev_payload := payload |} ];
     nextId := S (nextId db) |}.

Lemma existsb_find_none {A} (f : A -> bool) (l : list A) :
  find f l = None -> existsb f l = false.
Proof.
  induction l as [|x l IH]; simpl; [reflexivity|].
  destruct (f x); [discriminate|exact IH].
Qed.

Lemma migrate_items_spec (target : rowid) (guestItems : list WishlistItem) :
  forall (count : nat) (db : DB),
    forallb item_fits guestItems = true ->
    wishlist_exists target db = true ->
    let new := folded target (items_of target db) (nextId db) guestItems in
    migrate_items target guestItems count db =
    (Val (count + List.length new)%nat, with_items db new).
Proof.
  induction guestItems as [|g rest IH]; intros count db Hfit Hex; cbv zeta.
  - simpl. unfold ret. now rewrite with_items_nil, Nat.add_0_r.
  - cbn [forallb] in Hfit. apply andb_true_iff in Hfit.
    destruct Hfit as [Hg Hrest]. unfold item_fits in Hg.
    cbn [migrate_items folded]. unfold bind at 1.
    rewrite (wishlistItem_findFirst_items_of _ _ _ _ Hg).
    destruct (find _ (items_of target db)) as [e|] eqn:E.
    + rewrite (find_existsb _ _ _ E). now apply IH.
    + rewrite (existsb_find_none _ _ E). unfold bind.
      rewrite (wishlistItem_create_ok _ _ _ _ _ Hg Hex).
      unfold new_item.
      set (it := {| it_id := nextId db; it_wishlistId := target;
                    it_productId := it_productId g;
                    it_variantId := it_variantId g;
                    it_handle := it_handle g |}).
      specialize (IH (S count) (with_items db [it]) Hrest). cbv zeta in IH.
      rewrite IH by exact Hex.
      rewrite items_of_with_items. cbn [filter it_wishlistId it].
      rewrite Nat.eqb_refl, with_items_cons.
      replace (nextId (with_items db [it])) with (S (nextId db))
        by (simpl; lia).
      cbn [List.length]. f_equal. f_equal. lia.
Qed.

(** The loop comes to its end only over rows of the BIGINT range. *)
Lemma migrate_items_fits (target : rowid) (guestItems : list WishlistItem) :
  forall (count : nat) (db : DB) (n : nat) (d : DB),
    migrate_items target guestItems count db = (Val n, d) ->
    forallb item_fits guestItems = true.
Proof.
  induction guestItems as [|g rest IH]; intros count db n d; [reflexivity|].
  cbn [migrate_items forallb]. unfold bind, wishlistItem_findFirst,
    wishlistItem_create, item_fits, pair_fits.
  destruct (fits_int64 (it_productId g) && fits_int64 (it_variantId g));
    [|discriminate].
  cbn [negb andb].
  destruct (find _ (items db)); [apply IH|].
  destruct (negb _); [discriminate|]. apply IH.
Qed.

Lemma wishlist_delete_ok (id : rowid) (db : DB) :
  wishlist_exists id db = true ->
  wishlist_delete id db = (Val tt, without_wishlist id db).
Proof. intros H. unfold wishlist_delete. rewrite H. reflexivity. Qed.

Lemma event_create_ok (shopId : rowid) (c : option rowid) (type : string)
    (payload : EventPayload) (db : DB) :
  shop_exists shopId db = true -> optional_customer_exists c db = true ->
  exists e, event_create shopId c type payload db =
            (Val e, with_event db shopId c type payload).
Proof.
  intros Hs Hc. unfold event_create. rewrite Hs, Hc. eexists. reflexivity.
Qed.

Lemma items_of_without_other (id gone : rowid) (db : DB) :
  id <> gone -> items_of id (without_wishlist gone db) = items_of id db.
Proof.
  intros Hne. unfold items_of, without_wishlist. cbn [items].
  induction (items db) as [|x l IH]; [reflexivity|]. cbn [filter].
  destruct (Nat.eqb_spec (it_wishlistId x) gone) as [E|E]; cbn [negb filter].
  - destruct (Nat.eqb_spec (it_wishlistId x) id); [congruence|exact IH].
  - now rewrite IH.
Qed.

Lemma items_of_without_self (gone : rowid) (db : DB) :
  items_of gone (without_wishlist gone db) = [].
Proof.
  unfold items_of, without_wishlist. cbn [items].
  induction (items db) as [|x l IH]; [reflexivity|]. cbn [filter].
  destruct (Nat.eqb_spec (it_wishlistId x) gone) as [E|E]; cbn [negb filter].
  - exact IH.
  - destruct (Nat.eqb_spec (it_wishlistId x) gone); [contradiction|exact IH].
Qed.

Lemma wishlist_exists_without_self (gone : rowid) (db : DB) :
  wishlist_exists gone (without_wishlist gone db) = false.
Proof.
  unfold wishlist_exists, without_wishlist. cbn [wishlists].
  induction (wishlists db) as [|x l IH]; [reflexivity|]. cbn [filter].
  destruct (Nat.eqb_spec (wl_id x) gone) as [E|E]; cbn [negb existsb].
  - exact IH.
  - destruct (Nat.eqb_spec (wl_id x) gone); [contradiction|exact IH].
Qed.

(** Once the wishlist that answered the guest lookup is deleted, the lookup
    finds nothing: share identifiers are unique, and a customer's wishlist
    never answers it. *)
Lemma guest_lookup_after_delete (shopId : rowid) (guestId : string) (db : DB)
    (gw : Wishlist) (ws : list Wishlist) :
  NoDup (map wl_shareUUID (wishlists db)) ->
  wishlist_findFirst_guest shopId guestId db = Some gw ->
  (forall w, In w ws -> In w (wishlists db) \/ wl_customerId w <> None) ->
  find (fun w => Nat.eqb (wl_shopId w) shopId
                 && opt_rowid_eqb (wl_customerId w) None
                 && (wl_shareUUID w =? guestId)%string)
       (filter (fun w => negb (Nat.eqb (wl_id w) (wl_id gw))) ws) = None.
Proof.
  intros Hnd Hgw Hws. apply find_none_intro. intros w Hw.
  apply filter_In in Hw. destruct Hw as [Hin Hid].
  apply negb_true_iff in Hid. apply Nat.eqb_neq in Hid.
  apply find_some in Hgw. destruct Hgw as [Hgin Hg].
  apply andb_true_iff in Hg. destruct Hg as [_ Hgu].
  apply String.eqb_eq in Hgu.
  destruct (Nat.eqb (wl_shopId w) shopId); [|reflexivity].
  destruct (wl_customerId w) as [c|] eqn:Hc; [reflexivity|].
  cbn [opt_rowid_eqb andb].
  destruct (String.eqb_spec (wl_shareUUID w) guestId) as [Hu|]; [|reflexivity].
  exfalso. destruct (Hws w Hin) as [Hold|Hcust]; [|congruence].
  apply Hid. f_equal.
  apply (NoDup_map_inj_in wl_shareUUID (wishlists db)); auto. congruence.
Qed.

(** The two answers of a migration that runs to its end. *)
Definition nothing_to_migrate : Response :=
  {| status := 200; json := NothingToMigrateBody "No guest wishlist to migrate" |}.

Definition migrated (now : Z) (shop : string) (customerId : option string)
    (count : nat) : Response :=
  {| status := 200;
     json := MigratedBody
               ("Migrated " ++ dec count ++ " items to your account")
               count
               (generateStorefrontToken env now shop customerId
                                        default_expiresIn) |}.

(** The customer's wishlist, found or else created, as the handler gets it. *)
Definition find_or_create (now : Z) (shopRecord : Shop) (customer : Customer)
  : M Wishlist :=
  fun db =>
    match wishlist_findUnique (shop_id shopRecord) (cust_id customer) db with
    | Some w => (Val w, db)
    | None =>
        wishlist_create (shop_id shopRecord) (Some (cust_id customer))
          ("customer_" ++ dec (cust_id customer) ++ "_" ++ decZ now) db
    end.

(** What a registered caller with a usable guest token brings to the
    handler: the shop and the customer row are found. *)
Record ready (shop : string) (customerId : option string)
    (reqBody : list (string * jsval)) (db : DB) (gt : string)
    (shopRecord : Shop) (customer : Customer) : Prop := {
  ready_token : field "guestToken" reqBody = JStr gt;
  ready_token_nonempty : gt <> ""%string;
  ready_customer :
    exists key n,
      parseCustomerId customerId = registered key /\
      StringToBigInt key = Some n /\
      customer_findFirst (shop_id shopRecord) n db = (Val (Some customer), db);
  ready_shop : shop_findUnique shop db = Some shopRecord
}.

Lemma ready_frame shop customerId reqBody db db' gt shopRecord customer :
  shops db' = shops db -> customers db' = customers db ->
  ready shop customerId reqBody db gt shopRecord customer ->
  ready shop customerId reqBody db' gt shopRecord customer.
Proof.
  intros Hs Hc [Ht Hne (key & n & Hp & Hn & Hcust) Hshop].
  split; auto.
  - exists key, n. repeat split; auto.
    eapply customer_findFirst_frame; eauto.
  - unfold shop_findUnique in *. now rewrite Hs.
Qed.

Lemma migrate_noop now shop customerId reqBody db gt shopRecord customer :
  ready shop customerId reqBody db gt shopRecord customer ->
  match wishlist_findFirst_guest (shop_id shopRecord)
                                 (remove_first "guest_" gt) db with
  | None => True
  | Some g => items_of (wl_id g) db = []
  end ->
  migrate StringToBigInt env now shop customerId reqBody db =
  (nothing_to_migrate, db).
Proof.
  intros [Ht Hne (key & n & Hp & Hn & Hcust) Hshop] Hg.
  unfold migrate, try_catch, migrate_body. rewrite Ht.
  cbn [truthy]. destruct (String.eqb_spec gt ""); [contradiction|].
  cbn [negb]. rewrite Hp. cbn [isGuest registered ProxyAuth.customerId].
  run. rewrite Hshop. unfold BigInt_of_key, BigInt. rewrite Hn, Hcust.
  destruct (wishlist_findFirst_guest _ _ db) as [g|]; [|reflexivity].
  rewrite Hg. reflexivity.
Qed.

(** The handler from its loop on, for the customer's wishlist [cw]. *)
Definition merge_into (now : Z) (shop : string) (customerId : option string)
    (shopRecord : Shop) (customer : Customer) (gw : Wishlist)
    (guestId : string) (guestItems : list WishlistItem) (cw : Wishlist)
  : M Response :=
  (migratedCount <- migrate_items (wl_id cw) guestItems 0 ;;
   wishlist_delete (wl_id gw) ;;;
   event_create (shop_id shopRecord) (Some (cust_id customer)) "migrate"
     (MigratePayload migratedCount guestId) ;;;
   ret (migrated now shop customerId migratedCount))%prisma.

Lemma merge_into_runs now shop customerId shopRecord customer gw guestId
    guestItems cw db :
  forallb item_fits guestItems = true ->
  wishlist_exists (wl_id cw) db = true ->
  wishlist_exists (wl_id gw) db = true ->
  shop_exists (shop_id shopRecord) db = true ->
  customer_exists (cust_id customer) db = true ->
  let new := folded (wl_id cw) (items_of (wl_id cw) db) (nextId db)
                    guestItems in
  merge_into now shop customerId shopRecord customer gw guestId guestItems
             cw db =
  (Val (migrated now shop customerId (List.length new)),
   with_event (without_wishlist (wl_id gw) (with_items db new))
              (shop_id shopRecord) (Some (cust_id customer)) "migrate"
              (MigratePayload (List.length new) guestId)).
Proof.
  intros Hfit Hcw Hgw Hs Hc new. unfold merge_into, bind.
  pose proof (migrate_items_spec (wl_id cw) guestItems 0 db Hfit Hcw) as Hm.
  cbv zeta in Hm. fold new in Hm. rewrite Hm. cbn [Nat.add].
  rewrite wishlist_delete_ok by exact Hgw.
  destruct (event_create_ok (shop_id shopRecord) (Some (cust_id customer))
              "migrate" (MigratePayload (List.length new) guestId)
              (without_wishlist (wl_id gw) (with_items db new)) Hs Hc)
    as [e He].
  rewrite He. reflexivity.
Qed.

Lemma find_or_create_frame now shopRecord customer db cw dbc :
  find_or_create now shopRecord customer db = (Val cw, dbc) ->
  shops dbc = shops db /\ customers dbc = customers db /\
  wishlist_exists (wl_id cw) dbc = true /\
  (forall w, In w (wishlists db) -> In w (wishlists dbc)) /\
  (forall w, In w (wishlists dbc) ->
             In w (wishlists db) \/ wl_customerId w <> None).
Proof.
  unfold find_or_create.
  destruct (wishlist_findUnique _ _ db) as [w|] eqn:Hf.
  - intros [= <- <-]. repeat split; auto.
    eapply found_wishlist_exists; exact Hf.
  - unfold wishlist_create.
    destruct (_ || _)%bool; [discriminate|].
    destruct (negb _); [discriminate|].
    intros [= <- <-]. cbn [shops customers wishlists wl_id]. repeat split.
    + unfold wishlist_exists. cbn [wishlists]. rewrite existsb_app.
      cbn [existsb wl_id]. rewrite Nat.eqb_refl. apply orb_true_iff.
      right. reflexivity.
    + intros w Hw. apply in_or_app. now left.
    + intros w Hw. apply in_app_or in Hw.
      destruct Hw as [Hw|[<-|[]]]; [now left|right; discriminate].
Qed.

(** With the caller ready and rows in the guest wishlist, the handler is
    the lookup or creation of the customer's wishlist followed by the
    merge. *)
Lemma migrate_runs now shop customerId reqBody db gt shopRecord customer
    gw g gs :
  ready shop customerId reqBody db gt shopRecord customer ->
  wishlist_findFirst_guest (shop_id shopRecord)
                           (remove_first "guest_" gt) db = Some gw ->
  items_of (wl_id gw) db = g :: gs ->
  migrate StringToBigInt env now shop customerId reqBody db =
  try_catch
    (bind (find_or_create now shopRecord customer)
          (merge_into now shop customerId shopRecord customer gw
                      (remove_first "guest_" gt) (g :: gs)))
    db.
Proof.
  intros [Ht Hne (key & n & Hp & Hn & Hcust) Hshop] Hgw Hitems.
  unfold migrate, try_catch, migrate_body. rewrite Ht.
  cbn [truthy]. destruct (String.eqb_spec gt ""); [contradiction|].
  cbn [negb]. rewrite Hp. cbn [isGuest registered ProxyAuth.customerId].
  run. rewrite Hshop. unfold BigInt_of_key, BigInt. rewrite Hn, Hcust, Hgw.
  rewrite Hitems. unfold find_or_create.
  destruct (wishlist_findUnique (shop_id shopRecord) (cust_id customer) db);
    reflexivity.
Qed.

(** A migration that succeeds on a guest wishlist with rows has found all
    of them in the BIGINT range. *)
Lemma migrate_success_fits now shop customerId reqBody db gt shopRecord
    customer gw g gs r db' :
  ready shop customerId reqBody db gt shopRecord customer ->
  wishlist_findFirst_guest (shop_id shopRecord)
                           (remove_first "guest_" gt) db = Some gw ->
  items_of (wl_id gw) db = g :: gs ->
  migrate StringToBigInt env now shop customerId reqBody db = (r, db') ->
  body_success (json r) = Some true ->
  forallb item_fits (g :: gs) = true.
Proof.
  intros Hr Hgw Hitems Hrun Hok.
  rewrite (migrate_runs _ _ _ _ _ _ _ _ _ _ _ Hr Hgw Hitems) in Hrun.
  unfold try_catch, bind in Hrun.
  destruct (find_or_create now shopRecord customer db) as [[cw|e] dbc].
  2:{ injection Hrun as <- <-. discriminate Hok. }
  unfold merge_into, bind in Hrun.
  destruct (migrate_items (wl_id cw) (g :: gs) 0 dbc) as [[n|e] d] eqn:Hm.
  2:{ injection Hrun as <- <-. discriminate Hok. }
  eapply migrate_items_fits. exact Hm.
Qed.

Lemma migrate_merges now shop customerId reqBody db gt shopRecord customer
    gw g gs :
  ready shop customerId reqBody db gt shopRecord customer ->
  wishlist_findFirst_guest (shop_id shopRecord)
                           (remove_first "guest_" gt) db = Some gw ->
  items_of (wl_id gw) db = g :: gs ->
  forallb item_fits (g :: gs) = true ->
  migrate StringToBigInt env now shop customerId reqBody db =
  match find_or_create now shopRecord customer db with
  | (Val cw, dbc) =>
      let new := folded (wl_id cw) (items_of (wl_id cw) dbc) (nextId dbc)
                        (g :: gs) in
      (migrated now shop customerId (List.length new),
       with_event (without_wishlist (wl_id gw) (with_items dbc new))
                  (shop_id shopRecord) (Some (cust_id customer)) "migrate"
                  (MigratePayload (List.length new)
                                  (remove_first "guest_" gt)))
  | (Exn _, dbc) =>
      ({| status := 500; json := ErrorBody "Internal server error" |}, dbc)
  end.
Proof.
  intros Hr Hgw Hitems Hfit.
  rewrite (migrate_runs _ _ _ _ _ _ _ _ _ _ _ Hr Hgw Hitems).
  destruct Hr as [Ht Hne (key & n & Hp & Hn & Hcust) Hshop].
  unfold try_catch, bind.
  destruct (find_or_create now shopRecord customer db) as [[cw|e] dbc] eqn:Hc;
    [|reflexivity].
  destruct (find_or_create_frame _ _ _ _ _ _ Hc) as (Hs & Hcu & Hcx & Hin & _).
  rewrite merge_into_runs; auto.
  - apply find_some in Hgw. apply existsb_exists. exists gw.
    split; [apply Hin; tauto|apply Nat.eqb_refl].
  - pose proof (found_shop_exists _ _ _ Hshop) as Hsx.
    unfold shop_exists in *. now rewrite Hs.
  - pose proof (found_customer_exists _ _ _ _ Hcust) as Hx.
    unfold customer_exists in *. now rewrite Hcu.
Qed.

Lemma items_of_with_event id db shopId c type payload :
  items_of id (with_event db shopId c type payload) = items_of id db.
Proof. reflexivity. Qed.

Lemma wishlist_exists_with_event id db shopId c type payload :
  wishlist_exists id (with_event db shopId c type payload) =
  wishlist_exists id db.
Proof. reflexivity. Qed.

Lemma guest_and_customer_wishlists_differ (shopId customerId : rowid)
    (guestId : string) (db : DB) (gw cw : Wishlist) :
  NoDup (map wl_id (wishlists db)) ->
  wishlist_findFirst_guest shopId guestId db = Some gw ->
  wishlist_findUnique shopId customerId db = Some cw ->
  wl_id cw <> wl_id gw.
Proof.
  intros Hnd Hgw Hcw Heq.
  apply find_some in Hgw. destruct Hgw as [Hgin Hg].
  apply find_some in Hcw. destruct Hcw as [Hcin Hc].
  assert (cw = gw) by (eapply NoDup_map_inj_in; eauto). subst cw.
  apply andb_true_iff in Hg. destruct Hg as [Hg _].
  apply andb_true_iff in Hg. destruct Hg as [_ Hg].
  apply andb_true_iff in Hc. destruct Hc as [_ Hc].
  destruct (wl_customerId gw); discriminate.
Qed.

(** C1: a registered customer migrates a guest wishlist holding A and B,
    in either order, into their own wishlist, which holds A already: the
    answer reports one migrated item, the customer's wishlist then holds
    exactly A and B, and the guest wishlist and its rows are gone.  The
    rows are rows of the BIGINT columns. *)
Theorem migrate_deduplicates (now : Z) (shop : string)
    (customerId : option string) (reqBody : list (string * jsval)) (db : DB)
    (gt : string) (shopRecord : Shop) (customer : Customer)
    (gw cw : Wishlist) (a b a' : WishlistItem) :
  ready shop customerId reqBody db gt shopRecord customer ->
  NoDup (map wl_id (wishlists db)) ->
  wishlist_findFirst_guest (shop_id shopRecord)
                           (remove_first "guest_" gt) db = Some gw ->
  wishlist_findUnique (shop_id shopRecord) (cust_id customer) db = Some cw ->
  Permutation (items_of (wl_id gw) db) [a; b] ->
  items_of (wl_id cw) db = [a'] ->
  key_of a' = key_of a -> key_of b <> key_of a ->
  item_fits a = true -> item_fits b = true ->
  let out := migrate StringToBigInt env now shop customerId reqBody db in
  fst out = migrated now shop customerId 1 /\
  body_migratedCount (json (fst out)) = Some 1%nat /\
  map key_of (items_of (wl_id cw) (snd out)) = [key_of a; key_of b] /\
  wishlist_exists (wl_id gw) (snd out) = false /\
  items_of (wl_id gw) (snd out) = [].
Proof.
  intros Hr Hnd Hgw Hcw Hperm Hci Ha Hb Fa Fb out.
  pose proof (guest_and_customer_wishlists_differ _ _ _ _ _ _ Hnd Hgw Hcw)
    as Hdiff.
  assert (Hka : same_key (it_productId a) (it_variantId a) a' = true).
  { unfold key_of in Ha. injection Ha as Hp Hv. unfold same_key.
    now rewrite Hp, Hv, !Z.eqb_refl. }
  assert (Hkb : same_key (it_productId b) (it_variantId b) a' = false).
  { unfold same_key.
    destruct (Z.eqb_spec (it_productId a') (it_productId b)) as [E1|];
      [|reflexivity].
    destruct (Z.eqb_spec (it_variantId a') (it_variantId b)) as [E2|];
      [|reflexivity].
    exfalso. apply Hb. rewrite <- Ha. unfold key_of. congruence. }
  assert (Hout : out =
    (migrated now shop customerId 1,
     with_event
       (without_wishlist (wl_id gw)
          (with_items db [new_item db (wl_id cw) (it_productId b)
                                   (it_variantId b) (it_handle b)]))
       (shop_id shopRecord) (Some (cust_id customer)) "migrate"
       (MigratePayload 1 (remove_first "guest_" gt)))).
  { unfold out. apply Permutation_sym, Permutation_length_2_inv in Hperm.
    destruct Hperm as [Hgi|Hgi].
    - rewrite (migrate_merges _ _ _ _ _ _ _ _ _ _ _ Hr Hgw Hgi)
        by (cbn [forallb]; now rewrite Fa, Fb).
      unfold find_or_create. rewrite Hcw. cbv zeta. rewrite Hci.
      cbn [folded existsb]. rewrite Hka, Hkb. reflexivity.
    - rewrite (migrate_merges _ _ _ _ _ _ _ _ _ _ _ Hr Hgw Hgi)
        by (cbn [forallb]; now rewrite Fa, Fb).
      unfold find_or_create. rewrite Hcw. cbv zeta. rewrite Hci.
      cbn [folded existsb app]. rewrite Hka, Hkb. reflexivity. }
  rewrite Hout. cbn [fst snd]. split; [reflexivity|]. split; [reflexivity|].
  split; [|split].
  - rewrite items_of_with_event, items_of_without_other by exact Hdiff.
    rewrite items_of_with_items, Hci. cbn [filter new_item it_wishlistId].
    rewrite Nat.eqb_refl. cbn [app map]. rewrite <- Ha. reflexivity.
  - rewrite wishlist_exists_with_event. apply wishlist_exists_without_self.
  - rewrite items_of_with_event. apply items_of_without_self.
Qed.

(** C2, as the code has it.  With no wishlist under the guest key, or an
    empty one, the call is a success that says [migrated: false], carries
    neither a count nor a token, and writes nothing.  After any successful
    call a second one with the same guest key is that same answer and writes
    nothing; if the first call migrated, the guest wishlist is no longer
    found, and if it did not, the tables are as before (an empty guest
    wishlist stays). *)
Theorem migrate_twice (now1 now2 : Z) (shop : string)
    (customerId : option string) (reqBody : list (string * jsval)) (db : DB)
    (gt : string) (shopRecord : Shop) (customer : Customer) :
  ready shop customerId reqBody db gt shopRecord customer ->
  NoDup (map wl_shareUUID (wishlists db)) ->
  let lookup := wishlist_findFirst_guest (shop_id shopRecord)
                                         (remove_first "guest_" gt) in
  ((lookup db = None \/
    exists g, lookup db = Some g /\ items_of (wl_id g) db = []) ->
   migrate StringToBigInt env now1 shop customerId reqBody db =
   (nothing_to_migrate, db)) /\
  body_migrated (json nothing_to_migrate) = Some false /\
  body_migratedCount (json nothing_to_migrate) = None /\
  body_token (json nothing_to_migrate) = None /\
  (forall r1 db1,
      migrate StringToBigInt env now1 shop customerId reqBody db = (r1, db1) ->
      body_success (json r1) = Some true ->
      migrate StringToBigInt env now2 shop customerId reqBody db1 =
      (nothing_to_migrate, db1) /\
      (body_migrated (json r1) = Some true -> lookup db1 = None) /\
      (body_migrated (json r1) = Some false -> db1 = db)).
Proof.
  intros Hr Hnd lookup.
  assert (Hnoop : forall now,
             (lookup db = None \/
              exists g, lookup db = Some g /\ items_of (wl_id g) db = []) ->
             migrate StringToBigInt env now shop customerId reqBody db =
             (nothing_to_migrate, db)).
  { intros now H. apply (migrate_noop _ _ _ _ _ _ _ _ Hr). fold lookup.
    destruct H as [-> | (g & -> & Hg)]; auto. }
  split; [apply Hnoop|]. repeat (split; [reflexivity|]).
  intros r1 db1 E Hok.
  destruct (lookup db) as [gw|] eqn:Hgw.
  2:{ rewrite Hnoop in E by auto. injection E as <- <-.
      split; [apply Hnoop; auto|]. split; [discriminate|reflexivity]. }
  destruct (items_of (wl_id gw) db) as [|g gs] eqn:Hitems.
  { rewrite Hnoop in E by eauto. injection E as <- <-.
    split; [apply Hnoop; eauto|]. split; [discriminate|reflexivity]. }
  pose proof (migrate_success_fits _ _ _ _ _ _ _ _ _ _ _ _ _ Hr Hgw Hitems E
                Hok) as Hfit.
  rewrite (migrate_merges _ _ _ _ _ _ _ _ _ _ _ Hr Hgw Hitems Hfit) in E.
  destruct (find_or_create now1 shopRecord customer db) as [[cw|e] dbc] eqn:Hc.
  2:{ injection E as <- <-. discriminate Hok. }
  cbv zeta in E.
  remember (folded (wl_id cw) (items_of (wl_id cw) dbc) (nextId dbc) (g :: gs))
    as new eqn:Hnew.
  remember (with_event (without_wishlist (wl_id gw) (with_items dbc new))
              (shop_id shopRecord) (Some (cust_id customer)) "migrate"
              (MigratePayload (List.length new) (remove_first "guest_" gt)))
    as merged eqn:Hmerged.
  injection E as <- <-.
  destruct (find_or_create_frame _ _ _ _ _ _ Hc) as (Hs & Hcu & _ & _ & Hws).
  assert (Hgone : lookup merged = None).
  { rewrite Hmerged. unfold lookup, wishlist_findFirst_guest.
    cbn [wishlists with_event without_wishlist with_items].
    eapply guest_lookup_after_delete; eauto. }
  split; [|split].
  - apply migrate_noop with (gt := gt) (shopRecord := shopRecord)
                            (customer := customer).
    + eapply ready_frame; [| |exact Hr]; rewrite Hmerged; assumption.
    + unfold lookup in Hgone. now rewrite Hgone.
  - intros _. exact Hgone.
  - discriminate.
Qed.

End HandlerProperties.

(* ------------------------------------------------------------------ *)
(** ** The key constraints

    The theorems on migration assume the primary key and the
    share-identifier key of the wishlist table.  The writes of the add
    handler keep them, which the composition of an add with a migration
    below relies on. *)

Record keyed (db : DB) : Prop := {
  wishlist_pkey : NoDup (map wl_id (wishlists db));
  wishlist_shareUUID_key : NoDup (map wl_shareUUID (wishlists db));
  wishlist_ids_minted :
    forall w, In w (wishlists db) -> (wl_id w < nextId db)%nat
}.

Definition keeps {A} (m : M A) : Prop :=
  forall db, keyed db -> keyed (snd (m db)).

Lemma NoDup_snoc {A} (l : list A) (x : A) :
  NoDup l -> ~ In x l -> NoDup (l ++ [x]).
Proof.
  induction l as [|y l IH]; simpl; intros Hnd Hx.
  - constructor; [tauto|constructor].
  - inversion Hnd as [|? ? Hy Hnd']; subst. constructor.
    + intros Hin. apply in_app_or in Hin. simpl in Hin. intuition congruence.
    + apply IH; tauto.
Qed.

Lemma keeps_ret {A} (a : A) : keeps (ret a).
Proof. intros db H. exact H. Qed.

Lemma keeps_throw {A} (e : exn) : keeps (@throw A e).
Proof. intros db H. exact H. Qed.

Lemma keeps_query {A} (f : DB -> A) : keeps (query f).
Proof. intros db H. exact H. Qed.

Lemma keeps_lift {A} (r : Res A) : keeps (lift r).
Proof. intros db H. exact H. Qed.

Lemma keeps_bind {A B} (m : M A) (k : A -> M B) :
  keeps m -> (forall a, keeps (k a)) -> keeps (bind m k).
Proof.
  intros Hm Hk db H. unfold bind. specialize (Hm db H).
  destruct (m db) as [[a|e] db']; simpl in *; [apply Hk|]; exact Hm.
Qed.

Lemma keeps_wishlist_create shopId customerId shareUUID :
  keeps (wishlist_create shopId customerId shareUUID).
Proof.
  intros db [Hid Hu Hm]. unfold wishlist_create.
  destruct (shareUUID_taken shareUUID db) eqn:Ht; simpl; [now split|].
  destruct (shop_customer_taken shopId customerId db); simpl; [now split|].
  destruct (negb _); simpl; [now split|].
  split; cbn [wishlists nextId].
  - rewrite map_app. apply NoDup_snoc; [exact Hid|]. cbn [map wl_id].
    intros Hin. apply in_map_iff in Hin. destruct Hin as (w & Hw & Hin).
    specialize (Hm w Hin). lia.
  - rewrite map_app. apply NoDup_snoc; [exact Hu|]. cbn [map wl_shareUUID].
    intros Hin. apply in_map_iff in Hin. destruct Hin as (w & Hw & Hin).
    unfold shareUUID_taken in Ht.
    assert (existsb (fun w => (wl_shareUUID w =? shareUUID)%string)
                    (wishlists db) = true); [|congruence].
    apply existsb_exists. exists w. split; [exact Hin|].
    now apply String.eqb_eq.
  - intros w Hin. apply in_app_or in Hin. destruct Hin as [Hin|[<-|[]]].
    + specialize (Hm w Hin). lia.
    + cbn [wl_id]. lia.
Qed.

Lemma keeps_wishlistItem_create wishlistId p v h :
  keeps (wishlistItem_create wishlistId p v h).
Proof.
  intros db [Hid Hu Hm]. unfold wishlistItem_create.
  destruct (negb _); [now split|].
  destruct (negb _); simpl; split; auto.
  cbn [wishlists nextId]. intros w Hin. specialize (Hm w Hin). lia.
Qed.

Lemma keeps_customer_findFirst shopId n : keeps (customer_findFirst shopId n).
Proof. intros db H. now rewrite customer_findFirst_reads. Qed.

Lemma keeps_wishlistItem_findFirst wishlistId p v :
  keeps (wishlistItem_findFirst wishlistId p v).
Proof. intros db H. now rewrite wishlistItem_findFirst_reads. Qed.

Lemma keeps_event_create shopId c type payload :
  keeps (event_create shopId c type payload).
Proof.
  intros db [Hid Hu Hm]. unfold event_create.
  destruct (negb _); simpl; split; auto.
  cbn [wishlists nextId]. intros w Hin. specialize (Hm w Hin). lia.
Qed.

Ltac keeps_step :=
  first
    [ apply keeps_ret | apply keeps_throw | apply keeps_query
    | apply keeps_lift | apply keeps_wishlist_create
    | apply keeps_customer_findFirst | apply keeps_wishlistItem_findFirst
    | apply keeps_wishlistItem_create | apply keeps_event_create
    | apply keeps_bind; [|intros ?]
    | match goal with
      | |- keeps (if ?b then _ else _) => destruct b
      | |- keeps (match ?x with _ => _ end) => destruct x
      end ].

Lemma keeps_try_catch (m : M Response) (db : DB) :
  keeps m -> keyed db -> keyed (snd (try_catch m db)).
Proof.
  intros Hm H. specialize (Hm db H). unfold try_catch.
  destruct (m db) as [[r|e] db']; exact Hm.
Qed.

(* ------------------------------------------------------------------ *)
(** ** The properties on the example data *)

Import Examples.

Lemma ready_example (reqBody : list (string * jsval)) (gt : string) :
  field "guestToken" reqBody = JStr gt -> gt <> ""%string ->
  ready decimal_StringToBigInt shopX (Some "12345"%string) reqBody db0 gt
        shop1 customerC.
Proof.
  intros Ht Hne. split; auto.
  exists "12345"%string, 12345. repeat split; reflexivity.
Defined.

Lemma db0_wishlist_pkey : NoDup (map wl_id (wishlists db0)).
Proof. repeat constructor; simpl; intuition discriminate. Defined.

Lemma db0_shareUUID_key : NoDup (map wl_shareUUID (wishlists db0)).
Proof. repeat constructor; simpl; intuition discriminate. Defined.

(** The example store with the rows of guest wishlist "g1" in the other
    order: B before A. *)
Definition db0_swapped : DB :=
  {| shops := shops db0; customers := customers db0;
     wishlists := wishlists db0; items := [ownA; guestB; guestA];
     events := events db0; nextId := nextId db0 |}.

Lemma ready_swapped :
  ready decimal_StringToBigInt shopX (Some "12345"%string) migrate_g1
        db0_swapped "guest_g1" shop1 customerC.
Proof.
  split; [reflexivity|discriminate| |reflexivity].
  exists "12345"%string, 12345. repeat split; reflexivity.
Defined.

(** C1 on the example: wishlist "g1" into customer 12345's wishlist (A),
    with the guest rows read as A, B and as B, A. *)
Lemma migrate_deduplicates_witness :
  (let out := migrate decimal_StringToBigInt empty_env 5000 shopX
                      (Some "12345"%string) migrate_g1 db0 in
   fst out = migrated empty_env 5000 shopX (Some "12345"%string) 1 /\
   body_migratedCount (json (fst out)) = Some 1%nat /\
   map key_of (items_of 5 (snd out)) = [(100, 200); (101, 201)] /\
   wishlist_exists 4 (snd out) = false /\
   items_of 4 (snd out) = []) /\
  (let out := migrate decimal_StringToBigInt empty_env 5000 shopX
                      (Some "12345"%string) migrate_g1 db0_swapped in
   fst out = migrated empty_env 5000 shopX (Some "12345"%string) 1 /\
   body_migratedCount (json (fst out)) = Some 1%nat /\
   map key_of (items_of 5 (snd out)) = [(100, 200); (101, 201)] /\
   wishlist_exists 4 (snd out) = false /\
   items_of 4 (snd out) = []).
Proof.
  split.
  - apply (migrate_deduplicates decimal_StringToBigInt empty_env 5000 shopX
             (Some "12345"%string) migrate_g1 db0 "guest_g1" shop1 customerC
             guestWishlist customerWishlist guestA guestB ownA).
    + apply ready_example; [reflexivity|discriminate].
    + exact db0_wishlist_pkey.
    + reflexivity.
    + reflexivity.
    + apply Permutation_refl.
    + reflexivity.
    + reflexivity.
    + discriminate.
    + reflexivity.
    + reflexivity.
  - apply (migrate_deduplicates decimal_StringToBigInt empty_env 5000 shopX
             (Some "12345"%string) migrate_g1 db0_swapped "guest_g1" shop1
             customerC guestWishlist customerWishlist guestA guestB ownA).
    + exact ready_swapped.
    + exact db0_wishlist_pkey.
    + reflexivity.
    + reflexivity.
    + apply perm_swap.
    + reflexivity.
    + reflexivity.
    + discriminate.
    + reflexivity.
    + reflexivity.
Defined.

(** C2, as the claim words it, fails on the empty guest wishlist "g2": the
    call succeeds, its answer carries no migrated count, and the guest
    wishlist is still there afterwards. *)
Lemma migrate_empty_guest_wishlist_stays :
  let out := migrate decimal_StringToBigInt empty_env 5000 shopX
                     (Some "12345"%string) migrate_g2 db0 in
  body_success (json (fst out)) = Some true /\
  body_migratedCount (json (fst out)) <> Some 0%nat /\
  wishlist_findFirst_guest 1 "g2" (snd out) = Some emptyGuestWishlist.
Proof. vm_compute. repeat split. discriminate. Qed.

(** C2 on the example: after "g1" has been migrated, a second call is the
    no-op and "g1" is not found. *)
Lemma migrate_twice_witness :
  let first := migrate decimal_StringToBigInt empty_env 5000 shopX
                       (Some "12345"%string) migrate_g1 db0 in
  migrate decimal_StringToBigInt empty_env 9000 shopX (Some "12345"%string)
          migrate_g1 (snd first) = (nothing_to_migrate, snd first) /\
  wishlist_findFirst_guest 1 "g1" (snd first) = None.
Proof.
  intros first.
  destruct (migrate_twice decimal_StringToBigInt empty_env 5000 9000 shopX
              (Some "12345"%string) migrate_g1 db0 "guest_g1" shop1 customerC
              (ready_example migrate_g1 "guest_g1" eq_refl
                 ltac:(discriminate))
              db0_shareUUID_key) as (_ & _ & _ & _ & H).
  destruct (H (fst first) (snd first) (surjective_pairing first) eq_refl)
    as (H2 & Hgone & _).
  split; [exact H2|exact (Hgone eq_refl)].
Defined.

(** C3 on the example: customer 12345 removes item 6 of their wishlist. *)
Lemma delete_item_by_owner_witness :
  delete_item decimal_StringToBigInt empty_env 5000 shopX
              (Some "12345"%string) 6 db0 =
  ({| status := 500; json := ErrorBody "Internal server error" |},
   without_item 6 db0) /\
  wishlistItem_findUnique 6 (without_item 6 db0) = None /\
  events (without_item 6 db0) = events db0.
Proof.
  apply (delete_item_by_owner decimal_StringToBigInt empty_env 5000 shopX
           (Some "12345"%string) "12345" 12345 6 db0 shop1 customerC ownA
           customerWishlist); reflexivity.
Defined.

(** C4 on the example: a token for shop X against shop Y, after its expiry,
    and in time against X. *)
Lemma validateSession_isolation_witness :
  let token := generateStorefrontToken full_env 0 shopX (Some "12345"%string)
                                       3600 in
  validateSession full_env 1000 token shopY = None /\
  validateSession full_env 3600000 token shopX = None /\
  validateSession full_env 1000 token shopX =
  Some {| ses_shop := shopX; ses_customerId := Some "12345"%string;
          ses_type := "storefront"; ses_expiresAt := 3600000 |}.
Proof.
  intros token. split; [|split].
  - apply (proj1 (validateSession_isolation full_env 0 shopX
                    (Some "12345"%string) 3600 1000 shopY)).
    unfold shopX, shopY. discriminate.
  - apply (proj1 (proj2 (validateSession_isolation full_env 0 shopX
                           (Some "12345"%string) 3600 3600000 shopX))).
    vm_compute. discriminate.
  - apply (proj2 (proj2 (validateSession_isolation full_env 0 shopX
                           (Some "12345"%string) 3600 1000 shopX)));
      reflexivity.
Defined.

(** C5 on the example: guest "g2" adds the hat twice. *)
Lemma add_same_item_twice_witness :
  exists r1 db1,
    post_items decimal_StringToBigInt empty_env 5000 shopX
               (Some "guest_g2"%string) add_hat db0 = (r1, db1) /\
    status r1 = 201%nat /\
    items db1 = (items db0 ++ [new_item db0 9 101 201 "hat"])%list /\
    post_items decimal_StringToBigInt empty_env 9000 shopX
               (Some "guest_g2"%string) add_hat db1 =
    ({| status := 409;
        json := ConflictBody "Item already in wishlist"
                  {| iv_id := 10; iv_productId := "101";
                     iv_variantId := "201"; iv_handle := "hat" |} |}, db1) /\
    matching 9 101 201 db1 = [new_item db0 9 101 201 "hat"].
Proof.
  destruct (add_same_item_twice decimal_StringToBigInt empty_env 5000 9000
              shopX (Some "guest_g2"%string) add_hat db0 emptyGuestWishlist
              101 201 "hat")
    as (r1 & db1 & H1 & Hs & Hi & H2 & Hone); try reflexivity.
  - discriminate.
  - intros x [<-|[<-|[<-|[]]]]; discriminate.
  - exists r1, db1. split; [exact H1|]. split; [exact Hs|].
    split; [exact Hi|]. split; [exact H2|].
    unfold matching. rewrite Hi. reflexivity.
Defined.

(** C6 on the example: the header "AAAA" decodes to three bytes, the digest
    to thirty-two. *)
Lemma verifyAppProxyRequest_throws_on_length_witness :
  verifyAppProxyRequest full_env fixed_digest base64_decode no_stringify
                        short_signature =
  Exn (RangeError "Input buffers must have the same byte length").
Proof.
  apply (verifyAppProxyRequest_throws_on_length full_env fixed_digest
           base64_decode no_stringify short_signature "api-secret" "AAAA");
    first [reflexivity | discriminate].
Defined.

(** C7 on the example: one millisecond before the expiry, and at it. *)
Lemma verify_sign_roundtrip_witness :
  let token := generateStorefrontToken full_env 0 shopX (Some "12345"%string)
                                       3600 in
  verifyStorefrontToken full_env 3599999 token =
  Some {| tok_shop := shopX; tok_customerId := Some "12345"%string;
          tok_type := "storefront"; tok_iat := 0; tok_exp := 3600 |} /\
  verifyStorefrontToken full_env 3600000 token = None.
Proof.
  intros token. split.
  - apply (proj1 (verify_sign_roundtrip full_env 0 shopX
                    (Some "12345"%string) 3600 3599999)). reflexivity.
  - apply (proj2 (verify_sign_roundtrip full_env 0 shopX
                    (Some "12345"%string) 3600 3600000)).
    vm_compute. discriminate.
Defined.

(** C9, as the claim words it, fails for a guest: the token issued for 86400
    seconds comes back from a refresh with 3600. *)
Lemma refreshSession_guest_window :
  let token := generateGuestToken full_env 0 shopX "g1" in
  lifetime token = Some 86400 /\
  exists r,
    refreshSession full_env 1000 token shopX = Some r /\
    subject (ref_token r) = Some "guest_g1"%string /\
    lifetime (ref_token r) = Some 3600 /\
    lifetime (ref_token r) <> Some 86400.
Proof.
  split; [reflexivity|]. eexists. split; [reflexivity|].
  repeat split. discriminate.
Qed.

(** C9 on the example: a guest token refreshed one second after issue. *)
Lemma refreshSession_reissues_witness :
  exists r,
    refreshSession full_env 1000 (generateGuestToken full_env 0 shopX "g1")
                   shopX = Some r /\
    ref_customerId r = Some "guest_g1"%string /\
    lifetime (ref_token r) = Some 3600.
Proof.
  destruct (refreshSession_reissues full_env 1000
              (generateGuestToken full_env 0 shopX "g1") shopX) as [H _].
  destruct (H _ eq_refl) as (r & Hr & _ & _ & Hc & _ & Hl & _).
  exists r. repeat split; assumption.
Defined.

(** C10, as the claim words it, fails for the signing secret: with nothing
    configured a token is signed and verifies. *)
Lemma missing_signing_secret_proceeds :
  empty_env "JWT_SECRET"%string = None /\
  verifyStorefrontToken empty_env 1000
    (generateStorefrontToken empty_env 0 shopX (Some "12345"%string) 3600) =
  Some {| tok_shop := shopX; tok_customerId := Some "12345"%string;
          tok_type := "storefront"; tok_iat := 0; tok_exp := 3600 |}.
Proof. split; reflexivity. Qed.

(** C10 on the example: nothing configured. *)
Lemma missing_secrets_witness :
  JWT_SECRET empty_env = "your-jwt-secret-change-in-production"%string /\
  verifyAppProxyRequest empty_env fixed_digest base64_decode no_stringify
                        short_signature =
  Val (Respond 500 "Server configuration error").
Proof.
  destruct (missing_secrets empty_env fixed_digest base64_decode no_stringify
              short_signature 0 shopX None 0) as [H1 H2].
  split.
  - apply H1. left. reflexivity.
  - apply H2. left. reflexivity.
Defined.

(** A signed request: the header is the digest itself. *)
Definition signed_request : Request :=
  {| hdr_hmac := Some "AAECAwQFBgcICQoLDA0ODxAREhMUFRYXGBkaGxwdHh8=";
     hdr_shop_domain := Some shopX; query_shop := None; rawBody := Some [];
     body := [] |}.

(** The same with the last byte of the signature changed. *)
Definition tampered_request : Request :=
  {| hdr_hmac := Some "AAECAwQFBgcICQoLDA0ODxAREhMUFRYXGBkaGxwdHiA=";
     hdr_shop_domain := Some shopX; query_shop := None; rawBody := Some [];
     body := [] |}.

(** The contract on the example: the exact signature passes with the shop
    attached, a signature of the right length that differs is refused. *)
Lemma verifyAppProxyRequest_contract_witness :
  verifyAppProxyRequest full_env fixed_digest base64_decode no_stringify
                        signed_request = Val (Next (JStr shopX)) /\
  verifyAppProxyRequest full_env fixed_digest base64_decode no_stringify
                        tampered_request = Val (Respond 401 "Unauthorized").
Proof.
  split.
  - apply (proj2 (proj2 (verifyAppProxyRequest_contract full_env fixed_digest
                           base64_decode no_stringify signed_request
                           "api-secret" eq_refl ltac:(discriminate)))
             "AAECAwQFBgcICQoLDA0ODxAREhMUFRYXGBkaGxwdHh8="%string).
    + reflexivity.
    + discriminate.
    + reflexivity.
  - apply (proj1 (proj2 (verifyAppProxyRequest_contract full_env fixed_digest
                           base64_decode no_stringify tampered_request
                           "api-secret" eq_refl ltac:(discriminate)))
             "AAECAwQFBgcICQoLDA0ODxAREhMUFRYXGBkaGxwdHiA="%string).
    + reflexivity.
    + discriminate.
    + vm_compute. reflexivity.
    + vm_compute. discriminate.
Defined.

(** The ownership check on the example: a guest, customer 777 and an
    identifier that is no integer ask for item 6 of customer 12345; the
    first two are refused, the third fails, and nothing is written. *)
Lemma delete_item_by_stranger_witness :
  delete_item decimal_StringToBigInt empty_env 5000 shopX
              (Some "guest_g1"%string) 6 db0 =
  ({| status := 403; json := ErrorBody "Access denied" |}, db0) /\
  delete_item decimal_StringToBigInt empty_env 5000 shopX
              (Some "777"%string) 6 db0 =
  ({| status := 403; json := ErrorBody "Access denied" |}, db0) /\
  delete_item decimal_StringToBigInt empty_env 5000 shopX
              (Some "abc"%string) 6 db0 =
  ({| status := 500; json := ErrorBody "Internal server error" |}, db0).
Proof.
  split; [|split].
  - apply (delete_item_by_stranger decimal_StringToBigInt empty_env 5000 shopX
             (Some "guest_g1"%string) 6 db0 shop1 ownA customerWishlist 2);
      try reflexivity.
    left. reflexivity.
  - apply (delete_item_by_stranger decimal_StringToBigInt empty_env 5000 shopX
             (Some "777"%string) 6 db0 shop1 ownA customerWishlist 2);
      try reflexivity.
    right. intros n c Hn Hc. vm_compute in Hn. injection Hn as <-.
    vm_compute in Hc. injection Hc as <-. discriminate.
  - apply (delete_item_by_stranger decimal_StringToBigInt empty_env 5000 shopX
             (Some "abc"%string) 6 db0 shop1 ownA customerWishlist 2);
      try reflexivity.
    right. intros n c Hn. vm_compute in Hn. discriminate Hn.
Defined.


Lemma db0_keyed : keyed db0.
Proof.
  split.
  - exact db0_wishlist_pkey.
  - exact db0_shareUUID_key.
  - intros w Hw. simpl in Hw.
    destruct Hw as [<-|[<-|[<-|[]]]]; simpl; lia.
Defined.

(* ------------------------------------------------------------------ *)
(** * The rest of the code *)

Import CustomerAuth Sessions WishlistFetch.

(** ** The customer middleware *)

Lemma parse_guest_key (key : string) :
  parseCustomerId (Some ("guest_" ++ key)%string) = guest (Some key).
Proof. unfold parseCustomerId, startsWith. rewrite prefix_app. reflexivity. Qed.

(** What [authenticateCustomer] falls back on: the customer header, then
    the query parameter, then the body field. *)
Definition customer_hint (req : AuthRequest) : jsval :=
  or_else (or_else (of_option (ar_hdr_customer_id req))
                   (of_option (ar_query_customer_id req)))
          (field "customer_id" (ar_body req)).

Section MiddlewareProperties.

Variable env : string -> option string.

(** A token the service issued for the request's shop, still in its window
    and carrying a subject, decides the identity: whatever the customer
    header, the query and the body say is not looked at. *)
Theorem authenticateCustomer_token_decides (now0 now : Z) (shop subject : string)
    (expiresIn : Z) (req : AuthRequest) :
  subject <> ""%string ->
  ar_shop req = JStr shop ->
  ar_authorization req =
    Some (Bearer (generateStorefrontToken env now0 shop (Some subject)
                                          expiresIn)) ->
  seconds now < seconds now0 + expiresIn ->
  authenticateCustomer env now req = JStr subject.
Proof.
  intros Hne Hshop Hauth Hlt. unfold authenticateCustomer.
  rewrite Hauth, verify_generated, Hshop.
  destruct (Z.leb_spec (seconds now0 + expiresIn) (seconds now)); [lia|].
  cbn [tok_shop tok_customerId same_shop]. rewrite String.eqb_refl.
  cbn [of_nullable truthy].
  destruct (String.eqb_spec subject ""); [contradiction|reflexivity].
Qed.

(** A token that does not count is as good as none: issued for another
    shop, or past its window, or without a subject, it leaves the identity
    to the customer header, then the query, then the body. *)
Theorem authenticateCustomer_ignores_token (now0 now : Z) (X : string)
    (cid : option string) (expiresIn : Z) (req : AuthRequest) :
  ar_authorization req =
    Some (Bearer (generateStorefrontToken env now0 X cid expiresIn)) ->
  ar_shop req <> JStr X \/ seconds now0 + expiresIn <= seconds now \/
  cid = None \/ cid = Some ""%string ->
  authenticateCustomer env now req = customer_hint req.
Proof.
  intros Hauth Hwhy. unfold authenticateCustomer. fold (customer_hint req).
  rewrite Hauth, verify_generated.
  destruct (Z.leb_spec (seconds now0 + expiresIn) (seconds now)) as [|Hin];
    [reflexivity|].
  cbn [tok_shop tok_customerId].
  destruct (same_shop X (ar_shop req)) eqn:Hs; [|reflexivity].
  destruct Hwhy as [Hshop | [Hexp | [-> | ->]]]; try reflexivity; [|lia].
  exfalso. apply Hshop. unfold same_shop in Hs.
  destruct (ar_shop req); try discriminate.
  apply String.eqb_eq in Hs. now subst.
Qed.

End MiddlewareProperties.

(** ** Sessions *)

Lemma find_map_stable {A} (f : A -> bool) (g : A -> A) (l : list A) :
  (forall x, f (g x) = f x) ->
  find f (map g l) = option_map g (find f l).
Proof.
  intros Hf. induction l as [|x l IH]; simpl; [reflexivity|].
  rewrite Hf. destruct (f x); [reflexivity|exact IH].
Qed.

Section SessionProperties.

Variable StringToBigInt : string -> option Z.
Variable NumberToString : Z -> string.
Variable env : string -> option string.

Lemma find_or_create_shop_runs (shop : string) (db : DB) :
  exists s db',
    find_or_create_shop shop db = (Val s, db') /\
    shop_findUnique shop db' = Some s /\
    customers db' = customers db /\ wishlists db' = wishlists db /\
    items db' = items db /\ events db' = events db /\
    (nextId db <= nextId db')%nat /\
    match shop_findUnique shop db with
    | Some _ => db' = db
    | None => shops db' = (shops db ++ [s])%list /\
              shop_accessToken s = "placeholder"%string
    end.
Proof.
  unfold find_or_create_shop, bind, query, ret.
  destruct (shop_findUnique shop db) as [s|] eqn:Hs.
  - exists s, db. rewrite Hs. repeat split; auto.
  - unfold shop_create.
    assert (Ht : domain_taken shop db = false).
    { unfold domain_taken. apply existsb_find_none. exact Hs. }
    rewrite Ht. eexists _, _. split; [reflexivity|].
    cbn [shops customers wishlists items events nextId shop_accessToken].
    repeat split; auto.
    unfold shop_findUnique in *. cbn [shops].
    rewrite find_app_none by exact Hs. cbn [find shop_domain].
    now rewrite String.eqb_refl.
Qed.

(** [createGuestSession] cannot fail.  It writes one placeholder shop row
    when the shop is new and nothing otherwise; the token it returns lives
    86400 seconds, and within them it validates for that shop to a subject
    that the identity resolver reads back as the guest of exactly the
    returned id, also when that id is a generated one beginning with
    "guest_". *)
Theorem createGuestSession_roundtrip (now : Z) (random shop : string)
    (guestId : option string) (db : DB) :
  exists s db',
    createGuestSession env now random shop guestId db = (Val s, db') /\
    gs_id s = str_or guestId ("guest_" ++ decZ now ++ "_" ++ random)%string /\
    gs_expiresIn s = 86400 /\
    lifetime (gs_token s) = Some 86400 /\
    shop_findUnique shop db' <> None /\
    (shop_findUnique shop db <> None -> db' = db) /\
    (forall now',
        seconds now' < seconds now + 86400 ->
        exists session,
          validateSession env now' (gs_token s) shop = Some session /\
          parseCustomerId (ses_customerId session) = guest (Some (gs_id s))).
Proof.
  destruct (find_or_create_shop_runs shop db)
    as (sh & db' & Hrun & Hfound & _ & _ & _ & _ & _ & Hsame).
  unfold createGuestSession, bind, ret. rewrite Hrun.
  eexists _, db'. split; [reflexivity|]. cbn [gs_id gs_expiresIn gs_token].
  split; [reflexivity|]. split; [reflexivity|]. split.
  { unfold generateGuestToken, generateStorefrontToken, jwt_sign, lifetime.
    cbn [tok_exp tok_iat]. f_equal. lia. }
  split; [congruence|]. split.
  { intros Hknown. destruct (shop_findUnique shop db); [exact Hsame|].
    contradiction. }
  intros now' Hlt. unfold generateGuestToken. rewrite validate_generated.
  destruct (Z.leb_spec (seconds now + 86400) (seconds now')); [lia|].
  rewrite String.eqb_refl. cbn [negb]. eexists. split; [reflexivity|].
  cbn [ses_customerId]. apply parse_guest_key.
Qed.

(** The customer as a session shows it. *)
Definition customer_view (c : Customer) : CustomerView :=
  {| cv_id := cust_id c;
     cv_shopCustomerId := decZ (cust_shopCustomerId c);
     cv_email := cust_email c |}.

(** The update [customer_update] applies to the table. *)
Definition set_email (id : rowid) (given : option (option string))
    (c : Customer) : Customer :=
  if Nat.eqb (cust_id c) id then with_email given c else c.

(** The row [customer_create] builds. *)
Definition new_customer (db : DB) (shopId : rowid) (n : Z)
    (given : option (option string)) : Customer :=
  {| cust_id := nextId db; cust_shopId := shopId; cust_shopCustomerId := n;
     cust_email := match given with Some e => e | None => None end |}.

Lemma with_email_id given c : cust_id (with_email given c) = cust_id c.
Proof. destruct given; reflexivity. Qed.

Lemma with_email_twice given c :
  with_email given (with_email given c) = with_email given c.
Proof. destruct given; reflexivity. Qed.

Lemma set_email_twice id given c :
  set_email id given (set_email id given c) = set_email id given c.
Proof.
  unfold set_email. destruct (Nat.eqb (cust_id c) id) eqn:E.
  - rewrite with_email_id, E. apply with_email_twice.
  - now rewrite E.
Qed.

(** What a successful [createCustomerSession] has done. *)
Lemma createCustomerSession_success (now : Z) (shop : string)
    (cd : CustomerData) (db : DB) (s : CustomerSession) (db1 : DB) :
  createCustomerSession StringToBigInt NumberToString env now shop cd db
  = (Val s, db1) ->
  exists sh dbs n given subj c,
    find_or_create_shop shop db = (Val sh, dbs) /\
    shop_findUnique shop dbs = Some sh /\
    BigInt StringToBigInt (cd_id cd) = Val n /\
    fits_int64 n = true /\
    optional_text (cd_email cd) = Val given /\
    toString NumberToString (cd_id cd) = Val subj /\
    s = {| cs_success := true; cs_customer := customer_view c;
           cs_token := generateStorefrontToken env now shop (Some subj)
                                               default_expiresIn;
           cs_expiresIn := 3600 |} /\
    shops db1 = shops dbs /\ wishlists db1 = wishlists dbs /\
    items db1 = items dbs /\ events db1 = events dbs /\
    ((customer_row (shop_id sh) n dbs = None /\
      c = new_customer dbs (shop_id sh) n given /\
      customers db1 = (customers dbs ++ [c])%list /\
      nextId db1 = S (nextId dbs))
     \/
     (exists c0 c0',
         customer_row (shop_id sh) n dbs = Some c0 /\
         find (fun x => Nat.eqb (cust_id x) (cust_id c0)) (customers dbs)
         = Some c0' /\
         c = with_email given c0' /\
         customers db1 = map (set_email (cust_id c0) given) (customers dbs) /\
         nextId db1 = nextId dbs)).
Proof.
  destruct (find_or_create_shop_runs shop db)
    as (sh & dbs & Hrun & Hfound & _).
  unfold createCustomerSession, bind, query, lift, ret. rewrite Hrun.
  destruct (BigInt StringToBigInt (cd_id cd)) as [n|] eqn:Hn; [|discriminate].
  unfold customer_findFirst. destruct (fits_int64 n) eqn:Hfit; [|discriminate].
  fold (customer_row (shop_id sh) n dbs).
  destruct (customer_row (shop_id sh) n dbs) as [c0|] eqn:Hc0.
  - unfold customer_update.
    destruct (optional_text (cd_email cd)) as [given|] eqn:Hg; [|discriminate].
    destruct (find (fun c => Nat.eqb (cust_id c) (cust_id c0)) (customers dbs))
      as [c0'|] eqn:Hc0'; [|discriminate].
    destruct (toString NumberToString (cd_id cd)) as [subj|] eqn:Hsubj;
      [|discriminate].
    intros [= <- <-].
    exists sh, dbs, n, given, subj, (with_email given c0').
    repeat split; auto. right. exists c0, c0'. repeat split; auto.
  - unfold customer_create. rewrite Hfit. cbn [negb].
    destruct (optional_text (cd_email cd)) as [given|] eqn:Hg; [|discriminate].
    destruct (negb (shop_exists (shop_id sh) dbs)); [discriminate|].
    destruct (toString NumberToString (cd_id cd)) as [subj|] eqn:Hsubj;
      [|discriminate].
    intros [= <- <-].
    exists sh, dbs, n, given, subj, (new_customer dbs (shop_id sh) n given).
    repeat split; auto; left; repeat split; auto.
Qed.

Lemma find_or_create_shop_known (shop : string) (db : DB) (sh : Shop) :
  shop_findUnique shop db = Some sh ->
  find_or_create_shop shop db = (Val sh, db).
Proof.
  intros H. unfold find_or_create_shop, bind, query, ret. now rewrite H.
Qed.

Lemma customer_update_fixed (id : rowid) (email : jsval)
    (given : option (option string)) (db : DB) (c : Customer) :
  optional_text email = Val given ->
  find (fun x => Nat.eqb (cust_id x) id) (customers db) = Some c ->
  map (set_email id given) (customers db) = customers db ->
  customer_update id email db = (Val (with_email given c), db).
Proof.
  intros Hg Hf Hmap. unfold customer_update. rewrite Hg, Hf.
  change (fun c0 : Customer =>
            if Nat.eqb (cust_id c0) id then with_email given c0 else c0)
    with (set_email id given).
  rewrite Hmap. destruct db; reflexivity.
Qed.

(** Calling [createCustomerSession] again with the same shop and customer
    data, on the store the first call left, writes nothing and shows the
    same customer: no second row, no second shop. *)
Theorem createCustomerSession_idempotent (now1 now2 : Z) (shop : string)
    (cd : CustomerData) (db : DB) (s1 : CustomerSession) (db1 : DB) :
  (forall c, In c (customers db) -> (cust_id c < nextId db)%nat) ->
  createCustomerSession StringToBigInt NumberToString env now1 shop cd db
  = (Val s1, db1) ->
  exists s2,
    createCustomerSession StringToBigInt NumberToString env now2 shop cd db1
    = (Val s2, db1) /\
    cs_customer s2 = cs_customer s1 /\
    subject (cs_token s2) = subject (cs_token s1).
Proof.
  intros Hminted H1.
  destruct (createCustomerSession_success _ _ _ _ _ _ H1)
    as (sh & dbs & n & given & subj & c & Hrun & Hfound & Hn & Hfit & Hg
        & Hsubj & -> & Hs & Hw & Hi & He & Hcase).
  assert (Hdbs : customers dbs = customers db /\ (nextId db <= nextId dbs)%nat).
  { destruct (find_or_create_shop_runs shop db)
      as (sh' & dbs' & Hrun' & _ & Hc & _ & _ & _ & Hle & _).
    rewrite Hrun in Hrun'. injection Hrun' as <- <-. auto. }
  destruct Hdbs as [Hcd Hle].
  assert (Hshop1 : shop_findUnique shop db1 = Some sh).
  { unfold shop_findUnique in *. now rewrite Hs. }
  assert (Hstable : forall id x,
             (Nat.eqb (cust_shopId (set_email id given x)) (shop_id sh)
              && (cust_shopCustomerId (set_email id given x) =? n))%bool
             = (Nat.eqb (cust_shopId x) (shop_id sh)
                && (cust_shopCustomerId x =? n))%bool).
  { intros id x. unfold set_email. destruct (Nat.eqb (cust_id x) id); auto.
    destruct given; reflexivity. }
  (* the row the second call finds, and the update that changes nothing *)
  assert (H2 : exists found,
             customer_row (shop_id sh) n db1 = Some found /\
             customer_update (cust_id found) (cd_email cd) db1 = (Val c, db1)).
  { destruct Hcase as [(Hnone & Hc & Hcust & Hnext)
                      | (c0 & c0' & Hc0 & Hc0' & Hc & Hcust & Hnext)].
    - exists c. 
      assert (Hfresh : forall x, In x (customers dbs) ->
                                 Nat.eqb (cust_id x) (cust_id c) = false).
      { intros x Hx. rewrite Hcd in Hx. specialize (Hminted x Hx).
        apply Nat.eqb_neq. rewrite Hc. unfold new_customer. cbn [cust_id].
        lia. }
      assert (Hsame : with_email given c = c).
      { rewrite Hc. unfold new_customer. destruct given; reflexivity. }
      split.
      + unfold customer_row in *. rewrite Hcust.
        rewrite find_app_none by exact Hnone. cbn [find].
        rewrite Hc at 1 2. unfold new_customer.
        cbn [cust_shopId cust_shopCustomerId].
        now rewrite Nat.eqb_refl, Z.eqb_refl.
      + rewrite <- Hsame at 2. apply customer_update_fixed; [exact Hg| |].
        * rewrite Hcust.
          rewrite find_app_none by (apply find_none_intro; exact Hfresh).
          cbn [find]. now rewrite Nat.eqb_refl.
        * rewrite Hcust, map_app. cbn [map]. unfold set_email at 2.
          rewrite Nat.eqb_refl, Hsame. f_equal.
          rewrite <- (map_id (customers dbs)) at 2. apply map_ext_in.
          intros x Hx. unfold set_email. now rewrite (Hfresh x Hx).
    - exists (set_email (cust_id c0) given c0).
      assert (Hid : cust_id (set_email (cust_id c0) given c0) = cust_id c0).
      { unfold set_email. rewrite Nat.eqb_refl. apply with_email_id. }
      split.
      + unfold customer_row in *. rewrite Hcust.
        rewrite find_map_stable by (intros x; apply Hstable).
        now rewrite Hc0.
      + rewrite Hid, Hc, <- (with_email_twice given c0').
        apply customer_update_fixed; [exact Hg| |].
        * rewrite Hcust, find_map_stable.
          -- rewrite Hc0'. cbn [option_map]. unfold set_email.
             apply find_some in Hc0'. destruct Hc0' as [_ E]. now rewrite E.
          -- intros x. unfold set_email.
             destruct (Nat.eqb (cust_id x) (cust_id c0)) eqn:E;
               [now rewrite with_email_id|exact E].
        * rewrite Hcust, map_map. apply map_ext. intros x.
          apply set_email_twice. }
  destruct H2 as (found & Hfind & Hupd).
  unfold createCustomerSession, bind, query, lift, ret.
  rewrite (find_or_create_shop_known _ _ _ Hshop1), Hn.
  rewrite (customer_findFirst_fits _ _ _ Hfit), Hfind, Hupd, Hsubj.
  eexists. split; [reflexivity|]. split; reflexivity.
Qed.

(** After a successful [createCustomerSession] the token's subject leads
    back to the row the session shows: the token validates for the shop to
    that subject, and [getCustomer] on it returns the row, provided the
    subject string converts to the same integer as the identifier it was
    printed from (always so when the identifier is a string). *)
Theorem createCustomerSession_then_getCustomer (now now' : Z) (shop : string)
    (cd : CustomerData) (db : DB) (s : CustomerSession) (db1 : DB)
    (subj : string) :
  NoDup (map cust_id (customers db)) ->
  createCustomerSession StringToBigInt NumberToString env now shop cd db
  = (Val s, db1) ->
  toString NumberToString (cd_id cd) = Val subj ->
  BigInt StringToBigInt (JStr subj) = BigInt StringToBigInt (cd_id cd) ->
  seconds now' < seconds now + 3600 ->
  (exists session,
      validateSession env now' (cs_token s) shop = Some session /\
      ses_customerId session = Some subj) /\
  exists c,
    getCustomer StringToBigInt shop subj db1 = Some c /\
    customer_view c = cs_customer s.
Proof.
  intros Hpk H1 Hsubj Hsame Hlt.
  destruct (createCustomerSession_success _ _ _ _ _ _ H1)
    as (sh & dbs & n & given & subj' & c & Hrun & Hfound & Hn & Hfit & Hg
        & Hsubj' & -> & Hs & Hw & Hi & He & Hcase).
  rewrite Hsubj in Hsubj'. injection Hsubj' as <-.
  assert (Hcd : customers dbs = customers db).
  { destruct (find_or_create_shop_runs shop db)
      as (sh' & dbs' & Hrun' & _ & Hc & _).
    rewrite Hrun in Hrun'. injection Hrun' as <- <-. auto. }
  split.
  - cbn [cs_token]. unfold default_expiresIn. rewrite validate_generated.
    destruct (Z.leb_spec (seconds now + 3600) (seconds now')); [lia|].
    rewrite String.eqb_refl. eexists. split; reflexivity.
  - unfold getCustomer.
    assert (Hshop1 : shop_findUnique shop db1 = Some sh).
    { unfold shop_findUnique in *. now rewrite Hs. }
    rewrite Hshop1, Hsame, Hn, (customer_findFirst_fits _ _ _ Hfit).
    cbn [cs_customer].
    destruct Hcase as [(Hnone & -> & Hcust & Hnext)
                      | (c0 & c0' & Hc0 & Hc0' & -> & Hcust & Hnext)].
    + eexists. split; [|reflexivity].
      unfold customer_row in *. rewrite Hcust.
      rewrite find_app_none by exact Hnone. cbn [find].
      unfold new_customer. cbn [cust_shopId cust_shopCustomerId].
      now rewrite Nat.eqb_refl, Z.eqb_refl.
    + assert (c0' = c0).
      { apply find_some in Hc0'. destruct Hc0' as [Hin' E].
        apply find_some in Hc0. destruct Hc0 as [Hin _].
        apply Nat.eqb_eq in E. rewrite Hcd in *.
        eapply NoDup_map_inj_in; eauto. }
      subst c0'. exists (with_email given c0). split; [|reflexivity].
      unfold customer_row in *. rewrite Hcust.
      rewrite find_map_stable.
      * rewrite Hc0. cbn [option_map]. unfold set_email.
        now rewrite Nat.eqb_refl.
      * intros x. unfold set_email.
        destruct (Nat.eqb (cust_id x) (cust_id c0)); auto.
        destruct given; reflexivity.
Qed.

(** [getCustomer] answers with a row of the shop asked about and of the
    identifier asked about, or with [null]; a shop that is not known and an
    identifier that does not convert both give [null]. *)
Theorem getCustomer_isolation (shop customerId : string) (db : DB) :
  match getCustomer StringToBigInt shop customerId db with
  | Some c =>
      In c (customers db) /\
      exists sh, shop_findUnique shop db = Some sh /\
                 cust_shopId c = shop_id sh /\
                 StringToBigInt customerId = Some (cust_shopCustomerId c)
  | None => True
  end /\
  (shop_findUnique shop db = None \/ StringToBigInt customerId = None ->
   getCustomer StringToBigInt shop customerId db = None).
Proof.
  unfold getCustomer, BigInt. split.
  - destruct (shop_findUnique shop db) as [sh|]; [|exact I].
    destruct (StringToBigInt customerId) as [n|]; [|exact I].
    destruct (customer_findFirst (shop_id sh) n db) as [[[c|]|e] d] eqn:Hc;
      try exact I.
    apply customer_findFirst_answers in Hc. destruct Hc as (_ & _ & Hc).
    symmetry in Hc. apply find_some in Hc. destruct Hc as [Hin Hc].
    apply andb_true_iff in Hc. destruct Hc as [H1 H2].
    apply Nat.eqb_eq in H1. apply Z.eqb_eq in H2.
    split; [exact Hin|]. exists sh. repeat split; congruence.
  - intros [-> | H]; [reflexivity|].
    destruct (shop_findUnique shop db); [|reflexivity]. now rewrite H.
Qed.

(** [logActivity] writes one event or nothing, and touches no other
    table.  With an unknown shop it writes nothing.  For an absent, empty or
    guest subject it appends one event of the shop with the type and payload
    given and no customer.  For a registered subject whose identifier
    converts to an integer of the BIGINT range it appends that event with
    the customer row found for it in the shop, or with no customer when
    there is none; when the identifier does not convert, the error is caught
    and nothing is written. *)
Theorem logActivity_appends (shop : string) (customerId : option string)
    (type : string) (payload : EventPayload) (db : DB) :
  logActivity StringToBigInt shop customerId type payload db =
  match shop_findUnique shop db with
  | None => db
  | Some sh =>
      if isGuest (parseCustomerId customerId)
      then with_event db (shop_id sh) None type payload
      else
        match BigInt_of_key StringToBigInt customerId with
        | Exn _ => db
        | Val n =>
            if fits_int64 n
            then with_event db (shop_id sh)
                            (option_map cust_id (customer_row (shop_id sh) n db))
                            type payload
            else db
        end
  end.
Proof.
  unfold logActivity.
  destruct (shop_findUnique shop db) as [sh|] eqn:Hs; [|reflexivity].
  pose proof (found_shop_exists _ _ _ Hs) as Hsx.
  assert (Hev : forall cust,
             optional_customer_exists cust db = true ->
             snd (event_create (shop_id sh) cust type payload db) =
             with_event db (shop_id sh) cust type payload).
  { intros cust Hc.
    destruct (event_create_ok (shop_id sh) cust type payload db Hsx Hc)
      as [e He].
    now rewrite He. }
  unfold parseCustomerId.
  destruct customerId as [c|]; [|now apply Hev].
  destruct (String.eqb_spec c "") as [|Hne]; cbn [negb andb isGuest];
    [now apply Hev|].
  destruct (startsWith c "guest_"); cbn [negb isGuest]; [now apply Hev|].
  destruct (BigInt_of_key StringToBigInt (Some c)) as [n|]; [|reflexivity].
  unfold customer_findFirst. destruct (fits_int64 n) eqn:Hfit; [|reflexivity].
  cbn [fst]. fold (customer_row (shop_id sh) n db).
  destruct (customer_row (shop_id sh) n db) as [row|] eqn:Hrow;
    cbn [option_map]; apply Hev; [|reflexivity].
  apply existsb_exists. apply find_some in Hrow.
  exists row. split; [tauto|apply Nat.eqb_refl].
Qed.

End SessionProperties.

(** ** Fetching a wishlist *)

Section FetchProperties.

Variable StringToBigInt : string -> option Z.
Variable env : string -> option string.

(** The answer of a fetch that shows wishlist [w] with the rows it has in
    [db]. *)
Definition shows (now : Z) (shop : string) (customerId : option string)
    (w : Wishlist) (db : DB) : GetResponse :=
  {| get_status := 200;
     get_json := WishlistBody (wl_id w) (wl_shareUUID w)
                   (map view (items_of (wl_id w) db))
                   (generateStorefrontToken env now shop customerId
                                            default_expiresIn) |}.

Definition fetch_failed : GetResponse :=
  {| get_status := 500; get_json := GetErrorBody "Internal server error" |}.

(** A registered customer's fetch finds the wishlist or creates it: when it
    answers 200 it shows the one wishlist of that customer in the shop with
    the rows it holds, it has written nothing if the wishlist was there, and
    a second fetch shows the same wishlist and rows and writes nothing. *)
Theorem get_wishlist_registered (now1 now2 : Z) (shop : string)
    (customerId : option string) (db : DB) (r1 : GetResponse) (db1 : DB) :
  isGuest (parseCustomerId customerId) = false ->
  get_wishlist StringToBigInt env now1 shop customerId db = (r1, db1) ->
  get_status r1 = 200%nat ->
  exists shopRecord n customer w,
    shop_findUnique shop db = Some shopRecord /\
    BigInt_of_key StringToBigInt
                  (ProxyAuth.customerId (parseCustomerId customerId)) = Val n /\
    customer_findFirst (shop_id shopRecord) n db = (Val (Some customer), db) /\
    wishlist_findUnique (shop_id shopRecord) (cust_id customer) db1 = Some w /\
    (wishlist_findUnique (shop_id shopRecord) (cust_id customer) db <> None ->
     db1 = db) /\
    r1 = shows now1 shop customerId w db1 /\
    get_wishlist StringToBigInt env now2 shop customerId db1 =
    (shows now2 shop customerId w db1, db1).
Proof.
  intros Hreg H1 Hok.
  unfold get_wishlist, get_try_catch, get_wishlist_body in H1 |- *.
  rewrite Hreg in H1 |- *. unfold bind, query, lift, ret, throw in H1 |- *.
  destruct (shop_findUnique shop db) as [sh|] eqn:Hs.
  2:{ injection H1 as <- <-. discriminate Hok. }
  destruct (BigInt_of_key StringToBigInt _) as [n|] eqn:Hn.
  2:{ injection H1 as <- <-. discriminate Hok. }
  destruct (customer_findFirst (shop_id sh) n db) as [found d] eqn:Hc.
  assert (d = db) as ->.
  { rewrite <- (customer_findFirst_reads (shop_id sh) n db). now rewrite Hc. }
  destruct found as [[c|]|e].
  2,3: injection H1 as <- <-; discriminate Hok.
  destruct (wishlist_findUnique (shop_id sh) (cust_id c) db) as [w|] eqn:Hw.
  - injection H1 as <- <-. exists sh, n, c, w.
    rewrite Hs, Hc, Hw. repeat split; auto.
  - unfold wishlist_create in H1.
    destruct (_ || _)%bool.
    { injection H1 as <- <-. discriminate Hok. }
    destruct (negb _).
    { injection H1 as <- <-. discriminate Hok. }
    cbv zeta in H1. injection H1 as <- <-.
    set (w := {| wl_id := nextId db; wl_shopId := shop_id sh;
                 wl_customerId := Some (cust_id c);
                 wl_shareUUID := _ |}).
    set (db1 := {| shops := shops db; customers := customers db;
                   wishlists := _; items := items db; events := events db;
                   nextId := S (nextId db) |}).
    assert (Hs1 : shop_findUnique shop db1 = Some sh) by exact Hs.
    assert (Hc1 : customer_findFirst (shop_id sh) n db1 = (Val (Some c), db1)).
    { apply (customer_findFirst_frame _ _ db); [reflexivity|exact Hc]. }
    assert (Hw1 : wishlist_findUnique (shop_id sh) (cust_id c) db1 = Some w).
    { unfold wishlist_findUnique, db1. cbn [wishlists].
      unfold wishlist_findUnique in Hw. rewrite find_app_none by exact Hw.
      cbn [find w wl_shopId wl_customerId opt_rowid_eqb].
      now rewrite !Nat.eqb_refl. }
    exists sh, n, c, w. rewrite Hs1, Hc1, Hw1.
    repeat split; auto. intros Habs. now contradiction Habs.
Qed.

(** A guest's fetch of a wishlist that is already there answers 500 and
    writes nothing: the lookup brings the wishlist without its items, and
    the answer is built from them. *)
Theorem get_wishlist_guest_existing (now : Z) (shop : string)
    (customerId : option string) (db : DB) (shopRecord : Shop) (w : Wishlist) :
  isGuest (parseCustomerId customerId) = true ->
  shop_findUnique shop db = Some shopRecord ->
  wishlist_findFirst_guest
    (shop_id shopRecord)
    (str_or (ProxyAuth.customerId (parseCustomerId customerId)) "default-guest")
    db = Some w ->
  get_wishlist StringToBigInt env now shop customerId db = (fetch_failed, db).
Proof.
  intros Hg Hs Hw.
  unfold get_wishlist, get_try_catch, get_wishlist_body.
  rewrite Hg. unfold bind, query, ret, throw. rewrite Hs, Hw. reflexivity.
Qed.

(** A guest with a key fetches once: the first fetch that answers 200 has
    created the guest's wishlist under the key, and every fetch after it
    answers 500 and writes nothing. *)
Theorem get_wishlist_guest_once (now1 now2 : Z) (shop key : string) (db : DB)
    (r1 : GetResponse) (db1 : DB) :
  key <> ""%string ->
  get_wishlist StringToBigInt env now1 shop (Some ("guest_" ++ key)%string) db
  = (r1, db1) ->
  get_status r1 = 200%nat ->
  (exists shopRecord w,
      shop_findUnique shop db = Some shopRecord /\
      wishlists db1 = (wishlists db ++ [w])%list /\
      wl_shareUUID w = key /\ wl_customerId w = None /\
      wl_shopId w = shop_id shopRecord /\
      r1 = shows now1 shop (Some ("guest_" ++ key)%string) w db1) /\
  get_wishlist StringToBigInt env now2 shop (Some ("guest_" ++ key)%string) db1
  = (fetch_failed, db1).
Proof.
  intros Hkey H1 Hok.
  assert (Hstr : forall d, str_or (Some key) d = key).
  { intros d. unfold str_or. destruct (String.eqb_spec key ""); congruence. }
  unfold get_wishlist, get_try_catch, get_wishlist_body in H1.
  rewrite parse_guest_key in H1. cbn [isGuest guest ProxyAuth.customerId] in H1.
  unfold bind, query, ret, throw in H1. rewrite !Hstr in H1.
  destruct (shop_findUnique shop db) as [sh|] eqn:Hs.
  2:{ injection H1 as <- <-. discriminate Hok. }
  destruct (wishlist_findFirst_guest (shop_id sh) key db) as [w0|] eqn:Hw.
  { injection H1 as <- <-. discriminate Hok. }
  unfold wishlist_create in H1.
  destruct (_ || _)%bool.
  { injection H1 as <- <-. discriminate Hok. }
  destruct (negb _).
  { injection H1 as <- <-. discriminate Hok. }
  cbv zeta in H1. injection H1 as <- <-.
  set (w := {| wl_id := nextId db; wl_shopId := shop_id sh;
               wl_customerId := None; wl_shareUUID := key |}).
  split.
  - exists sh, w. repeat split; auto.
  - unfold get_wishlist, get_try_catch, get_wishlist_body.
    rewrite parse_guest_key. cbn [isGuest guest ProxyAuth.customerId].
    unfold bind, query, ret, throw. rewrite !Hstr.
    change (shop_findUnique shop _) with (shop_findUnique shop db).
    rewrite Hs.
    assert (Hw1 : forall d, wishlist_findFirst_guest (shop_id sh) key
                     {| shops := shops db; customers := customers db;
                        wishlists := wishlists db ++ [w]; items := items db;
                        events := events db; nextId := d |} = Some w).
    { intros d. unfold wishlist_findFirst_guest in *. cbn [wishlists].
      rewrite find_app_none by exact Hw.
      cbn [find w wl_shopId wl_customerId wl_shareUUID opt_rowid_eqb].
      now rewrite Nat.eqb_refl, String.eqb_refl. }
    rewrite Hw1. reflexivity.
Qed.

End FetchProperties.

(** ** Migration in general *)

(** The dedup keys of a list of rows. *)
Definition keys (l : list WishlistItem) : list (Z * Z) := map key_of l.

Lemma same_key_spec (p v : Z) (it : WishlistItem) :
  same_key p v it = true <-> key_of it = (p, v).
Proof.
  unfold same_key, key_of. rewrite andb_true_iff, !Z.eqb_eq.
  split; [intros [-> ->]; reflexivity|intros [= -> ->]; auto].
Qed.

Lemma existsb_same_key (p v : Z) (l : list WishlistItem) :
  existsb (same_key p v) l = true <-> In (p, v) (keys l).
Proof.
  unfold keys. rewrite existsb_exists, in_map_iff.
  split; intros (x & H1 & H2).
  - exists x. split; [now apply same_key_spec|exact H1].
  - exists x. split; [exact H2|now apply same_key_spec].
Qed.

Lemma find_filter_some {A} (f g : A -> bool) (l : list A) (x : A) :
  find f l = Some x -> g x = true -> find f (filter g l) = Some x.
Proof.
  induction l as [|y l IH]; simpl; [discriminate|].
  destruct (f y) eqn:Hf.
  - intros [= ->] Hg. rewrite Hg. simpl. now rewrite Hf.
  - intros H Hg. destruct (g y); simpl; [rewrite Hf|]; auto.
Qed.

(** What the loop adds: every guest key ends up in the target, no key is
    added twice or beside a row that has it, and each new row copies a guest
    row. *)
Lemma folded_spec (target : rowid) (guestItems : list WishlistItem) :
  forall (present : list WishlistItem) (next : rowid),
    let new := folded target present next guestItems in
    (forall g, In g guestItems -> In (key_of g) (keys (present ++ new))) /\
    (NoDup (keys present) -> NoDup (keys (present ++ new))) /\
    (forall it, In it new ->
                it_wishlistId it = target /\
                exists g, In g guestItems /\ key_of it = key_of g /\
                          it_handle it = it_handle g) /\
    (List.length new <= List.length guestItems)%nat.
Proof.
  induction guestItems as [|g rest IH]; intros present next; cbv zeta.
  - cbn [folded]. rewrite app_nil_r.
    split; [intros ? []|]. split; [auto|]. split; [intros ? []|auto].
  - cbn [folded].
    destruct (existsb (same_key (it_productId g) (it_variantId g)) present)
      eqn:Hex.
    + destruct (IH present next) as (H1 & H2 & H3 & H4). cbv zeta in *.
      split; [|split; [|split]].
      * intros x [<-|Hx]; [|auto].
        unfold keys. rewrite map_app. apply in_or_app. left.
        now apply existsb_same_key.
      * exact H2.
      * intros it Hit. destruct (H3 it Hit) as (Ht & x & Hx & Hk).
        split; [exact Ht|]. exists x. split; [now right|exact Hk].
      * cbn [List.length]. lia.
    + set (it := {| it_id := next; it_wishlistId := target;
                    it_productId := it_productId g;
                    it_variantId := it_variantId g;
                    it_handle := it_handle g |}).
      destruct (IH (present ++ [it])%list (S next)) as (H1 & H2 & H3 & H4).
      cbv zeta in *. rewrite <- app_assoc in H1, H2. cbn [app] in H1, H2.
      split; [|split; [|split]].
      * intros x [<-|Hx]; [|auto].
        unfold keys. rewrite map_app. apply in_or_app. right. now left.
      * intros Hnd. apply H2. unfold keys. rewrite map_app.
        apply NoDup_snoc; [exact Hnd|]. cbn [map].
        intros Hin. unfold key_of, it in Hin.
        cbn [it_productId it_variantId] in Hin.
        apply existsb_same_key in Hin. congruence.
      * intros it0 [<-|Hit].
        -- split; [reflexivity|]. exists g. repeat split. now left.
        -- destruct (H3 it0 Hit) as (Ht & x & Hx & Hk).
           split; [exact Ht|]. exists x. split; [now right|exact Hk].
      * cbn [List.length]. lia.
Qed.

Section MergeProperties.

Variable StringToBigInt : string -> option Z.
Variable env : string -> option string.

Lemma find_or_create_found now shopRecord customer db cw dbc :
  find_or_create now shopRecord customer db = (Val cw, dbc) ->
  items dbc = items db /\ events dbc = events db /\
  wishlist_findUnique (shop_id shopRecord) (cust_id customer) dbc = Some cw /\
  (In cw (wishlists db) /\ wl_customerId cw <> None \/ wl_id cw = nextId db).
Proof.
  unfold find_or_create.
  destruct (wishlist_findUnique _ _ db) as [w|] eqn:Hf.
  - intros [= <- <-]. repeat split; auto. left.
    apply find_some in Hf. destruct Hf as [Hin Hp]. split; [exact Hin|].
    apply andb_true_iff in Hp. destruct Hp as [_ Hp].
    destruct (wl_customerId w); [discriminate|discriminate Hp].
  - unfold wishlist_create.
    destruct (_ || _)%bool; [discriminate|].
    destruct (negb _); [discriminate|].
    intros [= <- <-]. cbn [items events wl_id]. repeat split; auto.
    unfold wishlist_findUnique in *. cbn [wishlists].
    rewrite find_app_none by exact Hf.
    cbn [find wl_shopId wl_customerId opt_rowid_eqb].
    now rewrite !Nat.eqb_refl.
Qed.

(** The migrate event a run writes. *)
Definition migrate_event (id shopId customerId : rowid) (count : nat)
    (guestId : string) : Event :=
  {| ev_id := id; ev_shopId := shopId; ev_customerId := Some customerId;
     ev_type := "migrate"; ev_payload := MigratePayload count guestId |}.

Lemma merge_result (now : Z) (shop : string) (customerId : option string)
    (reqBody : list (string * jsval)) (db : DB) (gt : string)
    (shopRecord : Shop) (customer : Customer) (gw : Wishlist)
    (g : WishlistItem) (gs : list WishlistItem) (r : Response) (db' : DB) :
  ready StringToBigInt shop customerId reqBody db gt shopRecord customer ->
  keyed db ->
  wishlist_findFirst_guest (shop_id shopRecord)
                           (remove_first "guest_" gt) db = Some gw ->
  items_of (wl_id gw) db = g :: gs ->
  migrate StringToBigInt env now shop customerId reqBody db = (r, db') ->
  body_success (json r) = Some true ->
  exists cw new,
    wishlist_findUnique (shop_id shopRecord) (cust_id customer) db' = Some cw /\
    r = migrated env now shop customerId (List.length new) /\
    items_of (wl_id cw) db' = (items_of (wl_id cw) db ++ new)%list /\
    (forall x, In x (g :: gs) ->
               In (key_of x) (keys (items_of (wl_id cw) db'))) /\
    (NoDup (keys (items_of (wl_id cw) db)) ->
     NoDup (keys (items_of (wl_id cw) db'))) /\
    (forall it, In it new ->
                exists x, In x (g :: gs) /\ key_of it = key_of x /\
                          it_handle it = it_handle x) /\
    wishlist_exists (wl_id gw) db' = false /\
    items_of (wl_id gw) db' = [] /\
    wishlist_findFirst_guest (shop_id shopRecord)
                             (remove_first "guest_" gt) db' = None /\
    exists id,
      events db' =
      (events db ++ [migrate_event id (shop_id shopRecord) (cust_id customer)
                                   (List.length new)
                                   (remove_first "guest_" gt)])%list.
Proof.
  intros Hr [Hpk Hsu Hminted] Hgw Hitems Hrun Hok.
  pose proof (migrate_success_fits _ _ _ _ _ _ _ _ _ _ _ _ _ _ _ Hr Hgw Hitems
                Hrun Hok) as Hfit.
  rewrite (migrate_merges _ _ _ _ _ _ _ _ _ _ _ _ _ Hr Hgw Hitems Hfit) in Hrun.
  destruct (find_or_create now shopRecord customer db) as [[cw|e] dbc] eqn:Hc.
  2:{ injection Hrun as <- <-. discriminate Hok. }
  cbv zeta in Hrun.
  destruct (find_or_create_found _ _ _ _ _ _ Hc) as (Hi & He & Hcw & Horigin).
  destruct (find_or_create_frame _ _ _ _ _ _ Hc) as (_ & _ & _ & _ & Hws).
  assert (Hitems_c : items_of (wl_id cw) dbc = items_of (wl_id cw) db).
  { unfold items_of. now rewrite Hi. }
  rewrite Hitems_c in Hrun.
  remember (folded (wl_id cw) (items_of (wl_id cw) db) (nextId dbc) (g :: gs))
    as new eqn:Hnew.
  injection Hrun as <- <-.
  assert (Hdiff : wl_id cw <> wl_id gw).
  { pose proof Hgw as Hgw'. apply find_some in Hgw'.
    destruct Hgw' as [Hgin Hgp].
    destruct Horigin as [[Hin Hcust] | Hfresh].
    - intros Heq. assert (cw = gw) by (apply (NoDup_map_inj_in wl_id (wishlists db)); auto).
      subst cw. apply andb_true_iff in Hgp. destruct Hgp as [Hgp _].
      apply andb_true_iff in Hgp. destruct Hgp as [_ Hgp].
      destruct (wl_customerId gw); [discriminate Hgp|contradiction].
    - specialize (Hminted gw Hgin). lia. }
  destruct (folded_spec (wl_id cw) (g :: gs) (items_of (wl_id cw) db)
              (nextId dbc)) as (F1 & F2 & F3 & _).
  cbv zeta in F1, F2, F3. rewrite <- Hnew in F1, F2, F3.
  assert (Hafter : items_of (wl_id cw)
            (with_event (without_wishlist (wl_id gw) (with_items dbc new))
               (shop_id shopRecord) (Some (cust_id customer)) "migrate"
               (MigratePayload (List.length new) (remove_first "guest_" gt)))
          = (items_of (wl_id cw) db ++ new)%list).
  { rewrite items_of_with_event, items_of_without_other by exact Hdiff.
    rewrite items_of_with_items, Hitems_c. f_equal.
    apply forallb_filter_id. apply forallb_forall. intros it Hit.
    destruct (F3 it Hit) as [-> _]. apply Nat.eqb_refl. }
  exists cw, new. rewrite Hafter. repeat split; auto.
  - unfold wishlist_findUnique in *.
    cbn [wishlists with_event without_wishlist with_items].
    apply find_filter_some; [exact Hcw|].
    apply negb_true_iff. now apply Nat.eqb_neq.
  - intros it Hit. destruct (F3 it Hit) as (_ & x & Hx). exists x. exact Hx.
  - rewrite wishlist_exists_with_event. apply wishlist_exists_without_self.
  - rewrite items_of_with_event. apply items_of_without_self.
  - unfold wishlist_findFirst_guest.
    cbn [wishlists with_event without_wishlist with_items].
    eapply guest_lookup_after_delete; eauto.
  - eexists. cbn [events with_event without_wishlist with_items].
    rewrite He. reflexivity.
Qed.


(** Whatever the two wishlists hold, a migration that succeeds on a guest
    wishlist with rows leaves the customer's wishlist, created if it was
    missing, with its old rows untouched and the new ones appended; the
    count it reports is the number of rows appended; every key of the guest
    wishlist is then in the customer's wishlist; if the keys there were
    distinct before they are distinct after, duplicates among the guest rows
    included; each new row copies a guest row; the guest wishlist and its
    rows are gone, and the guest key finds nothing; and one migrate event records the count and the guest
    key. *)
Theorem migrate_folds (now : Z) (shop : string) (customerId : option string)
    (reqBody : list (string * jsval)) (db : DB) (gt : string)
    (shopRecord : Shop) (customer : Customer) (gw : Wishlist)
    (g : WishlistItem) (gs : list WishlistItem) (r : Response) (db' : DB) :
  ready StringToBigInt shop customerId reqBody db gt shopRecord customer ->
  keyed db ->
  wishlist_findFirst_guest (shop_id shopRecord)
                           (remove_first "guest_" gt) db = Some gw ->
  items_of (wl_id gw) db = g :: gs ->
  migrate StringToBigInt env now shop customerId reqBody db = (r, db') ->
  body_success (json r) = Some true ->
  exists cw new,
    wishlist_findUnique (shop_id shopRecord) (cust_id customer) db' = Some cw /\
    r = migrated env now shop customerId (List.length new) /\
    items_of (wl_id cw) db' = (items_of (wl_id cw) db ++ new)%list /\
    (forall x, In x (g :: gs) ->
               In (key_of x) (keys (items_of (wl_id cw) db'))) /\
    (NoDup (keys (items_of (wl_id cw) db)) ->
     NoDup (keys (items_of (wl_id cw) db'))) /\
    (forall it, In it new ->
                exists x, In x (g :: gs) /\ key_of it = key_of x /\
                          it_handle it = it_handle x) /\
    wishlist_exists (wl_id gw) db' = false /\
    items_of (wl_id gw) db' = [] /\
    wishlist_findFirst_guest (shop_id shopRecord)
                             (remove_first "guest_" gt) db' = None /\
    exists id,
      events db' =
      (events db ++ [migrate_event id (shop_id shopRecord) (cust_id customer)
                                   (List.length new)
                                   (remove_first "guest_" gt)])%list.
Proof.
  exact (merge_result now shop customerId reqBody db gt shopRecord customer
           gw g gs r db').
Qed.

End MergeProperties.

(** ** What the handlers never do *)

Ltac atomic x :=
  lazymatch x with
  | context [match _ with _ => _ end] => fail
  | context [if _ then _ else _] => fail
  | _ => idtac
  end.

Ltac split_run H :=
  cbv beta iota in H;
  repeat (match type of H with
          | context [match ?x with _ => _ end] =>
              atomic x; destruct x eqn:?
          | context [if ?b then _ else _] => atomic b; destruct b eqn:?
          end; cbv beta iota in H).

Ltac settle H :=
  injection H as <- <-; cbn [status];
  first [ reflexivity
        | intros [E|[E|[E|[]]]]; discriminate E ].

Section Rejections.

Variable StringToBigInt : string -> option Z.
Variable env : string -> option string.

(** An answer 400, 403 or 404 of the add, remove or migrate handler means
    that nothing has been written: the checks that refuse a request all come
    before the first write. *)
Theorem rejections_write_nothing (now : Z) (shop : string)
    (customerId : option string) (reqBody : list (string * jsval))
    (id : rowid) (db : DB) (r : Response) (db' : DB) :
  post_items StringToBigInt env now shop customerId reqBody db = (r, db') \/
  delete_item StringToBigInt env now shop customerId id db = (r, db') \/
  migrate StringToBigInt env now shop customerId reqBody db = (r, db') ->
  In (status r) [400; 403; 404]%nat ->
  db' = db.
Proof.
  intros [H | [H | H]]; revert H.
  - unfold post_items, try_catch, post_items_body, send, bind, query, lift,
      ret, throw, customer_out_of_scope, customer_findFirst,
      wishlistItem_findFirst.
    intros H. split_run H; settle H.
  - unfold delete_item, try_catch, delete_item_body, send, bind, query, lift,
      ret, throw, customer_out_of_scope, customer_findFirst,
      wishlistItem_findFirst.
    intros H. split_run H; settle H.
  - unfold migrate, try_catch, migrate_body, send, bind, query, lift,
      ret, throw, customer_findFirst.
    intros H. split_run H; settle H.
Qed.

End Rejections.

(** ** Guests *)

Section GuestProperties.

Variable StringToBigInt : string -> option Z.
Variable env : string -> option string.

(** A guest's removal succeeds on any item of any guest wishlist of the
    shop: the handler checks that the wishlist has no customer, not that it
    is the caller's.  The row is deleted, one [remove] event without a
    customer is written, and the answer carries a fresh token. *)
Theorem delete_item_by_guest (now : Z) (shop : string)
    (customerId : option string) (id : rowid) (db : DB) (shopRecord : Shop)
    (item : WishlistItem) (wishlist : Wishlist) :
  isGuest (parseCustomerId customerId) = true ->
  shop_findUnique shop db = Some shopRecord ->
  wishlistItem_findUnique id db = Some (item, Some wishlist) ->
  wl_shopId wishlist = shop_id shopRecord ->
  wl_customerId wishlist = None ->
  let db' := with_event (without_item id db) (shop_id shopRecord) None "remove"
               (RemovePayload (decZ (it_productId item))
                              (decZ (it_variantId item)) (it_handle item) true)
  in
  delete_item StringToBigInt env now shop customerId id db =
  ({| status := 200;
      json := RemovedBody "Item removed from wishlist"
                (generateStorefrontToken env now shop customerId
                                         default_expiresIn) |}, db') /\
  wishlistItem_findUnique id db' = None.
Proof.
  intros Hg Hs Hi Hshop Hown db'.
  assert (Hex : existsb (fun it => Nat.eqb (it_id it) id) (items db) = true).
  { unfold wishlistItem_findUnique in Hi.
    destruct (find _ (items db)) eqn:E; [|discriminate].
    eapply find_existsb; eauto. }
  pose proof (found_shop_exists _ _ _ Hs) as Hsx.
  assert (Hdel : wishlistItem_delete id db = (Val tt, without_item id db)).
  { unfold without_item, wishlistItem_delete. rewrite Hex. reflexivity. }
  split.
  - unfold delete_item, try_catch, delete_item_body, send, bind, query, lift,
      ret. rewrite Hs, Hi, Hshop, Nat.eqb_refl, Hg, Hown. cbn [negb opt_rowid_eqb].
    rewrite Hdel. unfold event_create.
    assert (Hsx' : shop_exists (shop_id shopRecord) (without_item id db) = true).
    { unfold without_item, wishlistItem_delete. rewrite Hex. exact Hsx. }
    rewrite Hsx'. reflexivity.
  - unfold db', without_item, wishlistItem_delete. rewrite Hex.
    unfold wishlistItem_findUnique. cbn [negb snd items with_event].
    rewrite find_none_intro; [reflexivity|].
    intros x Hx. apply filter_In in Hx. destruct Hx as [_ Hx].
    now apply negb_true_iff in Hx.
Qed.

(** A caller without a guest key: no identifier, the empty one, or the bare
    prefix. *)
Definition anonymous (customerId : option string) : Prop :=
  isGuest (parseCustomerId customerId) = true /\
  forall d, str_or (ProxyAuth.customerId (parseCustomerId customerId)) d = d.

(** The store after an anonymous add at clock [now]. *)
Definition anonymous_added (now : Z) (shopId : rowid) (p v : Z) (h : string)
    (payload : EventPayload) (db : DB) : DB :=
  {| shops := shops db; customers := customers db;
     wishlists := wishlists db
                    ++ [ {| wl_id := nextId db; wl_shopId := shopId;
                            wl_customerId := None;
                            wl_shareUUID := "guest_" ++ decZ now |} ];
     items := items db
                ++ [ {| it_id := S (nextId db); it_wishlistId := nextId db;
                        it_productId := p; it_variantId := v;
                        it_handle := h |} ];
     events := events db
                 ++ [ {| ev_id := S (S (nextId db)); ev_shopId := shopId;
                         ev_customerId := None; ev_type := "add";
                         ev_payload := payload |} ];
     nextId := S (S (S (nextId db))) |}.

Lemma anonymous_add (now : Z) (shop : string) (customerId : option string)
    (reqBody : list (string * jsval)) (db : DB) (shopRecord : Shop)
    (p v : Z) (h : string) :
  anonymous customerId ->
  truthy (field "productId" reqBody) = true ->
  truthy (field "variantId" reqBody) = true ->
  field "handle" reqBody = JStr h -> h <> ""%string ->
  BigInt StringToBigInt (field "productId" reqBody) = Val p ->
  BigInt StringToBigInt (field "variantId" reqBody) = Val v ->
  fits_int64 p = true -> fits_int64 v = true ->
  shop_findUnique shop db = Some shopRecord ->
  wishlist_findFirst_guest (shop_id shopRecord) "default-guest" db = None ->
  (forall it, In it (items db) -> (it_wishlistId it < nextId db)%nat) ->
  post_items StringToBigInt env now shop customerId reqBody db =
  if shareUUID_taken ("guest_" ++ decZ now) db
  then ({| status := 500; json := ErrorBody "Internal server error" |}, db)
  else
    ({| status := 201;
        json := ItemBody
                  {| iv_id := S (nextId db); iv_productId := decZ p;
                     iv_variantId := decZ v; iv_handle := h |}
                  (generateStorefrontToken env now shop customerId
                                           default_expiresIn) |},
     anonymous_added now (shop_id shopRecord) p v h
       (AddPayload (field "productId" reqBody) (field "variantId" reqBody)
                   (JStr h) true) db).
Proof.
  intros [Hg Hkey] Tp Tv Hh Hne Bp Bv Fp Fv Hs Hnone Hminted.
  pose proof (found_shop_exists _ _ _ Hs) as Hsx.
  unfold post_items, try_catch, post_items_body, send, bind, query, lift, ret.
  rewrite Tp, Tv, Hh. cbn [truthy].
  destruct (String.eqb_spec h ""); [contradiction|]. cbn [negb orb].
  rewrite Hs, Hg, !Hkey, Hnone. unfold wishlist_create.
  destruct (shareUUID_taken ("guest_" ++ decZ now) db); [reflexivity|].
  cbn [shop_customer_taken orb optional_customer_exists]. rewrite Hsx.
  cbn [andb negb wl_id]. rewrite Bp, Bv.
  assert (Hfresh : forall d,
             wishlistItem_findFirst (nextId db) p v
               {| shops := shops db; customers := customers db;
                  wishlists := d; items := items db; events := events db;
                  nextId := S (nextId db) |}
             = (Val None,
                {| shops := shops db; customers := customers db;
                   wishlists := d; items := items db; events := events db;
                   nextId := S (nextId db) |})).
  { intros d. unfold wishlistItem_findFirst. rewrite Fp, Fv. cbn [andb items].
    rewrite find_none_intro; [reflexivity|].
    intros it Hit. specialize (Hminted it Hit).
    destruct (Nat.eqb_spec (it_wishlistId it) (nextId db)); [lia|reflexivity]. }
  rewrite Hfresh. unfold wishlistItem_create, wishlist_exists.
  rewrite Fp, Fv. cbn [andb negb].
  cbn [wishlists]. rewrite existsb_app. cbn [existsb wl_id].
  rewrite Nat.eqb_refl, orb_true_r. cbn [negb]. unfold event_create.
  cbn [optional_customer_exists andb].
  change (shop_exists (shop_id shopRecord) _)
    with (shop_exists (shop_id shopRecord) db).
  rewrite Hsx. reflexivity.
Qed.

(** The add handler's dedup does not reach an anonymous guest.  Each add
    of a pair of the BIGINT range is stored in a wishlist created for it
    under "guest_<clock>", since the lookup asks for "default-guest": two
    adds of the same pair at different
    clock readings both answer 201 and leave two wishlists with one row of
    the pair each, and a second add at the very clock reading of the first
    answers 500 and writes nothing. *)
Theorem anonymous_adds_never_conflict (now1 now2 : Z) (shop : string)
    (customerId : option string) (reqBody : list (string * jsval)) (db : DB)
    (shopRecord : Shop) (p v : Z) (h : string) :
  anonymous customerId ->
  truthy (field "productId" reqBody) = true ->
  truthy (field "variantId" reqBody) = true ->
  field "handle" reqBody = JStr h -> h <> ""%string ->
  BigInt StringToBigInt (field "productId" reqBody) = Val p ->
  BigInt StringToBigInt (field "variantId" reqBody) = Val v ->
  fits_int64 p = true -> fits_int64 v = true ->
  shop_findUnique shop db = Some shopRecord ->
  wishlist_findFirst_guest (shop_id shopRecord) "default-guest" db = None ->
  (forall it, In it (items db) -> (it_wishlistId it < nextId db)%nat) ->
  shareUUID_taken ("guest_" ++ decZ now1) db = false ->
  shareUUID_taken ("guest_" ++ decZ now2) db = false ->
  exists r1 db1,
    post_items StringToBigInt env now1 shop customerId reqBody db = (r1, db1) /\
    status r1 = 201%nat /\
    post_items StringToBigInt env now1 shop customerId reqBody db1 =
    ({| status := 500; json := ErrorBody "Internal server error" |}, db1) /\
    (decZ now2 <> decZ now1 ->
     exists r2 db2 w1 w2,
       post_items StringToBigInt env now2 shop customerId reqBody db1
       = (r2, db2) /\
       status r2 = 201%nat /\
       wishlists db2 = (wishlists db ++ [w1; w2])%list /\
       wl_id w1 <> wl_id w2 /\
       List.length (matching (wl_id w1) p v db2) = 1%nat /\
       List.length (matching (wl_id w2) p v db2) = 1%nat).
Proof.
  intros Ha Tp Tv Hh Hne Bp Bv Fp Fv Hs Hnone Hminted Hu1 Hu2.
  set (payload := AddPayload (field "productId" reqBody)
                             (field "variantId" reqBody) (JStr h) true).
  set (db1 := anonymous_added now1 (shop_id shopRecord) p v h payload db).
  assert (H1 := anonymous_add now1 shop customerId reqBody db shopRecord p v h
                  Ha Tp Tv Hh Hne Bp Bv Fp Fv Hs Hnone Hminted).
  rewrite Hu1 in H1. fold payload in H1. fold db1 in H1.
  assert (Hs1 : shop_findUnique shop db1 = Some shopRecord) by exact Hs.
  assert (Hnone1 : wishlist_findFirst_guest (shop_id shopRecord)
                     "default-guest" db1 = None).
  { unfold wishlist_findFirst_guest in *. cbn [db1 anonymous_added wishlists].
    rewrite find_app_none by exact Hnone. cbn [find wl_shareUUID].
    rewrite andb_false_r. reflexivity. }
  assert (Hminted1 : forall it, In it (items db1) ->
                                (it_wishlistId it < nextId db1)%nat).
  { cbn [db1 anonymous_added items nextId]. intros it Hit.
    apply in_app_or in Hit. destruct Hit as [Hit|[<-|[]]].
    - specialize (Hminted it Hit). lia.
    - cbn [it_wishlistId]. lia. }
  assert (Htaken : forall u,
             shareUUID_taken u db1 =
             (shareUUID_taken u db || ("guest_" ++ decZ now1 =? u)%string)%bool).
  { intros u. unfold shareUUID_taken. cbn [db1 anonymous_added wishlists].
    rewrite existsb_app. cbn [existsb wl_shareUUID]. now rewrite orb_false_r. }
  eexists _, db1. split; [exact H1|]. split; [reflexivity|]. split.
  - assert (H2 := anonymous_add now1 shop customerId reqBody db1 shopRecord
                    p v h Ha Tp Tv Hh Hne Bp Bv Fp Fv Hs1 Hnone1 Hminted1).
    rewrite Htaken, Hu1, String.eqb_refl in H2. exact H2.
  - intros Hdiff.
    assert (H2 := anonymous_add now2 shop customerId reqBody db1 shopRecord
                    p v h Ha Tp Tv Hh Hne Bp Bv Fp Fv Hs1 Hnone1 Hminted1).
    rewrite Htaken, Hu2 in H2.
    destruct (String.eqb_spec ("guest_" ++ decZ now1) ("guest_" ++ decZ now2))
      as [E|_].
    { exfalso. apply Hdiff. injection E as E. now symmetry. }
    cbn [orb] in H2. fold payload in H2.
    eexists _, _, _, _. split; [exact H2|]. split; [reflexivity|]. split.
    { cbn [db1 anonymous_added wishlists nextId]. rewrite <- app_assoc.
      reflexivity. }
    cbn [wl_id db1 anonymous_added nextId]. split; [lia|].
    assert (Hold : forall n, (nextId db <= n)%nat ->
                filter (fun it => (Nat.eqb (it_wishlistId it) n
                                   && same_key p v it)%bool) (items db) = []).
    { intros n Hn. apply filter_none, find_none_intro. intros it Hit.
      specialize (Hminted it Hit).
      destruct (Nat.eqb_spec (it_wishlistId it) n); [lia|reflexivity]. }
    unfold matching, same_key. cbn [anonymous_added items db1].
    rewrite !filter_app. unfold same_key in Hold.
    rewrite !Hold by lia.
    cbn [filter it_wishlistId it_productId it_variantId app List.length].
    rewrite !Z.eqb_refl, !Nat.eqb_refl. cbn [andb List.length app].
    split; cbn [db1 anonymous_added nextId];
      repeat match goal with
             | |- context [Nat.eqb ?a ?b] =>
                 destruct (Nat.eqb_spec a b); try lia
             end; reflexivity.
Qed.

End GuestProperties.

(** ** Adds stay in the shop *)

Section AddProperties.

Variable StringToBigInt : string -> option Z.
Variable env : string -> option string.

Local Open Scope prisma_scope.

(** The add handler in two parts: finding or creating the caller's
    wishlist (or answering early), and storing the item in it. *)
Definition resolve_wishlist (now : Z) (shopRecord : Shop)
    (customerId : option string) : M (Response + Wishlist) :=
  let ident := parseCustomerId customerId in
  let parsedCustomerId := ProxyAuth.customerId ident in
  if isGuest ident then
    found <- query (wishlist_findFirst_guest
                      (shop_id shopRecord)
                      (str_or parsedCustomerId "default-guest")) ;;
    match found with
    | Some w => ret (inr w)
    | None =>
        w <- wishlist_create (shop_id shopRecord) None
               (str_or parsedCustomerId ("guest_" ++ decZ now)) ;;
        ret (inr w)
    end
  else
    n <- lift (BigInt_of_key StringToBigInt parsedCustomerId) ;;
    customer <- customer_findFirst (shop_id shopRecord) n ;;
    match customer with
    | None => ret (inl (mkResponse 404 (ErrorBody "Customer not found")))
    | Some customer =>
        found <- query (wishlist_findUnique (shop_id shopRecord)
                                            (cust_id customer)) ;;
        match found with
        | Some w => ret (inr w)
        | None =>
            w <- wishlist_create (shop_id shopRecord)
                   (Some (cust_id customer))
                   ("customer_" ++ dec (cust_id customer) ++ "_"
                      ++ decZ now) ;;
            ret (inr w)
        end
    end.

Definition store_item (now : Z) (shop : string) (customerId : option string)
    (reqBody : list (string * jsval)) (shopRecord : Shop) (wishlist : Wishlist)
  : M Response :=
  let productId := field "productId" reqBody in
  let variantId := field "variantId" reqBody in
  let handle := field "handle" reqBody in
  let ident := parseCustomerId customerId in
  p <- lift (BigInt StringToBigInt productId) ;;
  v <- lift (BigInt StringToBigInt variantId) ;;
  existingItem <- wishlistItem_findFirst (wl_id wishlist) p v ;;
  match existingItem with
  | Some existingItem =>
      send 409 (ConflictBody "Item already in wishlist" (view existingItem))
  | None =>
      h <- match handle with
           | JStr h => ret h
           | _ => throw PrismaValidationError
           end ;;
      wishlistItem <- wishlistItem_create (wl_id wishlist) p v h ;;
      evCustomer <- (if isGuest ident then ret None
                     else customer_out_of_scope) ;;
      event_create (shop_id shopRecord) evCustomer "add"
        (AddPayload productId variantId handle (isGuest ident)) ;;;
      let token :=
        generateStorefrontToken env now shop customerId default_expiresIn in
      send 201 (ItemBody (view wishlistItem) token)
  end.

Lemma post_items_body_parts (now : Z) (shop : string)
    (customerId : option string) (reqBody : list (string * jsval)) :
  post_items_body StringToBigInt env now shop customerId reqBody =
  if negb (truthy (field "productId" reqBody))
     || negb (truthy (field "variantId" reqBody))
     || negb (truthy (field "handle" reqBody))
  then send 400 (ErrorBody
                   "Missing required fields: productId, variantId, handle")
  else
    shopRecord <- query (shop_findUnique shop) ;;
    match shopRecord with
    | None => send 404 (ErrorBody "Shop not found")
    | Some shopRecord =>
        resolved <- resolve_wishlist now shopRecord customerId ;;
        match resolved with
        | inl early => ret early
        | inr wishlist =>
            store_item now shop customerId reqBody shopRecord wishlist
        end
    end.
Proof. reflexivity. Qed.

Local Close Scope prisma_scope.

(** What a run adds to the tables, all of it in the shop [shopId]: rows are
    only ever appended, the shops and customers are not touched, a new
    wishlist is of the shop, a new item goes into a wishlist of the shop,
    and a new event is of the shop. *)
Record grown (shopId : rowid) (db db' : DB) : Prop := {
  grown_shops : shops db' = shops db;
  grown_customers : customers db' = customers db;
  grown_wishlists :
    exists ws, wishlists db' = (wishlists db ++ ws)%list /\
               Forall (fun w => wl_shopId w = shopId) ws;
  grown_items :
    exists its, items db' = (items db ++ its)%list /\
                Forall (fun it => exists w, In w (wishlists db') /\
                                            wl_id w = it_wishlistId it /\
                                            wl_shopId w = shopId) its;
  grown_events :
    exists es, events db' = (events db ++ es)%list /\
               Forall (fun e => ev_shopId e = shopId) es
}.

Lemma grown_refl shopId db : grown shopId db db.
Proof.
  split; auto; exists []; rewrite app_nil_r; split; auto.
Qed.

Lemma grown_trans shopId a b c :
  grown shopId a b -> grown shopId b c -> grown shopId a c.
Proof.
  intros [S1 C1 (ws1 & W1 & FW1) (is1 & I1 & FI1) (es1 & E1 & FE1)]
         [S2 C2 (ws2 & W2 & FW2) (is2 & I2 & FI2) (es2 & E2 & FE2)].
  split; try congruence.
  - exists (ws1 ++ ws2)%list. rewrite W2, W1, app_assoc. split; [auto|].
    apply Forall_app. auto.
  - exists (is1 ++ is2)%list. rewrite I2, I1, app_assoc. split; [auto|].
    apply Forall_app. split; [|exact FI2].
    eapply Forall_impl; [|exact FI1]. intros it (w & Hin & Hw).
    exists w. split; [|exact Hw]. rewrite W2. apply in_or_app. now left.
  - exists (es1 ++ es2)%list. rewrite E2, E1, app_assoc. split; [auto|].
    apply Forall_app. auto.
Qed.

Lemma wishlist_create_grows shopId customerId shareUUID db r d :
  wishlist_create shopId customerId shareUUID db = (r, d) ->
  grown shopId db d /\
  forall w, r = Val w -> In w (wishlists d) /\ wl_shopId w = shopId.
Proof.
  unfold wishlist_create.
  destruct (_ || _)%bool.
  { intros [= <- <-]. split; [apply grown_refl|discriminate]. }
  destruct (negb _).
  { intros [= <- <-]. split; [apply grown_refl|discriminate]. }
  intros [= <- <-]. split.
  - split; cbn [shops customers wishlists items events]; auto.
    + eexists. split; [reflexivity|]. repeat constructor.
    + exists []. rewrite app_nil_r. auto.
    + exists []. rewrite app_nil_r. auto.
  - intros w [= <-]. cbn [wishlists wl_shopId]. split; [|reflexivity].
    apply in_or_app. right. now left.
Qed.

Lemma resolve_wishlist_grows now shopRecord customerId db r d :
  resolve_wishlist now shopRecord customerId db = (r, d) ->
  grown (shop_id shopRecord) db d /\
  (forall w, r = Val (inr w) ->
             In w (wishlists d) /\ wl_shopId w = shop_id shopRecord) /\
  (forall early, r = Val (inl early) -> d = db).
Proof.
  assert (Hfound : forall f w,
             find (fun w => Nat.eqb (wl_shopId w) (shop_id shopRecord) && f w)
                  (wishlists db) = Some w ->
             In w (wishlists db) /\ wl_shopId w = shop_id shopRecord).
  { intros f w Hf. apply find_some in Hf. destruct Hf as [Hin Hp].
    apply andb_true_iff in Hp. destruct Hp as [Hp _].
    apply Nat.eqb_eq in Hp. auto. }
  assert (Hcreated : forall c u r0 d0,
             wishlist_create (shop_id shopRecord) c u db = (r0, d0) ->
             (let (r1, d1) := (r0, d0) in
              match r1 with
              | Val a => (Val (inr a), d1)
              | Exn e => (@Exn (Response + Wishlist) e, d1)
              end) = (r, d) ->
             grown (shop_id shopRecord) db d /\
             (forall w, r = Val (inr w) ->
                        In w (wishlists d) /\ wl_shopId w = shop_id shopRecord)
             /\ (forall early, r = Val (inl early) -> d = db)).
  { intros c u r0 d0 Hc Hr. destruct (wishlist_create_grows _ _ _ _ _ _ Hc)
      as [Hg Hw].
    destruct r0 as [w|e]; injection Hr as <- <-.
    - split; [exact Hg|]. split; [|discriminate].
      intros w' [= <-]. now apply Hw.
    - split; [exact Hg|]. split; discriminate. }
  unfold resolve_wishlist, bind, query, lift, ret.
  destruct (isGuest (parseCustomerId customerId)).
  - destruct (wishlist_findFirst_guest _ _ db) as [w|] eqn:Hw.
    + intros [= <- <-]. split; [apply grown_refl|]. split; [|discriminate].
      intros w' [= <-]. unfold wishlist_findFirst_guest in Hw.
      apply find_some in Hw. destruct Hw as [Hin Hp].
      split; [exact Hin|].
      repeat (apply andb_true_iff in Hp; destruct Hp as [Hp _]).
      now apply Nat.eqb_eq in Hp.
    + destruct (wishlist_create _ _ _ db) as [r0 d0] eqn:Hc.
      intros Hr. eapply Hcreated; eauto.
  - destruct (BigInt_of_key StringToBigInt _).
    2:{ intros [= <- <-]. split; [apply grown_refl|]. split; discriminate. }
    unfold customer_findFirst. destruct (fits_int64 _).
    2:{ intros [= <- <-]. split; [apply grown_refl|]. split; discriminate. }
    destruct (find _ (customers db)).
    2:{ intros [= <- <-]. split; [apply grown_refl|].
        split; [discriminate|reflexivity]. }
    destruct (wishlist_findUnique _ _ db) as [w|] eqn:Hw.
    + intros [= <- <-]. split; [apply grown_refl|]. split; [|discriminate].
      intros w' [= <-]. unfold wishlist_findUnique in Hw.
      eapply Hfound. exact Hw.
    + destruct (wishlist_create _ _ _ db) as [r0 d0] eqn:Hc.
      intros Hr. eapply Hcreated; eauto.
Qed.

Lemma store_item_grows now shop customerId reqBody shopRecord w db :
  In w (wishlists db) -> wl_shopId w = shop_id shopRecord ->
  grown (shop_id shopRecord) db
        (snd (store_item now shop customerId reqBody shopRecord w db)).
Proof.
  intros Hin Hshop.
  unfold store_item, bind, query, lift, ret, send, throw,
    customer_out_of_scope.
  destruct (BigInt StringToBigInt (field "productId" reqBody));
    [|apply grown_refl].
  destruct (BigInt StringToBigInt (field "variantId" reqBody));
    [|apply grown_refl].
  unfold wishlistItem_findFirst, wishlistItem_create.
  destruct (fits_int64 _ && fits_int64 _); [|apply grown_refl].
  destruct (find _ (items db)); [apply grown_refl|].
  destruct (field "handle" reqBody); try apply grown_refl.
  cbn [negb]. destruct (negb _); [apply grown_refl|]. cbv zeta.
  set (it := {| it_id := nextId db; it_wishlistId := wl_id w;
                it_productId := _; it_variantId := _; it_handle := _ |}).
  set (d := {| shops := shops db; customers := customers db;
               wishlists := wishlists db; items := (items db ++ [it])%list;
               events := events db; nextId := S (nextId db) |}).
  assert (Hd : grown (shop_id shopRecord) db d).
  { split; cbn [d shops customers wishlists items events]; auto.
    - exists []. rewrite app_nil_r. auto.
    - exists [it]. split; [reflexivity|]. constructor; [|constructor].
      exists w. auto.
    - exists []. rewrite app_nil_r. auto. }
  destruct (isGuest (parseCustomerId customerId)); [|exact Hd].
  unfold event_create. destruct (negb _); [exact Hd|]. cbv zeta.
  cbn [snd]. eapply grown_trans; [exact Hd|].
  split; cbn [shops customers wishlists items events]; auto.
  - exists []. rewrite app_nil_r. auto.
  - exists []. rewrite app_nil_r. auto.
  - eexists. split; [reflexivity|]. repeat constructor.
Qed.

(** An add only appends, and only in the shop the request is for: whatever
    the request and whatever the answer, the shops and customers are left
    as they were, no wishlist, item or event that was there is changed or
    removed, and what is new is a wishlist of that shop, an item in a wishlist
    of that shop, an event of that shop.  With an unknown shop nothing is
    written at all. *)
Theorem post_items_stays_in_shop (now : Z) (shop : string)
    (customerId : option string) (reqBody : list (string * jsval)) (db : DB) :
  let db' := snd (post_items StringToBigInt env now shop customerId reqBody db)
  in
  match shop_findUnique shop db with
  | Some shopRecord => grown (shop_id shopRecord) db db'
  | None => db' = db
  end.
Proof.
  cbv zeta. unfold post_items, try_catch. rewrite post_items_body_parts.
  unfold bind, query, ret, send.
  destruct (_ || _)%bool.
  { cbn [snd]. destruct (shop_findUnique shop db);
      [apply grown_refl|reflexivity]. }
  destruct (shop_findUnique shop db) as [sh|]; [|reflexivity].
  destruct (resolve_wishlist now sh customerId db) as [r d] eqn:Hr.
  destruct (resolve_wishlist_grows _ _ _ _ _ _ Hr) as (Hg & Hw & Hearly).
  destruct r as [[early|w]|e]; cbn [snd]; try exact Hg.
  destruct (Hw w eq_refl) as [Hin Hshop].
  pose proof (store_item_grows now shop customerId reqBody sh w d Hin Hshop)
    as Hs.
  destruct (store_item now shop customerId reqBody sh w d) as [[r|e] d'];
    cbn [snd] in *; eapply grown_trans; eauto.
Qed.

End AddProperties.

(** ** From a guest's add to the customer's wishlist *)

Lemma registered_caller (cid : option string) :
  isGuest (parseCustomerId cid) = false ->
  exists key, parseCustomerId cid = registered key.
Proof.
  unfold parseCustomerId. destruct cid as [s|]; [|discriminate].
  destruct (s =? "")%string; [discriminate|].
  destruct (startsWith s "guest_"); [discriminate|].
  intros _. exists s. reflexivity.
Qed.

Lemma remove_guest_prefix (key : string) :
  remove_first "guest_" ("guest_" ++ key) = key.
Proof.
  assert (Hunfold : forall pat s,
             remove_first pat s =
             if String.prefix pat s
             then substring_from (String.length pat) s
             else match s with
                  | EmptyString => EmptyString
                  | String c s' => String c (remove_first pat s')
                  end).
  { intros pat s. destruct s; reflexivity. }
  rewrite Hunfold, prefix_app. reflexivity.
Qed.

Section Journey.

Variable StringToBigInt : string -> option Z.
Variable env : string -> option string.

(** A migration that succeeds was called by a customer of the shop. *)
Lemma migrate_success_ready now shop customerId reqBody db gt r db' :
  migrate StringToBigInt env now shop customerId reqBody db = (r, db') ->
  body_success (json r) = Some true ->
  field "guestToken" reqBody = JStr gt ->
  exists shopRecord customer,
    ready StringToBigInt shop customerId reqBody db gt shopRecord customer.
Proof.
  intros H Hok Ht.
  unfold migrate, try_catch, migrate_body in H. rewrite Ht in H.
  cbn [truthy] in H. unfold send, bind, query, lift, ret, throw in H.
  destruct (String.eqb_spec gt "") as [|Hne]; cbn [negb] in H.
  { injection H as <- <-. discriminate Hok. }
  destruct (isGuest (parseCustomerId customerId)) eqn:Hg.
  { injection H as <- <-. discriminate Hok. }
  destruct (registered_caller _ Hg) as [key Hkey]. rewrite Hkey in H.
  cbn [registered ProxyAuth.customerId] in H.
  destruct (shop_findUnique shop db) as [sh|] eqn:Hs.
  2:{ injection H as <- <-. discriminate Hok. }
  unfold BigInt_of_key, BigInt in H.
  destruct (StringToBigInt key) as [n|] eqn:Hn.
  2:{ injection H as <- <-. discriminate Hok. }
  destruct (customer_findFirst (shop_id sh) n db) as [found d] eqn:Hc.
  assert (d = db) as ->.
  { rewrite <- (customer_findFirst_reads (shop_id sh) n db). now rewrite Hc. }
  destruct found as [[c|]|e].
  2,3: injection H as <- <-; discriminate Hok.
  exists sh, c. split; auto. exists key, n. auto.
Qed.

(** A guest with a key is answered from the wishlist under that key, found
    or created. *)
Lemma resolve_guest_key now shopRecord key db r d :
  key <> ""%string ->
  resolve_wishlist StringToBigInt now shopRecord
                   (Some ("guest_" ++ key)%string) db = (r, d) ->
  match r with
  | Val (inl _) => False
  | Val (inr w) =>
      shops d = shops db /\ customers d = customers db /\
      items d = items db /\
      wishlist_findFirst_guest (shop_id shopRecord) key d = Some w
  | Exn _ => True
  end.
Proof.
  intros Hkey.
  assert (Hstr : forall x, str_or (Some key) x = key).
  { intros x. unfold str_or. destruct (String.eqb_spec key ""); congruence. }
  unfold resolve_wishlist. rewrite parse_guest_key.
  cbn [isGuest guest ProxyAuth.customerId]. rewrite !Hstr.
  unfold bind, query, ret.
  destruct (wishlist_findFirst_guest (shop_id shopRecord) key db) as [w|]
    eqn:Hw.
  { intros [= <- <-]. auto. }
  unfold wishlist_create.
  destruct (_ || _)%bool; [intros [= <- <-]; exact I|].
  destruct (negb _); [intros [= <- <-]; exact I|].
  intros [= <- <-]. cbn [shops customers items]. repeat split.
  unfold wishlist_findFirst_guest in *. cbn [wishlists].
  rewrite find_app_none by exact Hw.
  cbn [find wl_shopId wl_customerId wl_shareUUID opt_rowid_eqb].
  now rewrite Nat.eqb_refl, String.eqb_refl.
Qed.

(** An add that gets as far as 201 has stored the pair in the wishlist it
    was given. *)
Lemma store_item_lands now shop customerId reqBody shopRecord w d r d' :
  store_item StringToBigInt env now shop customerId reqBody shopRecord w d
  = (Val r, d') ->
  status r = 201%nat ->
  exists it p v,
    BigInt StringToBigInt (field "productId" reqBody) = Val p /\
    BigInt StringToBigInt (field "variantId" reqBody) = Val v /\
    key_of it = (p, v) /\ it_wishlistId it = wl_id w /\
    items d' = (items d ++ [it])%list /\
    shops d' = shops d /\ customers d' = customers d /\
    wishlists d' = wishlists d.
Proof.
  unfold store_item, bind, query, lift, ret, send, throw,
    customer_out_of_scope.
  destruct (BigInt StringToBigInt (field "productId" reqBody)) as [p|];
    [|discriminate].
  destruct (BigInt StringToBigInt (field "variantId" reqBody)) as [v|];
    [|discriminate].
  unfold wishlistItem_findFirst, wishlistItem_create.
  destruct (fits_int64 p && fits_int64 v); [|discriminate].
  destruct (find _ (items d)).
  { intros [= <- <-]. discriminate. }
  destruct (field "handle" reqBody); try discriminate.
  cbn [negb]. destruct (negb _); [discriminate|]. cbv zeta.
  destruct (isGuest (parseCustomerId customerId)); [|discriminate].
  unfold event_create. destruct (negb _); [discriminate|]. cbv zeta.
  intros [= <- <-] _. eexists _, p, v.
  cbn [shops customers wishlists items].
  repeat split; reflexivity.
Qed.

(** A guest adds an item under a key, logs in, and migrates under that key:
    when the add answered 201 and the migration succeeded, the migration has
    migrated, the pair added is in the caller's own wishlist, and the guest
    key finds no wishlist any more. *)
Theorem guest_add_then_migrate (now1 now2 : Z) (shop key : string)
    (customerId : option string) (addBody migrateBody : list (string * jsval))
    (db : DB) (r1 : Response) (db1 : DB) (r2 : Response) (db2 : DB) :
  key <> ""%string ->
  keyed db ->
  post_items StringToBigInt env now1 shop (Some ("guest_" ++ key)%string)
             addBody db = (r1, db1) ->
  status r1 = 201%nat ->
  field "guestToken" migrateBody = JStr ("guest_" ++ key) ->
  migrate StringToBigInt env now2 shop customerId migrateBody db1 = (r2, db2) ->
  body_success (json r2) = Some true ->
  exists shopRecord customer cw p v,
    shop_findUnique shop db = Some shopRecord /\
    In customer (customers db) /\
    cust_shopId customer = shop_id shopRecord /\
    BigInt_of_key StringToBigInt
      (ProxyAuth.customerId (parseCustomerId customerId))
    = Val (cust_shopCustomerId customer) /\
    BigInt StringToBigInt (field "productId" addBody) = Val p /\
    BigInt StringToBigInt (field "variantId" addBody) = Val v /\
    body_migrated (json r2) = Some true /\
    wishlist_findUnique (shop_id shopRecord) (cust_id customer) db2 = Some cw /\
    In (p, v) (keys (items_of (wl_id cw) db2)) /\
    wishlist_findFirst_guest (shop_id shopRecord) key db2 = None.
Proof.
  intros Hkey Hkeyed H1 Hok1 Ht H2 Hok2.
  assert (Hkeyed1 : keyed db1).
  { change db1 with (snd (r1, db1)). rewrite <- H1.
    apply keeps_try_catch; [|exact Hkeyed].
    unfold post_items_body, send, customer_out_of_scope.
    repeat keeps_step. }
  (* the add *)
  unfold post_items, try_catch in H1. rewrite post_items_body_parts in H1.
  unfold bind, query, ret, send in H1.
  destruct (_ || _)%bool.
  { injection H1 as <- <-. discriminate Hok1. }
  destruct (shop_findUnique shop db) as [sh|] eqn:Hs.
  2:{ injection H1 as <- <-. discriminate Hok1. }
  destruct (resolve_wishlist StringToBigInt now1 sh
              (Some ("guest_" ++ key)%string) db) as [res d] eqn:Hres.
  pose proof (resolve_guest_key _ _ _ _ _ _ Hkey Hres) as Hd.
  destruct res as [[early|gw]|e]; [contradiction| |].
  2:{ injection H1 as <- <-. discriminate Hok1. }
  destruct Hd as (Hsd & Hcd & _ & Hgw).
  destruct (store_item StringToBigInt env now1 shop
              (Some ("guest_" ++ key)%string) addBody sh gw d)
    as [[r|e] d'] eqn:Hstore.
  2:{ injection H1 as <- <-. discriminate Hok1. }
  injection H1 as -> ->.
  destruct (store_item_lands _ _ _ _ _ _ _ _ _ Hstore Hok1)
    as (it & p & v & Hp & Hv & Hkv & Hwl & Hitems & Hs1 & Hc1 & Hw1).
  (* the migration *)
  destruct (migrate_success_ready _ _ _ _ _ _ _ _ H2 Hok2 Ht)
    as (sh' & c & Hready).
  assert (sh' = sh) as ->.
  { destruct Hready as [_ _ _ Hshop]. unfold shop_findUnique in *.
    rewrite Hs1, Hsd, Hs in Hshop. congruence. }
  assert (Hgw1 : wishlist_findFirst_guest (shop_id sh)
                   (remove_first "guest_" ("guest_" ++ key)) db1 = Some gw).
  { rewrite remove_guest_prefix.
    unfold wishlist_findFirst_guest in *. now rewrite Hw1. }
  assert (Hin : In it (items_of (wl_id gw) db1)).
  { unfold items_of. apply filter_In. split.
    - rewrite Hitems. apply in_or_app. right. now left.
    - rewrite Hwl. apply Nat.eqb_refl. }
  destruct (items_of (wl_id gw) db1) as [|g gs] eqn:Hgs; [destruct Hin|].
  destruct (merge_result StringToBigInt env now2 shop customerId migrateBody
              db1 ("guest_" ++ key) sh c gw g gs r2 db2 Hready Hkeyed1 Hgw1
              Hgs H2 Hok2)
    as (cw & new & Hcw & Hr2 & _ & Hall & _ & _ & _ & _ & Hgone & _).
  destruct Hready as [_ _ (ckey & n & Hparse & Hn & Hcust) _].
  apply customer_findFirst_answers in Hcust.
  destruct Hcust as (_ & _ & Hcust). symmetry in Hcust.
  rewrite Hc1, Hcd in Hcust.
  apply find_some in Hcust. destruct Hcust as [Hcin Hcp].
  apply andb_true_iff in Hcp. destruct Hcp as [Hcs Hcn].
  apply Nat.eqb_eq in Hcs. apply Z.eqb_eq in Hcn.
  exists sh, c, cw, p, v. repeat split; auto.
  - rewrite Hparse. cbn [registered ProxyAuth.customerId].
    unfold BigInt_of_key, BigInt. rewrite Hn. now subst n.
  - rewrite Hr2. reflexivity.
  - rewrite <- Hkv. apply Hall. exact Hin.
  - rewrite remove_guest_prefix in Hgone. exact Hgone.
Qed.

End Journey.

(* ------------------------------------------------------------------ *)
(** * The further properties on the example store *)

(** A request for shop X carrying a token issued to customer 12345 of that
    shop and naming customer 777 in the customer header. *)
Definition request_with_token (issuedFor : string) : AuthRequest :=
  {| ar_shop := JStr shopX;
     ar_authorization :=
       Some (Bearer (generateStorefrontToken full_env 1000000 issuedFor
                                             (Some "12345"%string) 3600));
     ar_hdr_customer_id := Some "777"%string;
     ar_query_customer_id := None;
     ar_body := [] |}.

Lemma authenticateCustomer_token_decides_witness :
  authenticateCustomer full_env 2000000 (request_with_token shopX)
  = JStr "12345".
Proof.
  apply (authenticateCustomer_token_decides full_env 1000000 2000000 shopX
           "12345" 3600 (request_with_token shopX)).
  - discriminate.
  - reflexivity.
  - reflexivity.
  - vm_compute. reflexivity.
Defined.

(** The same token issued for shop Y: the header decides. *)
Lemma authenticateCustomer_ignores_token_witness :
  authenticateCustomer full_env 2000000 (request_with_token shopY)
  = JStr "777".
Proof.
  apply (authenticateCustomer_ignores_token full_env 1000000 2000000 shopY
           (Some "12345"%string) 3600 (request_with_token shopY)).
  - reflexivity.
  - left. vm_compute. discriminate.
Defined.

(** Customer 12345 of the example store, now with an address. *)
Definition customer_12345 : CustomerData :=
  {| cd_id := JStr "12345"; cd_email := JStr "c@example.com" |}.

Lemma db0_customers_minted :
  forall c, In c (customers db0) -> (cust_id c < nextId db0)%nat.
Proof. intros c [<-|[<-|[]]]; cbn; lia. Defined.

Lemma db0_customer_pkey : NoDup (map cust_id (customers db0)).
Proof. repeat constructor; simpl; intuition discriminate. Defined.

Lemma createCustomerSession_idempotent_witness :
  exists s1 db1 s2,
    createCustomerSession decimal_StringToBigInt decZ empty_env 5000 shopX
                          customer_12345 db0 = (Val s1, db1) /\
    createCustomerSession decimal_StringToBigInt decZ empty_env 9000 shopX
                          customer_12345 db1 = (Val s2, db1) /\
    cs_customer s2 = cs_customer s1.
Proof.
  destruct (createCustomerSession decimal_StringToBigInt decZ empty_env 5000
              shopX customer_12345 db0) as [[s1|e] db1] eqn:H1.
  - destruct (createCustomerSession_idempotent decimal_StringToBigInt decZ
                empty_env 5000 9000 shopX customer_12345 db0 s1 db1
                db0_customers_minted H1) as (s2 & H2 & Hc & _).
    exists s1, db1, s2. repeat split; assumption.
  - vm_compute in H1. discriminate H1.
Defined.

Lemma createCustomerSession_then_getCustomer_witness :
  exists s db1 c,
    createCustomerSession decimal_StringToBigInt decZ empty_env 5000 shopX
                          customer_12345 db0 = (Val s, db1) /\
    getCustomer decimal_StringToBigInt shopX "12345" db1 = Some c /\
    customer_view c = cs_customer s.
Proof.
  destruct (createCustomerSession decimal_StringToBigInt decZ empty_env 5000
              shopX customer_12345 db0) as [[s|e] db1] eqn:H1.
  - destruct (createCustomerSession_then_getCustomer decimal_StringToBigInt
                decZ empty_env 5000 6000 shopX customer_12345 db0 s db1
                "12345" db0_customer_pkey H1 eq_refl eq_refl eq_refl)
      as (_ & c & Hc & Hv).
    exists s, db1, c. repeat split; assumption.
  - vm_compute in H1. discriminate H1.
Defined.

(** Customer 12345 fetches twice. *)
Lemma get_wishlist_registered_witness :
  let out := get_wishlist decimal_StringToBigInt empty_env 5000 shopX
                          (Some "12345"%string) db0 in
  exists w,
    fst out = shows empty_env 5000 shopX (Some "12345"%string) w (snd out) /\
    get_wishlist decimal_StringToBigInt empty_env 9000 shopX
                 (Some "12345"%string) (snd out)
    = (shows empty_env 9000 shopX (Some "12345"%string) w (snd out), snd out).
Proof.
  intros out.
  destruct (get_wishlist_registered decimal_StringToBigInt empty_env 5000 9000
              shopX (Some "12345"%string) db0 (fst out) (snd out)
              eq_refl (surjective_pairing out) eq_refl)
    as (sh & n & c & w & _ & _ & _ & _ & _ & H1 & H2).
  exists w. split; assumption.
Defined.

(** The guest of wishlist "g1" fetches it. *)
Lemma get_wishlist_guest_existing_witness :
  get_wishlist decimal_StringToBigInt empty_env 5000 shopX
               (Some "guest_g1"%string) db0 = (fetch_failed, db0).
Proof.
  apply (get_wishlist_guest_existing decimal_StringToBigInt empty_env 5000
           shopX (Some "guest_g1"%string) db0 shop1 guestWishlist).
  - reflexivity.
  - reflexivity.
  - reflexivity.
Defined.

(** A guest with the new key "g3" fetches twice. *)
Lemma get_wishlist_guest_once_witness :
  let out := get_wishlist decimal_StringToBigInt empty_env 5000 shopX
                          (Some "guest_g3"%string) db0 in
  get_wishlist decimal_StringToBigInt empty_env 9000 shopX
               (Some "guest_g3"%string) (snd out) = (fetch_failed, snd out).
Proof.
  intros out.
  apply (get_wishlist_guest_once decimal_StringToBigInt empty_env 5000 9000
           shopX "g3" db0 (fst out) (snd out)).
  - discriminate.
  - exact (surjective_pairing out).
  - reflexivity.
Defined.

(** Wishlist "g1" (A, B) folded into customer 12345's wishlist (A). *)
Lemma migrate_folds_witness :
  let out := migrate decimal_StringToBigInt empty_env 5000 shopX
                     (Some "12345"%string) migrate_g1 db0 in
  exists cw new,
    wishlist_findUnique 1 2 (snd out) = Some cw /\
    fst out = migrated empty_env 5000 shopX (Some "12345"%string)
                       (List.length new) /\
    items_of (wl_id cw) (snd out) = (items_of (wl_id cw) db0 ++ new)%list.
Proof.
  intros out.
  destruct (migrate_folds decimal_StringToBigInt empty_env 5000 shopX
              (Some "12345"%string) migrate_g1 db0 "guest_g1" shop1 customerC
              guestWishlist guestA [guestB] (fst out) (snd out)
              (ready_example migrate_g1 "guest_g1" eq_refl
                 ltac:(discriminate))
              db0_keyed eq_refl eq_refl (surjective_pairing out) eq_refl)
    as (cw & new & H1 & H2 & H3 & _).
  exists cw, new. repeat split; assumption.
Defined.

(** An add without its fields is refused and writes nothing. *)
Lemma rejections_write_nothing_witness :
  snd (post_items decimal_StringToBigInt empty_env 5000 shopX
                  (Some "12345"%string) [] db0) = db0.
Proof.
  apply (rejections_write_nothing decimal_StringToBigInt empty_env 5000 shopX
           (Some "12345"%string) [] 0%nat db0
           (fst (post_items decimal_StringToBigInt empty_env 5000 shopX
                            (Some "12345"%string) [] db0))).
  - left. apply surjective_pairing.
  - left. reflexivity.
Defined.

(** The guest of the empty wishlist "g2" removes item 7 of wishlist "g1". *)
Lemma delete_item_by_guest_witness :
  status (fst (delete_item decimal_StringToBigInt empty_env 5000 shopX
                           (Some "guest_g2"%string) 7 db0)) = 200%nat /\
  wishlistItem_findUnique 7
    (snd (delete_item decimal_StringToBigInt empty_env 5000 shopX
                      (Some "guest_g2"%string) 7 db0)) = None.
Proof.
  destruct (delete_item_by_guest decimal_StringToBigInt empty_env 5000 shopX
              (Some "guest_g2"%string) 7 db0 shop1 guestA guestWishlist
              eq_refl eq_refl eq_refl eq_refl eq_refl) as [Hrun Hgone].
  rewrite Hrun. split; [reflexivity|exact Hgone].
Defined.

Lemma db0_items_minted :
  forall it, In it (items db0) -> (it_wishlistId it < nextId db0)%nat.
Proof. intros it [<-|[<-|[<-|[]]]]; cbn; lia. Defined.

(** An anonymous guest adds the hat twice. *)
Lemma anonymous_adds_never_conflict_witness :
  exists r1 db1,
    post_items decimal_StringToBigInt empty_env 5000 shopX None add_hat db0
    = (r1, db1) /\
    status r1 = 201%nat /\
    post_items decimal_StringToBigInt empty_env 5000 shopX None add_hat db1
    = ({| status := 500; json := ErrorBody "Internal server error" |}, db1) /\
    exists r2 db2,
      post_items decimal_StringToBigInt empty_env 9000 shopX None add_hat db1
      = (r2, db2) /\
      status r2 = 201%nat.
Proof.
  destruct (anonymous_adds_never_conflict decimal_StringToBigInt empty_env
              5000 9000 shopX None add_hat db0 shop1 101 201 "hat")
    as (r1 & db1 & H1 & Hs1 & Hsame & Hother).
  - split; [reflexivity|intros d; reflexivity].
  - reflexivity.
  - reflexivity.
  - reflexivity.
  - discriminate.
  - reflexivity.
  - reflexivity.
  - reflexivity.
  - reflexivity.
  - reflexivity.
  - reflexivity.
  - exact db0_items_minted.
  - reflexivity.
  - reflexivity.
  - exists r1, db1. split; [exact H1|]. split; [exact Hs1|].
    split; [exact Hsame|].
    destruct Hother as (r2 & db2 & _ & _ & H2 & Hs2 & _).
    + vm_compute. discriminate.
    + exists r2, db2. split; assumption.
Defined.

(** The guest of the new key "g3" adds the hat, and customer 12345 migrates
    under that key. *)
Lemma guest_add_then_migrate_witness :
  let added := post_items decimal_StringToBigInt empty_env 5000 shopX
                          (Some "guest_g3"%string) add_hat db0 in
  let merged := migrate decimal_StringToBigInt empty_env 9000 shopX
                        (Some "12345"%string) [("guestToken", JStr "guest_g3")]
                        (snd added) in
  exists cw,
    wishlist_findUnique 1 2 (snd merged) = Some cw /\
    In (101, 201) (keys (items_of (wl_id cw) (snd merged))) /\
    wishlist_findFirst_guest 1 "g3" (snd merged) = None.
Proof.
  intros added merged.
  destruct (guest_add_then_migrate decimal_StringToBigInt empty_env 5000 9000
              shopX "g3" (Some "12345"%string) add_hat
              [("guestToken", JStr "guest_g3")] db0
              (fst added) (snd added) (fst merged) (snd merged))
    as (sh & c & cw & p & v & Hs & Hc & _ & Hn & Hp & Hv & _ & Hcw & Hin
        & Hgone).
  - discriminate.
  - exact db0_keyed.
  - exact (surjective_pairing added).
  - reflexivity.
  - reflexivity.
  - exact (surjective_pairing merged).
  - reflexivity.
  - injection Hs as <-. injection Hp as <-. injection Hv as <-.
    assert (c = customerC) as ->.
    { destruct Hc as [<-|[<-|[]]]; [reflexivity|discriminate Hn]. }
    exists cw. repeat split; assumption.
Defined.
